(** * cAdvisor: per-container telemetry core

    A shallow embedding of [manager/container.go] (the per-container tracker:
    housekeeping, load smoothing, process listing), of the
    [ConvertibleBool] JSON decoder of the vendored Docker client and of the
    InfluxDB v2 storage driver's [AddStats], with the properties the
    specification states about them.

    Go values are embedded as follows.
    - [int64], [uint64], [int32]: [Z], with the wrap-around written out.
    - [float64]: Rocq's primitive binary64 floats.
    - [time.Time]: nanoseconds as [Z]; [time.Duration]: an [int64].
    - [error]: [option error], [None] being [nil].
    - interfaces ([ContainerHandler], [CollectorManager], the memory cache,
      the clock): type classes over an abstract state, every call returning
      the next state. *)

From Stdlib Require Import ZArith List String Ascii Bool Lia.
From Stdlib Require Import Floats Uint63.
Import ListNotations.

Set Implicit Arguments.
Open Scope Z_scope.

(** ** Go's machine numbers and library functions *)

Module Go.

(** An [error] value is what built it: [errors.New(text)] or
    [fmt.Errorf(format, args...)]. The package only tests errors against
    [nil] and passes them on. *)
Inductive error : Type :=
| errors_New (text : string)
| fmt_Errorf (format : string) (args : list value)
with value : Type :=
| VString (s : string)
| VInt (z : Z)
| VError (e : error).

(** [uint64] arithmetic wraps modulo 2^64. *)
Definition wrap_uint64 (z : Z) : Z := z mod 2 ^ 64.

(** [int64] arithmetic wraps into [-2^63, 2^63). *)
Definition wrap_int64 (z : Z) : Z := (z + 2 ^ 63) mod 2 ^ 64 - 2 ^ 63.

Definition MaxInt64 : Z := 2 ^ 63 - 1.
Definition MinInt64 : Z := - 2 ^ 63.
Definition MinInt32 : Z := - 2 ^ 31.
Definition MaxInt32 : Z := 2 ^ 31 - 1.

Definition is_int64 (z : Z) : Prop := MinInt64 <= z <= MaxInt64.
Definition is_uint64 (z : Z) : Prop := 0 <= z < 2 ^ 64.

(** [time.Duration] is an [int64] count of nanoseconds. *)
Definition Duration : Type := Z.
Definition Nanosecond : Duration := 1.
Definition Millisecond : Duration := 1000000.
Definition Second : Duration := 1000000000.
Definition Minute : Duration := 60 * Second.

(** [time.Time], as nanoseconds since the Unix epoch. The zero [Time]
    (January 1, year 1) lies 62135596800 seconds before the epoch. *)
Definition Time : Type := Z.
Definition zeroTime : Time := - 62135596800 * Second.

(** [t.Sub(u)]: the difference, saturated to the range of [Duration]. *)
Definition Time_Sub (t u : Time) : Duration :=
  Z.max MinInt64 (Z.min MaxInt64 (t - u)).

Definition Time_Before (t u : Time) : bool := t <? u.

(** [t.Add(d)]. *)
Definition Time_Add (t : Time) (d : Duration) : Time := t + d.

(** [float64(x)] for [x : uint64], rounded to nearest, ties to even. A
    value below 2^63 is converted as it is. A value with the top bit set
    is halved with its lowest bit kept sticky, converted and doubled, which
    rounds as the direct conversion does. *)
Definition float64_of_uint64 (z : Z) : float :=
  if z <? 2 ^ 63 then of_uint63 (Uint63.of_Z z)
  else
    let y := of_uint63 (Uint63.of_Z (Z.lor (Z.shiftr z 1) (Z.land z 1))) in
    (y + y)%float.

(** [float64(x)] for [x : int64]: the conversion of the magnitude, with
    the sign. *)
Definition float64_of_int64 (z : Z) : float :=
  if z <? 0 then (- float64_of_uint64 (- z))%float
  else float64_of_uint64 z.

(** The integer part of a finite float, towards zero. *)
Definition float64_trunc (f : float) : option Z :=
  match Prim2SF f with
  | S754_zero _ => Some 0
  | S754_finite s m e =>
      let a := if 0 <=? e then Z.shiftl (Z.pos m) e else Z.shiftr (Z.pos m) (- e) in
      Some (if s then - a else a)
  | S754_infinity _ | S754_nan => None
  end.

(** [int32(f)] for [f : float64]: the fraction is discarded (truncation
    towards zero). Out of the range of [int32], and for infinities and
    NaN, the language leaves the result to the implementation; amd64's
    conversion instruction gives the smallest [int32]. *)
Definition int32_of_float64 (f : float) : Z :=
  match float64_trunc f with
  | Some z => if (MinInt32 <=? z) && (z <=? MaxInt32) then z else MinInt32
  | None => MinInt32
  end.

(** [float32(f)] for [f : float64]: rounded to 24 bits of precision, and
    held as the binary64 float of the same value. *)
Definition float32_of_float64 (f : float) : float :=
  match Prim2SF f with
  | S754_finite s m e => SF2Prim (binary_round 24 128 s m e)
  | _ => f
  end.

(** [strings.Split(s, sep)] for a separator of one byte. *)
Fixpoint strings_Split (s : string) (sep : ascii) : list string :=
  match s with
  | EmptyString => [EmptyString]
  | String ch rest =>
      if Ascii.eqb ch sep then EmptyString :: strings_Split rest sep
      else match strings_Split rest sep with
           | [] => [String ch EmptyString]
           | x :: xs => String ch x :: xs
           end
  end.

Definition newline : ascii := Ascii.ascii_of_nat 10.

(** [d.Seconds()]: whole seconds plus the fraction, both converted
    exactly, then one rounding division and one rounding sum. *)
Definition Duration_Seconds (d : Duration) : float :=
  let sec := Z.quot d Second in
  let nsec := Z.rem d Second in
  (float64_of_int64 sec + float64_of_int64 nsec / 1e9)%float.

(** [strings.LastIndex(s, sep)] for a separator of one byte: the index of
    its last occurrence, or -1. *)
Fixpoint strings_LastIndex (s : string) (sep : ascii) : Z :=
  match s with
  | EmptyString => -1
  | String ch rest =>
      let n := strings_LastIndex rest sep in
      if 0 <=? n then n + 1
      else if Ascii.eqb ch sep then 0 else -1
  end.

(** [strings.Contains(s, sep)] for a separator of one byte. *)
Fixpoint strings_Contains (s : string) (sep : ascii) : bool :=
  match s with
  | EmptyString => false
  | String ch rest => Ascii.eqb ch sep || strings_Contains rest sep
  end.

(** The slices [s[:n]] and [s[n:]] of a string, for [n] within its
    length. *)
Fixpoint slice_to (s : string) (n : nat) : string :=
  match n, s with
  | O, _ => EmptyString
  | S n', String ch rest => String ch (slice_to rest n')
  | S _, EmptyString => EmptyString
  end.

Fixpoint slice_from (s : string) (n : nat) : string :=
  match n, s with
  | O, _ => s
  | S n', String _ rest => slice_from rest n'
  | S _, EmptyString => EmptyString
  end.

End Go.

(** A float that is not negative and not a NaN, by its decoding. *)
Definition sf_nonneg (x : spec_float) : Prop :=
  match x with
  | S754_zero _ => True
  | S754_infinity s | S754_finite s _ _ => s = false
  | S754_nan => False
  end.

(** ** The data model of [info/v1] and [info/v2] *)

Module info.

(** Modelled from the spec: [ContainerReference] is declared in [info/v1]:
    "canonical name (cgroup-like path, e.g. "/" for root), display
    aliases, namespace label". *)
Record ContainerReference := {
  Name : string;
  Aliases : list string;
  Namespace : string }.

(** Modelled from the spec: the spec of a custom metric, of which the
    tracker only counts and stores the list. *)
Record MetricSpec := { MetricName : string }.

(** Modelled from the spec: [ContainerSpec] is declared in [info/v1]:
    "declared capabilities and limits for a container: CPU limits, memory
    limits, which subsystems exist, whether custom metrics are declared".
    [updateSpec] writes the last two fields. *)
Record ContainerSpec := {
  HasCpu : bool;
  CpuLimit : Z;
  HasMemory : bool;
  MemoryLimit : Z;
  HasCustomMetrics : bool;
  CustomMetrics : list MetricSpec }.

Definition ContainerSpec_zero : ContainerSpec :=
  {| HasCpu := false; CpuLimit := 0; HasMemory := false; MemoryLimit := 0;
     HasCustomMetrics := false; CustomMetrics := [] |}.

Definition set_CustomMetrics (ms : list MetricSpec) (sp : ContainerSpec) :=
  {| HasCpu := HasCpu sp; CpuLimit := CpuLimit sp; HasMemory := HasMemory sp;
     MemoryLimit := MemoryLimit sp; HasCustomMetrics := true; CustomMetrics := ms |}.

(** Modelled from the spec: [LoadStats] is declared in [info/v1]: the task
    counts "(running, uninterruptible, iowait)", unsigned 64-bit
    counters. Go compares two of them with [==], field by field. *)
Record LoadStats := {
  NrRunning : Z;
  NrUninterruptible : Z;
  NrIoWait : Z }.

Definition LoadStats_eqb (a b : LoadStats) : bool :=
  (NrRunning a =? NrRunning b) && (NrUninterruptible a =? NrUninterruptible b)
  && (NrIoWait a =? NrIoWait b).

Definition LoadStats_zero : LoadStats :=
  {| NrRunning := 0; NrUninterruptible := 0; NrIoWait := 0 |}.

(** Modelled from the spec: a value of a custom metric, which the tracker
    only passes on. *)
Record MetricVal := { IntValue : Z; FloatValue : float }.

Record CpuUsage := {
  Total : Z; System : Z; User : Z; Throttled : Z }.

Record CpuStats := { Usage : CpuUsage; LoadAverage : Z }.

Record MemoryStats := { MemUsage : Z; RSS : Z; WorkingSet : Z }.

Definition MemoryStats_zero : MemoryStats :=
  {| MemUsage := 0; RSS := 0; WorkingSet := 0 |}.

Record PerDiskStats := { Major : Z; Minor : Z; Stats : list (string * Z) }.

Record DiskIoStats := {
  IoServiceBytes : list PerDiskStats;
  IoServiced : list PerDiskStats }.

Record NetworkStats := {
  RxBytes : Z; RxErrors : Z; TxBytes : Z; TxErrors : Z }.

Record FsStats := { Device : string; Limit : Z; FsUsage : Z }.

(** Modelled from the spec: [ContainerStats] is declared in [info/v1]; the
    fields are those the spec lists and the storage driver reads. *)
Record ContainerStats := {
  Timestamp : Go.Time;
  Cpu : CpuStats;
  DiskIo : DiskIoStats;
  Memory : MemoryStats;
  Network : NetworkStats;
  Filesystem : list FsStats;
  TaskStats : LoadStats;
  StatsCustomMetrics : option (list (string * list MetricVal)) }.

(** The zero value of the struct. *)
Definition ContainerStats_zero : ContainerStats :=
  {| Timestamp := Go.zeroTime;
     Cpu := {| Usage := {| Total := 0; System := 0; User := 0; Throttled := 0 |};
               LoadAverage := 0 |};
     DiskIo := {| IoServiceBytes := []; IoServiced := [] |};
     Memory := MemoryStats_zero;
     Network := {| RxBytes := 0; RxErrors := 0; TxBytes := 0; TxErrors := 0 |};
     Filesystem := [];
     TaskStats := LoadStats_zero;
     StatsCustomMetrics := None |}.

Definition set_LoadAverage (v : Z) (st : ContainerStats) : ContainerStats :=
  {| Timestamp := Timestamp st;
     Cpu := {| Usage := Usage (Cpu st); LoadAverage := v |};
     DiskIo := DiskIo st; Memory := Memory st; Network := Network st;
     Filesystem := Filesystem st; TaskStats := TaskStats st;
     StatsCustomMetrics := StatsCustomMetrics st |}.

Definition set_TaskStats (v : LoadStats) (st : ContainerStats) : ContainerStats :=
  {| Timestamp := Timestamp st; Cpu := Cpu st;
     DiskIo := DiskIo st; Memory := Memory st; Network := Network st;
     Filesystem := Filesystem st; TaskStats := v;
     StatsCustomMetrics := StatsCustomMetrics st |}.

Definition set_StatsCustomMetrics (v : option (list (string * list MetricVal)))
    (st : ContainerStats) : ContainerStats :=
  {| Timestamp := Timestamp st; Cpu := Cpu st;
     DiskIo := DiskIo st; Memory := Memory st; Network := Network st;
     Filesystem := Filesystem st; TaskStats := TaskStats st;
     StatsCustomMetrics := v |}.

End info.

Module v2.

(** [PercentCpu] and [PercentMemory] are [float32] values, held in a
    binary64 float. *)
Record ProcessInfo := {
  User : string;
  Pid : Z;
  Ppid : Z;
  StartTime : string;
  PercentCpu : float;
  PercentMemory : float;
  RSS : Z;
  VirtualSize : Z;
  Status : string;
  RunningTime : string;
  Cmd : string;
  CgroupPath : string }.

End v2.

(** ** The interfaces the tracker consumes

    Each interface is a class over the state of the object behind it; a call
    returns its results and the object's next state. A Go result pair
    [(value, err)] is a pair whose second component is [None] for [nil]. *)

Inductive ListType := ListSelf | ListRecursive.

Class ContainerHandler (H : Type) := {
  handler_ContainerReference : H -> (info.ContainerReference * option Go.error) * H;
  handler_GetSpec : H -> (info.ContainerSpec * option Go.error) * H;
  handler_GetStats : H -> (option info.ContainerStats * option Go.error) * H;
  handler_ListContainers :
    ListType -> H -> (list info.ContainerReference * option Go.error) * H;
  handler_GetCgroupPath : string -> H -> (string * option Go.error) * H;
  handler_Exists : H -> bool * H }.

(** [collector.GenericCollectorManager]: [updateStats] reads its fields
    [Collectors] (only the length) and [NextCollectionTime] directly. *)
Class CollectorManager (M : Type) := {
  cm_GetSpec : M -> (list info.MetricSpec * option Go.error) * M;
  cm_Collect :
    M -> (Go.Time * option (list (string * list info.MetricVal)) * option Go.error) * M;
  cm_Collectors_len : M -> Z;
  cm_NextCollectionTime : M -> Go.Time }.

Class StatsSummary (S : Type) := {
  summary_New : info.ContainerSpec -> option S * option Go.error;
  summary_AddSample : info.ContainerStats -> S -> option Go.error * S }.

(** [memory.InMemoryCache]. [cache_RecentStats name start end n]. *)
Class InMemoryCache (C : Type) := {
  cache_AddStats :
    info.ContainerReference -> info.ContainerStats -> C -> option Go.error * C;
  cache_RecentStats :
    string -> Go.Time -> Go.Time -> Z -> C -> list info.ContainerStats * option Go.error;
  cache_RemoveContainer : string -> C -> option Go.error * C }.

Class CpuLoadReader (L : Type) := {
  cpuload_New : option L * option Go.error;
  loadReader_GetCpuLoad : string -> string -> L -> (info.LoadStats * option Go.error) * L }.

(** [time.Now()]: reading the clock yields an instant and the clock's next
    state. *)
Class Clock (K : Type) := {
  clock_Now : K -> Go.Time * K }.

(** The command-line flags of the package, read through pointers in the
    source. *)
Record Flags := {
  HousekeepingInterval : Go.Duration;
  enableLoadReader : bool;
  LoadreaderInterval : Go.Duration;
  MaxLoadReaderInterval : Go.Duration;
  PanicTimeout : Go.Duration }.

Definition defaultFlags : Flags :=
  {| HousekeepingInterval := 1 * Go.Second;
     enableLoadReader := false;
     LoadreaderInterval := 1 * Go.Second;
     MaxLoadReaderInterval := 60 * Go.Second;
     PanicTimeout := 1 * Go.Minute |}.

(** Methods of [info/v1] types that the tracker calls: [StatsEq] on two
    samples and the order [sort.Sort] gives to a slice of references. *)
Class InfoMethods := {
  StatsEq : info.ContainerStats -> info.ContainerStats -> bool;
  sort_ContainerReferenceSlice :
    list info.ContainerReference -> list info.ContainerReference }.

(** Functions of Go's library and of the operating system that the package
    calls: [math.Exp]; [strings.Fields] (Unicode white space);
    [strconv.Atoi], [strconv.ParseFloat(s, 32)], [strconv.ParseUint(s, 0, 64)];
    the matches of the package's [cgroupPathRegExp]; the output of a
    command run with [exec.Command(name, args...).Output()]. *)
Class Platform := {
  math_Exp : float -> float;
  strings_Fields : string -> list string;
  strconv_Atoi : string -> Z * option Go.error;
  strconv_ParseFloat32 : string -> float * option Go.error;
  strconv_ParseUint : string -> Z * option Go.error;
  cgroupPathRegExp_FindSubmatch : string -> list string;
  exec_Command_Output : string -> list string -> string * option Go.error }.

(** The files the tracker reads: [ioutil.ReadFile(path)], and
    [path.Join(elems...)], which joins and cleans a path. *)
Class FileSystem := {
  ioutil_ReadFile : string -> string * option Go.error;
  path_Join : list string -> string }.

(** ** The tracker: [containerData] *)

Record containerInfo := {
  Reference : info.ContainerReference;
  Subcontainers : list info.ContainerReference;
  Spec : info.ContainerSpec }.

Definition set_Spec (v : info.ContainerSpec) (i : containerInfo) : containerInfo :=
  {| Reference := Reference i; Subcontainers := Subcontainers i; Spec := v |}.

Definition set_Subcontainers (v : list info.ContainerReference) (i : containerInfo)
    : containerInfo :=
  {| Reference := Reference i; Subcontainers := v; Spec := Spec i |}.

(** What [glog] is asked to write, one constructor per call of the
    package. *)
Inductive LogEntry :=
| Infof_FailedUpdateStats (name : string) (err : Go.error)
| V2_FailedSummaryStats (name : string) (err : Go.error)
| V3_HousekeepingTook (name : string) (d : Go.Duration)
| Infof_FailedRecentStatsUsage (name : string) (err : Go.error)
| Infof_Usage (name : string) (instant average : float) (memory : Z)
| Warningf_FailedRecentStats (name : string) (err : Go.error)
| Infof_NoLoadReader (name : string) (err : Go.error)
| Warningf_NoSummaryReader (name : string) (err : Go.error).

(** The effects of the tracker that its callers can observe: lines handed to
    [glog] and samples handed to the cache. *)
Inductive Event :=
| Glog (e : LogEntry)
| CacheAddStats (ref : info.ContainerReference) (stats : info.ContainerStats).

Definition is_Glog (e : Event) : bool :=
  match e with Glog _ => true | CacheAddStats _ _ => false end.

Definition is_CacheAddStats (e : Event) : bool :=
  match e with Glog _ => false | CacheAddStats _ _ => true end.

Definition DurationMin (d1 d2 : Go.Duration) : Go.Duration :=
  if d1 <? d2 then d1 else d2.

(** *** State transformers

    A method with a pointer receiver reads and writes the object it is
    called on: it is a function from the state before the call to its
    result and the state after. *)

Definition StateOp (R A : Type) : Type := R -> A * R.

Definition ret {R A} (a : A) : StateOp R A := fun r => (a, r).

Definition bind {R A B} (m : StateOp R A) (k : A -> StateOp R B) : StateOp R B :=
  fun r => let (a, r') := m r in k a r'.

Declare Scope op_scope.
Delimit Scope op_scope with op.
Notation "x <- m ;; k" := (bind m (fun x => k))
  (at level 61, m at next level, right associativity) : op_scope.
Notation "' p <- m ;; k" := (bind m (fun p => k))
  (at level 61, p pattern, m at next level, right associativity) : op_scope.
Notation "m ;;; k" := (bind m (fun _ => k))
  (at level 61, right associativity) : op_scope.

Section Tracker.

Context {HT CT MT ST LT KT : Type}.
Context {handlerI : ContainerHandler HT} {cacheI : InMemoryCache CT}
        {collectorI : CollectorManager MT} {summaryI : StatsSummary ST}
        {loadI : CpuLoadReader LT} {clockI : Clock KT}
        {infoI : InfoMethods} {platformI : Platform}.
Variable flags : Flags.

Record containerData := {
  handler : HT;
  info : containerInfo;
  memoryCache : CT;
  loadReader : option LT;
  summaryReader : option ST;
  housekeepingInterval : Go.Duration;
  maxHousekeepingInterval : Go.Duration;
  allowDynamicHousekeeping : bool;
  lastUpdatedTime : Go.Time;
  lastErrorTime : Go.Time;
  loadAvg : float;
  loadAvgLastProbeTime : Go.Time;
  loadreaderInterval : Go.Duration;
  taskStats : info.LoadStats;
  logUsage : bool;
  collectorManager : MT }.

Definition set_handler (v : HT) (c : containerData) : containerData :=
  {| handler := v; info := info c; memoryCache := memoryCache c; loadReader :=
     loadReader c; summaryReader := summaryReader c; housekeepingInterval :=
     housekeepingInterval c; maxHousekeepingInterval := maxHousekeepingInterval c;
     allowDynamicHousekeeping := allowDynamicHousekeeping c; lastUpdatedTime :=
     lastUpdatedTime c; lastErrorTime := lastErrorTime c; loadAvg := loadAvg c;
     loadAvgLastProbeTime := loadAvgLastProbeTime c; loadreaderInterval :=
     loadreaderInterval c; taskStats := taskStats c; logUsage := logUsage c;
     collectorManager := collectorManager c |}.

Definition set_info (v : containerInfo) (c : containerData) : containerData :=
  {| handler := handler c; info := v; memoryCache := memoryCache c; loadReader :=
     loadReader c; summaryReader := summaryReader c; housekeepingInterval :=
     housekeepingInterval c; maxHousekeepingInterval := maxHousekeepingInterval c;
     allowDynamicHousekeeping := allowDynamicHousekeeping c; lastUpdatedTime :=
     lastUpdatedTime c; lastErrorTime := lastErrorTime c; loadAvg := loadAvg c;
     loadAvgLastProbeTime := loadAvgLastProbeTime c; loadreaderInterval :=
     loadreaderInterval c; taskStats := taskStats c; logUsage := logUsage c;
     collectorManager := collectorManager c |}.

Definition set_memoryCache (v : CT) (c : containerData) : containerData :=
  {| handler := handler c; info := info c; memoryCache := v; loadReader :=
     loadReader c; summaryReader := summaryReader c; housekeepingInterval :=
     housekeepingInterval c; maxHousekeepingInterval := maxHousekeepingInterval c;
     allowDynamicHousekeeping := allowDynamicHousekeeping c; lastUpdatedTime :=
     lastUpdatedTime c; lastErrorTime := lastErrorTime c; loadAvg := loadAvg c;
     loadAvgLastProbeTime := loadAvgLastProbeTime c; loadreaderInterval :=
     loadreaderInterval c; taskStats := taskStats c; logUsage := logUsage c;
     collectorManager := collectorManager c |}.

Definition set_loadReader (v : option LT) (c : containerData) : containerData :=
  {| handler := handler c; info := info c; memoryCache := memoryCache c;
     loadReader := v; summaryReader := summaryReader c; housekeepingInterval :=
     housekeepingInterval c; maxHousekeepingInterval := maxHousekeepingInterval c;
     allowDynamicHousekeeping := allowDynamicHousekeeping c; lastUpdatedTime :=
     lastUpdatedTime c; lastErrorTime := lastErrorTime c; loadAvg := loadAvg c;
     loadAvgLastProbeTime := loadAvgLastProbeTime c; loadreaderInterval :=
     loadreaderInterval c; taskStats := taskStats c; logUsage := logUsage c;
     collectorManager := collectorManager c |}.

Definition set_summaryReader (v : option ST) (c : containerData) : containerData :=
  {| handler := handler c; info := info c; memoryCache := memoryCache c;
     loadReader := loadReader c; summaryReader := v; housekeepingInterval :=
     housekeepingInterval c; maxHousekeepingInterval := maxHousekeepingInterval c;
     allowDynamicHousekeeping := allowDynamicHousekeeping c; lastUpdatedTime :=
     lastUpdatedTime c; lastErrorTime := lastErrorTime c; loadAvg := loadAvg c;
     loadAvgLastProbeTime := loadAvgLastProbeTime c; loadreaderInterval :=
     loadreaderInterval c; taskStats := taskStats c; logUsage := logUsage c;
     collectorManager := collectorManager c |}.

Definition set_housekeepingInterval (v : Go.Duration) (c : containerData) : containerData :=
  {| handler := handler c; info := info c; memoryCache := memoryCache c;
     loadReader := loadReader c; summaryReader := summaryReader c;
     housekeepingInterval := v; maxHousekeepingInterval := maxHousekeepingInterval
     c; allowDynamicHousekeeping := allowDynamicHousekeeping c; lastUpdatedTime :=
     lastUpdatedTime c; lastErrorTime := lastErrorTime c; loadAvg := loadAvg c;
     loadAvgLastProbeTime := loadAvgLastProbeTime c; loadreaderInterval :=
     loadreaderInterval c; taskStats := taskStats c; logUsage := logUsage c;
     collectorManager := collectorManager c |}.

Definition set_lastUpdatedTime (v : Go.Time) (c : containerData) : containerData :=
  {| handler := handler c; info := info c; memoryCache := memoryCache c;
     loadReader := loadReader c; summaryReader := summaryReader c;
     housekeepingInterval := housekeepingInterval c; maxHousekeepingInterval :=
     maxHousekeepingInterval c; allowDynamicHousekeeping :=
     allowDynamicHousekeeping c; lastUpdatedTime := v; lastErrorTime :=
     lastErrorTime c; loadAvg := loadAvg c; loadAvgLastProbeTime :=
     loadAvgLastProbeTime c; loadreaderInterval := loadreaderInterval c; taskStats
     := taskStats c; logUsage := logUsage c; collectorManager := collectorManager
     c |}.

Definition set_lastErrorTime (v : Go.Time) (c : containerData) : containerData :=
  {| handler := handler c; info := info c; memoryCache := memoryCache c;
     loadReader := loadReader c; summaryReader := summaryReader c;
     housekeepingInterval := housekeepingInterval c; maxHousekeepingInterval :=
     maxHousekeepingInterval c; allowDynamicHousekeeping :=
     allowDynamicHousekeeping c; lastUpdatedTime := lastUpdatedTime c;
     lastErrorTime := v; loadAvg := loadAvg c; loadAvgLastProbeTime :=
     loadAvgLastProbeTime c; loadreaderInterval := loadreaderInterval c; taskStats
     := taskStats c; logUsage := logUsage c; collectorManager := collectorManager
     c |}.

Definition set_loadAvg (v : float) (c : containerData) : containerData :=
  {| handler := handler c; info := info c; memoryCache := memoryCache c;
     loadReader := loadReader c; summaryReader := summaryReader c;
     housekeepingInterval := housekeepingInterval c; maxHousekeepingInterval :=
     maxHousekeepingInterval c; allowDynamicHousekeeping :=
     allowDynamicHousekeeping c; lastUpdatedTime := lastUpdatedTime c;
     lastErrorTime := lastErrorTime c; loadAvg := v; loadAvgLastProbeTime :=
     loadAvgLastProbeTime c; loadreaderInterval := loadreaderInterval c; taskStats
     := taskStats c; logUsage := logUsage c; collectorManager := collectorManager
     c |}.

Definition set_loadAvgLastProbeTime (v : Go.Time) (c : containerData) : containerData :=
  {| handler := handler c; info := info c; memoryCache := memoryCache c;
     loadReader := loadReader c; summaryReader := summaryReader c;
     housekeepingInterval := housekeepingInterval c; maxHousekeepingInterval :=
     maxHousekeepingInterval c; allowDynamicHousekeeping :=
     allowDynamicHousekeeping c; lastUpdatedTime := lastUpdatedTime c;
     lastErrorTime := lastErrorTime c; loadAvg := loadAvg c; loadAvgLastProbeTime
     := v; loadreaderInterval := loadreaderInterval c; taskStats := taskStats c;
     logUsage := logUsage c; collectorManager := collectorManager c |}.

Definition set_loadreaderInterval (v : Go.Duration) (c : containerData) : containerData :=
  {| handler := handler c; info := info c; memoryCache := memoryCache c;
     loadReader := loadReader c; summaryReader := summaryReader c;
     housekeepingInterval := housekeepingInterval c; maxHousekeepingInterval :=
     maxHousekeepingInterval c; allowDynamicHousekeeping :=
     allowDynamicHousekeeping c; lastUpdatedTime := lastUpdatedTime c;
     lastErrorTime := lastErrorTime c; loadAvg := loadAvg c; loadAvgLastProbeTime
     := loadAvgLastProbeTime c; loadreaderInterval := v; taskStats := taskStats c;
     logUsage := logUsage c; collectorManager := collectorManager c |}.

Definition set_taskStats (v : info.LoadStats) (c : containerData) : containerData :=
  {| handler := handler c; info := info c; memoryCache := memoryCache c;
     loadReader := loadReader c; summaryReader := summaryReader c;
     housekeepingInterval := housekeepingInterval c; maxHousekeepingInterval :=
     maxHousekeepingInterval c; allowDynamicHousekeeping :=
     allowDynamicHousekeeping c; lastUpdatedTime := lastUpdatedTime c;
     lastErrorTime := lastErrorTime c; loadAvg := loadAvg c; loadAvgLastProbeTime
     := loadAvgLastProbeTime c; loadreaderInterval := loadreaderInterval c;
     taskStats := v; logUsage := logUsage c; collectorManager := collectorManager
     c |}.

Definition set_collectorManager (v : MT) (c : containerData) : containerData :=
  {| handler := handler c; info := info c; memoryCache := memoryCache c;
     loadReader := loadReader c; summaryReader := summaryReader c;
     housekeepingInterval := housekeepingInterval c; maxHousekeepingInterval :=
     maxHousekeepingInterval c; allowDynamicHousekeeping :=
     allowDynamicHousekeeping c; lastUpdatedTime := lastUpdatedTime c;
     lastErrorTime := lastErrorTime c; loadAvg := loadAvg c; loadAvgLastProbeTime
     := loadAvgLastProbeTime c; loadreaderInterval := loadreaderInterval c;
     taskStats := taskStats c; logUsage := logUsage c; collectorManager := v |}.

(** The running tracker: its fields, the clock and the events so far
    (latest first). *)
Record Runtime := {
  cd : containerData;
  clock : KT;
  events : list Event }.

Definition Op (A : Type) : Type := StateOp Runtime A.

Definition read {A} (f : containerData -> A) : Op A :=
  fun r => (f (cd r), r).

Definition update (f : containerData -> containerData) : Op unit :=
  fun r => (tt, {| cd := f (cd r); clock := clock r; events := events r |}).

Definition emit (e : Event) : Op unit :=
  fun r => (tt, {| cd := cd r; clock := clock r; events := e :: events r |}).

Definition glog (e : LogEntry) : Op unit := emit (Glog e).

Definition time_Now : Op Go.Time :=
  fun r => let (t, k) := clock_Now (clock r) in
           (t, {| cd := cd r; clock := k; events := events r |}).

Definition time_Since (t : Go.Time) : Op Go.Duration :=
  bind time_Now (fun now => ret (Go.Time_Sub now t)).

(** The tracker with its handler in state [h]. *)
Definition with_handler (h : HT) (r : Runtime) : Runtime :=
  {| cd := set_handler h (cd r); clock := clock r; events := events r |}.

(** A call on [c.handler]. *)
Definition onHandler {A} (op : HT -> A * HT) : Op A :=
  fun r => let (a, h) := op (handler (cd r)) in (a, with_handler h r).

(** A call on [c.collectorManager]. *)
Definition onCollectors {A} (op : MT -> A * MT) : Op A :=
  fun r => let (a, m) := op (collectorManager (cd r)) in
           (a, {| cd := set_collectorManager m (cd r); clock := clock r;
                  events := events r |}).

(** [c.memoryCache.AddStats(ref, stats)]. *)
Definition memoryCache_AddStats (ref : info.ContainerReference)
    (stats : info.ContainerStats) : Op (option Go.error) :=
  fun r => let (e, m) := cache_AddStats ref stats (memoryCache (cd r)) in
           (e, {| cd := set_memoryCache m (cd r); clock := clock r;
                  events := CacheAddStats ref stats :: events r |}).

(** [c.memoryCache.RecentStats(name, start, end, n)]. *)
Definition memoryCache_RecentStats (name : string) (starts ends : Go.Time) (n : Z)
    : Op (list info.ContainerStats * option Go.error) :=
  read (fun c => cache_RecentStats name starts ends n (memoryCache c)).


Local Open Scope op_scope.

Definition Name_of (c : containerData) : string := info.Name (Reference (info c)).

(** *** Rate-limited error logging *)

Definition allowErrorLogging : Op bool :=
  last <- read lastErrorTime ;;
  since <- time_Since last ;;
  if since >? Go.Minute then
    now <- time_Now ;;
    update (set_lastErrorTime now) ;;;
    ret true
  else ret false.

(** *** The load smoother *)

(** [newLoad]: the sum of the three task counts, in [uint64]. *)
Definition newLoad_of (newTaskStats : info.LoadStats) : Z :=
  Go.wrap_uint64
    (Go.wrap_uint64 (info.NrRunning newTaskStats + info.NrUninterruptible newTaskStats)
     + info.NrIoWait newTaskStats).

(** [loadDecay]: [math.Exp] of minus a tenth of the seconds since the last
    probe. *)
Definition loadDecay_of (probeTime last : Go.Time) : float :=
  math_Exp (- (Go.Duration_Seconds (Go.Time_Sub probeTime last) / 10))%float.

(** [updateLoadAvg]: the first sample is taken as it is; later ones are
    averaged in with a weight that decays with the time since the last
    probe. Every operation rounds on its own (no fused multiply-add). *)
Definition updateLoadAvg (probeTime : Go.Time) (newTaskStats : info.LoadStats)
    : Op unit :=
  let newLoad := newLoad_of newTaskStats in
  avg <- read loadAvg ;;
  (if (avg <? 0)%float then
     update (set_loadAvg (Go.float64_of_uint64 newLoad))
   else
     last <- read loadAvgLastProbeTime ;;
     let loadDecay := loadDecay_of probeTime last in
     update (set_loadAvg
               (Go.float64_of_uint64 newLoad * (1.0 - loadDecay) + avg * loadDecay)%float)) ;;;
  update (set_loadAvgLastProbeTime probeTime).

Definition LoadAvg : Op float := read loadAvg.

Definition updateTaskStats (taskStats' : info.LoadStats) : Op unit :=
  update (set_taskStats taskStats').

Definition TaskStats : Op info.LoadStats := read taskStats.

(** *** One probe of the load reader

    [doLoadReaderLoop] returns at once when [c.loadReader] is [nil]; the
    iteration is only ever run on a reader. *)
Definition doLoadReaderIteration : Op (option Go.error) :=
  '(path, err) <- onHandler (handler_GetCgroupPath "cpu") ;;
  match err with
  | Some _ => ret None
  | None =>
      lr <- read loadReader ;;
      match lr with
      | None => ret None
      | Some l =>
          name <- read Name_of ;;
          let '(newTaskStats, err, l') := loadReader_GetCpuLoad name path l in
          update (set_loadReader (Some l')) ;;;
          probeTime <- time_Now ;;
          match err with
          | Some e =>
              ret (Some (Go.fmt_Errorf "failed to get load stat for %q - path %q, error %s"
                           [Go.VString name; Go.VString path; Go.VError e]))
          | None =>
              dyn <- read allowDynamicHousekeeping ;;
              old <- TaskStats ;;
              (if dyn && info.LoadStats_eqb old newTaskStats then
                 update (fun c =>
                   set_loadreaderInterval
                     (DurationMin (Go.wrap_int64 (loadreaderInterval c * 2))
                                  (MaxLoadReaderInterval flags)) c)
               else update (set_loadreaderInterval (LoadreaderInterval flags))) ;;;
              updateTaskStats newTaskStats ;;;
              updateLoadAvg probeTime newTaskStats ;;;
              ret None
          end
      end
  end.

(** *** One collection of stats *)

Definition updateCustomStats
    : Op (option (list (string * list info.MetricVal)) * option Go.error) :=
  '(_, customStats, customStatsErr) <- onCollectors cm_Collect ;;
  match customStatsErr with
  | Some e =>
      ex <- onHandler handler_Exists ;;
      if negb ex then ret (customStats, None)
      else ret (customStats,
                Some (Go.fmt_Errorf "%v, continuing to push custom stats" [Go.VError e]))
  | None => ret (customStats, None)
  end.

(** The summary reader is fed the sample; its error is only logged. *)
Definition addSummarySample (stats : info.ContainerStats) : Op unit :=
  sr <- read summaryReader ;;
  match sr with
  | None => ret tt
  | Some sm =>
      let (err, sm') := summary_AddSample stats sm in
      update (set_summaryReader (Some sm')) ;;;
      match err with
      | Some e => name <- read Name_of ;; glog (V2_FailedSummaryStats name e)
      | None => ret tt
      end
  end.

(** The custom metrics, when collectors are registered and due. *)
Definition attachCustomStats (stats : info.ContainerStats)
    : Op (info.ContainerStats * option Go.error) :=
  n <- read (fun c => cm_Collectors_len (collectorManager c)) ;;
  if 0 <? n then
    next <- read (fun c => cm_NextCollectionTime (collectorManager c)) ;;
    now <- time_Now ;;
    if Go.Time_Before next now then
      '(customStats, err) <- updateCustomStats ;;
      ret (match customStats with
           | Some cs => info.set_StatsCustomMetrics (Some cs) stats
           | None => stats
           end, err)
    else ret (stats, None)
  else ret (stats, None).

(** The load average, in thousandths, written into the sample. *)
Definition attachLoad (load : float) (stats : info.ContainerStats)
    : info.ContainerStats :=
  if (0 <=? load)%float
  then info.set_LoadAverage (Go.int32_of_float64 (load * 1000)%float) stats
  else stats.

(** What [updateStats] does to a sample before it is pushed: the load
    average and the task stats are written into it, the summary reader
    is fed, the custom metrics are attached. The sample as pushed and the
    collectors' error. *)
Definition prepareStats (stats : info.ContainerStats)
    : Op (info.ContainerStats * option Go.error) :=
  load <- LoadAvg ;;
  let stats := attachLoad load stats in
  taskStats <- TaskStats ;;
  let stats := info.set_TaskStats taskStats stats in
  addSummarySample stats ;;;
  attachCustomStats stats.

(** The end of [updateStats]: the reference is asked of the handler, the
    sample is added to the cache, and the first error is reported. *)
Definition pushStats (stats : info.ContainerStats)
    (statsErr customStatsErr : option Go.error) : Op (option Go.error) :=
  '(ref, err) <- onHandler handler_ContainerReference ;;
  match err with
  | Some e =>
      ex <- onHandler handler_Exists ;;
      if negb ex then ret None else ret (Some e)
  | None =>
      err <- memoryCache_AddStats ref stats ;;
      match err with
      | Some e => ret (Some e)
      | None =>
          match statsErr with
          | Some e => ret (Some e)
          | None => ret customStatsErr
          end
      end
  end.

Definition continuing (statsErr : Go.error) : Go.error :=
  Go.fmt_Errorf "%v, continuing to push stats" [Go.VError statsErr].

Definition updateStats : Op (option Go.error) :=
  '(stats, statsErr) <- onHandler handler_GetStats ;;
  gone <- match statsErr with
          | Some _ => ex <- onHandler handler_Exists ;; ret (negb ex)
          | None => ret false
          end ;;
  if gone : bool then ret None
  else
    let statsErr := option_map continuing statsErr in
    match stats with
    | None => ret statsErr
    | Some stats =>
        '(stats, customStatsErr) <- prepareStats stats ;;
        pushStats stats statsErr customStatsErr
    end.

(** *** Running a method under the panic timeout

    [doWithTimeout] runs the method in a goroutine and panics when it has
    not finished within [timeout]. This is the run in which the method
    finishes in time: its error, if any, is logged at most once a
    minute. *)
Definition doWithTimeout (meth : Op (option Go.error)) (timeout : Go.Duration)
    : Op unit :=
  err <- meth ;;
  match err with
  | Some e =>
      ok <- allowErrorLogging ;;
      if ok : bool then name <- read Name_of ;; glog (Infof_FailedUpdateStats name e)
      else ret tt
  | None => ret tt
  end.

(** *** The adaptive housekeeping interval *)

Definition adjustHousekeepingInterval : Op (option Go.error) :=
  dyn <- read allowDynamicHousekeeping ;;
  if negb dyn then ret None
  else
    name <- read Name_of ;;
    '(stats, err) <- memoryCache_RecentStats name Go.zeroTime Go.zeroTime 2 ;;
    match err with
    | Some e => ret (Some e)
    | None =>
        match stats with
        | stats0 :: stats1 :: _ =>
            (if StatsEq stats0 stats1 then
               update (fun c =>
                 set_housekeepingInterval
                   (DurationMin (Go.wrap_int64 (housekeepingInterval c * 2))
                                (maxHousekeepingInterval c)) c)
             else
               update (set_housekeepingInterval (HousekeepingInterval flags))) ;;;
            ret None
        | _ => ret None
        end
    end.

(** *** Usage logging *)

Definition nth_stats (i : nat) (stats : list info.ContainerStats) : info.ContainerStats :=
  nth i stats info.ContainerStats_zero.

Definition Total_of (st : info.ContainerStats) : Z :=
  info.Total (info.Usage (info.Cpu st)).

(** The sum of the differences of consecutive totals, in [uint64]. *)
Fixpoint usageCpuNs_from (prev : info.ContainerStats) (rest : list info.ContainerStats)
    (acc : Z) : Z :=
  match rest with
  | [] => acc
  | st :: rest' =>
      usageCpuNs_from st rest'
        (Go.wrap_uint64 (acc + Go.wrap_uint64 (Total_of st - Total_of prev)))
  end.

Definition usageCpuNs_of (stats : list info.ContainerStats) : Z :=
  match stats with
  | [] => 0
  | st :: rest => usageCpuNs_from st rest 0
  end.

Definition numSamples : nat := 60.

Definition logUsageStep : Op unit :=
  lu <- read logUsage ;;
  if negb lu then ret tt
  else
    name <- read Name_of ;;
    '(stats, err) <- memoryCache_RecentStats name Go.zeroTime Go.zeroTime
                       (Z.of_nat numSamples) ;;
    match err with
    | Some e =>
        ok <- allowErrorLogging ;;
        if ok : bool then glog (Infof_FailedRecentStatsUsage name e) else ret tt
    | None =>
        if (List.length stats <? numSamples)%nat then ret tt
        else
          let usageCpuNs := usageCpuNs_of stats in
          let last := nth_stats (numSamples - 1) stats in
          let prev := nth_stats (numSamples - 2) stats in
          let first := nth_stats 0 stats in
          let usageMemory := info.MemUsage (info.Memory last) in
          let instantUsageInCores :=
            (Go.float64_of_uint64 (Go.wrap_uint64 (Total_of last - Total_of prev))
             / Go.float64_of_int64
                 (Go.Time_Sub (info.Timestamp last) (info.Timestamp prev)))%float in
          let usageInCores :=
            (Go.float64_of_uint64 usageCpuNs
             / Go.float64_of_int64
                 (Go.Time_Sub (info.Timestamp last) (info.Timestamp first)))%float in
          glog (Infof_Usage name instantUsageInCores usageInCores usageMemory)
    end.

(** *** One turn of the housekeeping loop

    The body of the [for] of [doHousekeepingLoop], from the [default]
    branch of its [select] to the adjustment of the interval. The wait
    for the next turn (a jittered sleep) and the stop channel are
    scheduling and left out. *)
Definition longHousekeeping : Go.Duration :=
  if Z.quot (HousekeepingInterval flags) 2 <? 100 * Go.Millisecond
  then Z.quot (HousekeepingInterval flags) 2
  else 100 * Go.Millisecond.

(** After the update: the line on a long turn and the usage line. *)
Definition housekeepingReport (start : Go.Time) : Op unit :=
  duration <- time_Since start ;;
  (if longHousekeeping <=? duration
   then name <- read Name_of ;; glog (V3_HousekeepingTook name duration)
   else ret tt) ;;;
  logUsageStep.

(** The collection: the guarded [updateStats], then the report. *)
Definition housekeepingCollect : Op unit :=
  start <- time_Now ;;
  doWithTimeout updateStats (PanicTimeout flags) ;;;
  housekeepingReport start.

(** The adjustment of the interval, whose error is logged at most once a
    minute. *)
Definition housekeepingAdjust : Op unit :=
  err <- adjustHousekeepingInterval ;;
  match err with
  | Some e =>
      ok <- allowErrorLogging ;;
      if ok : bool then name <- read Name_of ;; glog (Warningf_FailedRecentStats name e)
      else ret tt
  | None => ret tt
  end.

Definition housekeepingIteration : Op unit :=
  housekeepingCollect ;;; housekeepingAdjust.

(** The state after [n] turns. *)
Fixpoint housekeepingIterations (n : nat) (r : Runtime) : Runtime :=
  match n with
  | O => r
  | S n' => snd (housekeepingIteration (housekeepingIterations n' r))
  end.

(** One turn of [doLoadReaderLoop], likewise. *)
Definition loadReaderIteration : Op unit :=
  lr <- read loadReader ;;
  match lr with
  | None => ret tt
  | Some _ => doWithTimeout doLoadReaderIteration (PanicTimeout flags)
  end.

(** *** The spec and the sub-containers *)

Definition updateSpec : Op (option Go.error) :=
  '(spec, err) <- onHandler handler_GetSpec ;;
  match err with
  | Some e =>
      ex <- onHandler handler_Exists ;;
      if negb ex then ret None else ret (Some e)
  | None =>
      '(customMetrics, err) <- onCollectors cm_GetSpec ;;
      match err with
      | Some e => ret (Some e)
      | None =>
          let spec := if (0 <? List.length customMetrics)%nat
                      then info.set_CustomMetrics customMetrics spec else spec in
          update (fun c => set_info (set_Spec spec (info c)) c) ;;;
          ret None
      end
  end.

Definition updateSubcontainers : Op (option Go.error) :=
  '(subcontainers, err) <- onHandler (handler_ListContainers ListSelf) ;;
  match err with
  | Some e =>
      ex <- onHandler handler_Exists ;;
      if negb ex then ret None else ret (Some e)
  | None =>
      let subcontainers := sort_ContainerReferenceSlice subcontainers in
      update (fun c => set_info (set_Subcontainers subcontainers (info c)) c) ;;;
      ret None
  end.

(** A [*containerInfo]: the address of the [info] field of the tracker, or
    of a [containerInfo] allocated on its own. *)
Inductive containerInfoPtr :=
| addr_c_info
| addr_heap (n : nat).

(** [GetInfo] refreshes the spec and the sub-containers when they are
    older than five seconds, then returns [&c.info]. *)
Definition GetInfo : Op (option containerInfoPtr * option Go.error) :=
  last <- read lastUpdatedTime ;;
  since <- time_Since last ;;
  refreshErr <-
    (if since >? 5 * Go.Second then
       err <- updateSpec ;;
       match err with
       | Some e => ret (Some e)
       | None =>
           err <- updateSubcontainers ;;
           match err with
           | Some e => ret (Some e)
           | None =>
               now <- time_Now ;;
               update (set_lastUpdatedTime now) ;;;
               ret None
           end
       end
     else ret None) ;;
  match refreshErr with
  | Some e => ret (None, Some e)
  | None => ret (Some addr_c_info, None)
  end.

(** *** Construction *)

Definition newContainerData (containerName : string) (memoryCache' : option CT)
    (handler' : option HT) (logUsage' : bool) (collectorManager' : MT)
    (maxHousekeepingInterval' : Go.Duration) (allowDynamicHousekeeping' : bool)
    (k : KT) (evs : list Event) : option Runtime * option Go.error :=
  match memoryCache' with
  | None => (None, Some (Go.fmt_Errorf "nil memory storage" []))
  | Some mc =>
      match handler' with
      | None => (None, Some (Go.fmt_Errorf "nil container handler" []))
      | Some h =>
          let '(ref, err, h) := handler_ContainerReference h in
          match err with
          | Some e => (None, Some e)
          | None =>
              let cont :=
                {| handler := h;
                   info := {| Reference := ref; Subcontainers := [];
                              Spec := info.ContainerSpec_zero |};
                   memoryCache := mc;
                   loadReader := None;
                   summaryReader := None;
                   housekeepingInterval := HousekeepingInterval flags;
                   maxHousekeepingInterval := maxHousekeepingInterval';
                   allowDynamicHousekeeping := allowDynamicHousekeeping';
                   lastUpdatedTime := Go.zeroTime;
                   lastErrorTime := Go.zeroTime;
                   loadAvg := (-1.0)%float;
                   loadAvgLastProbeTime := Go.zeroTime;
                   loadreaderInterval := LoadreaderInterval flags;
                   taskStats := info.LoadStats_zero;
                   logUsage := logUsage';
                   collectorManager := collectorManager' |} in
              let r := {| cd := cont; clock := k; events := evs |} in
              let construct : Op (option Go.error) :=
                (if enableLoadReader flags then
                   let '(lr, err) := cpuload_New in
                   match err with
                   | Some e => glog (Infof_NoLoadReader (info.Name ref) e)
                   | None => update (set_loadReader lr)
                   end
                 else ret tt) ;;;
                err <- updateSpec ;;
                match err with
                | Some e => ret (Some e)
                | None =>
                    spec <- read (fun c => Spec (info c)) ;;
                    let '(sm, err) := summary_New spec in
                    match err with
                    | Some e =>
                        update (set_summaryReader None) ;;;
                        glog (Warningf_NoSummaryReader (info.Name ref) e) ;;;
                        ret None
                    | None => update (set_summaryReader sm) ;;; ret None
                    end
                end in
              match construct r with
              | (Some e, _) => (None, Some e)
              | (None, r') => (Some r', None)
              end
          end
      end
  end.

(** *** Process listing *)

(** The cgroup path of a [ps] cgroup column: the first group of
    [cgroupPathRegExp], and the root when there is none. The line written
    at verbosity 3 when nothing matches is left out. *)
Definition getCgroupPath (c : containerData) (cgroups : string)
    : string * option Go.error :=
  if String.eqb cgroups "-" then ("/"%string, None)
  else
    let matches := cgroupPathRegExp_FindSubmatch cgroups in
    if negb (List.length matches =? 2)%nat then ("/"%string, None)
    else (nth 1 matches ""%string, None).

Definition getPsOutput (c : containerData) (inHostNamespace : bool) (format : string)
    : string * option Go.error :=
  let args : list string := [] in
  let command := "ps"%string in
  let '(command, args) :=
    if negb inHostNamespace
    then ("/usr/sbin/chroot"%string, args ++ ["/rootfs"; "ps"]%string)
    else (command, args) in
  let args := args ++ ["-e"; "-o"; format]%string in
  let '(out, err) := exec_Command_Output command args in
  match err with
  | Some e =>
      (""%string,
       Some (Go.fmt_Errorf "failed to execute %q command: %v"
               [Go.VString command; Go.VError e]))
  | None => (out, None)
  end.

Definition field (fields : list string) (i : nat) : string := nth i fields ""%string.

Definition expectedFields : nat := 12.

(** The [for _, line := range lines[1:]] of [GetProcessList], with the
    slice [processes] built so far. *)
Fixpoint GetProcessList_lines (c : containerData) (cadvisorContainer : string)
    (inHostNamespace : bool) (lines : list string) (processes : list v2.ProcessInfo)
    : option (list v2.ProcessInfo) * option Go.error :=
  match lines with
  | [] => (Some processes, None)
  | line :: rest =>
    let continue := GetProcessList_lines c cadvisorContainer inHostNamespace rest in
    let isRoot := String.eqb (Name_of c) "/" in
    if (String.length line =? 0)%nat then continue processes
    else
      let fields := strings_Fields line in
      if (List.length fields <? expectedFields)%nat then
        (None, Some (Go.fmt_Errorf "expected at least %d fields, found %d: output: %q"
                       [Go.VInt (Z.of_nat expectedFields);
                        Go.VInt (Z.of_nat (List.length fields)); Go.VString line]))
      else
        let '(pid, err) := strconv_Atoi (field fields 1) in
        match err with
        | Some e =>
            (None, Some (Go.fmt_Errorf "invalid pid %q: %v"
                           [Go.VString (field fields 1); Go.VError e]))
        | None =>
        let '(ppid, err) := strconv_Atoi (field fields 2) in
        match err with
        | Some e =>
            (None, Some (Go.fmt_Errorf "invalid ppid %q: %v"
                           [Go.VString (field fields 2); Go.VError e]))
        | None =>
        let '(percentCpu, err) := strconv_ParseFloat32 (field fields 4) in
        match err with
        | Some e =>
            (None, Some (Go.fmt_Errorf "invalid cpu percent %q: %v"
                           [Go.VString (field fields 4); Go.VError e]))
        | None =>
        let '(percentMem, err) := strconv_ParseFloat32 (field fields 5) in
        match err with
        | Some e =>
            (None, Some (Go.fmt_Errorf "invalid memory percent %q: %v"
                           [Go.VString (field fields 5); Go.VError e]))
        | None =>
        let '(rss, err) := strconv_ParseUint (field fields 6) in
        match err with
        | Some e =>
            (None, Some (Go.fmt_Errorf "invalid rss %q: %v"
                           [Go.VString (field fields 6); Go.VError e]))
        | None =>
        let rss := Go.wrap_uint64 (rss * 1024) in
        let '(vs, err) := strconv_ParseUint (field fields 7) in
        match err with
        | Some e =>
            (None, Some (Go.fmt_Errorf "invalid virtual size %q: %v"
                           [Go.VString (field fields 7); Go.VError e]))
        | None =>
        let vs := Go.wrap_uint64 (vs * 1024) in
        let '(cgroup, err) := getCgroupPath c (field fields 11) in
        match err with
        | Some e =>
            (None, Some (Go.fmt_Errorf "could not parse cgroup path from %q: %v"
                           [Go.VString (field fields 11); Go.VError e]))
        | None =>
        if negb inHostNamespace && String.eqb cadvisorContainer cgroup
           && String.eqb (field fields 10) "ps"
        then continue processes
        else
          let cgroupPath := if isRoot then cgroup else ""%string in
          if isRoot || String.eqb (Name_of c) cgroup then
            continue
              (processes ++
               [ {| v2.User := field fields 0;
                    v2.Pid := pid;
                    v2.Ppid := ppid;
                    v2.StartTime := field fields 3;
                    v2.PercentCpu := Go.float32_of_float64 percentCpu;
                    v2.PercentMemory := Go.float32_of_float64 percentMem;
                    v2.RSS := rss;
                    v2.VirtualSize := vs;
                    v2.Status := field fields 8;
                    v2.RunningTime := field fields 9;
                    v2.Cmd := field fields 10;
                    v2.CgroupPath := cgroupPath |} ])
          else continue processes
        end end end end end end end
  end.

Definition GetProcessList (c : containerData) (cadvisorContainer : string)
    (inHostNamespace : bool) : option (list v2.ProcessInfo) * option Go.error :=
  let format := "user,pid,ppid,stime,pcpu,pmem,rss,vsz,stat,time,comm,cgroup"%string in
  let '(out, err) := getPsOutput c inHostNamespace format in
  match err with
  | Some e => (None, Some e)
  | None =>
      let lines := Go.strings_Split out Go.newline in
      GetProcessList_lines c cadvisorContainer inHostNamespace (tl lines) []
  end.

(** The pids of the processes of this container. *)
Fixpoint getContainerPids_lines (c : containerData) (lines : list string)
    (pids : list string) : option (list string) * option Go.error :=
  match lines with
  | [] => (Some pids, None)
  | line :: rest =>
      if (String.length line =? 0)%nat then getContainerPids_lines c rest pids
      else
        let fields := strings_Fields line in
        if (List.length fields <? 2)%nat then
          (None, Some (Go.fmt_Errorf "expected at least %d fields, found %d: output: %q"
                         [Go.VInt 2; Go.VInt (Z.of_nat (List.length fields));
                          Go.VString line]))
        else
          let pid := field fields 0 in
          let '(cgroup, err) := getCgroupPath c (field fields 1) in
          match err with
          | Some e =>
              (None, Some (Go.fmt_Errorf "could not parse cgroup path from %q: %v"
                             [Go.VString (field fields 1); Go.VError e]))
          | None =>
              if String.eqb (Name_of c) cgroup
              then getContainerPids_lines c rest (pids ++ [pid])
              else getContainerPids_lines c rest pids
          end
  end.

Definition getContainerPids (c : containerData) (inHostNamespace : bool)
    : option (list string) * option Go.error :=
  let '(out, err) := getPsOutput c inHostNamespace "pid,cgroup" in
  match err with
  | Some e => (None, Some e)
  | None =>
      getContainerPids_lines c (tl (Go.strings_Split out Go.newline)) []
  end.

(** *** The calls a tracker receives

    From its two loops and from the manager; [observes] tells the calls
    that feed a sample to the load smoother. *)
Inductive Call :=
| call_housekeepingIteration
| call_updateStats
| call_adjustHousekeepingInterval
| call_GetInfo
| call_updateSpec
| call_updateSubcontainers
| call_LoadAvg
| call_TaskStats
| call_updateTaskStats (taskStats' : info.LoadStats)
| call_updateLoadAvg (probeTime : Go.Time) (newTaskStats : info.LoadStats)
| call_loadReaderIteration.

Definition observes (call : Call) : bool :=
  match call with
  | call_updateLoadAvg _ _ | call_loadReaderIteration => true
  | _ => false
  end.

Definition run_call (call : Call) (r : Runtime) : Runtime :=
  match call with
  | call_housekeepingIteration => snd (housekeepingIteration r)
  | call_updateStats => snd (doWithTimeout updateStats (PanicTimeout flags) r)
  | call_adjustHousekeepingInterval => snd (adjustHousekeepingInterval r)
  | call_GetInfo => snd (GetInfo r)
  | call_updateSpec => snd (updateSpec r)
  | call_updateSubcontainers => snd (updateSubcontainers r)
  | call_LoadAvg => snd (LoadAvg r)
  | call_TaskStats => snd (TaskStats r)
  | call_updateTaskStats ts => snd (updateTaskStats ts r)
  | call_updateLoadAvg t ts => snd (updateLoadAvg t ts r)
  | call_loadReaderIteration => snd (loadReaderIteration r)
  end.

Definition run_calls (calls : list Call) (r : Runtime) : Runtime :=
  fold_left (fun r call => run_call call r) calls r.

(** *** The memory a caller of [GetInfo] sees

    The tracker and the [containerInfo] values allocated apart from it. A
    [*containerInfo] is read and written through. *)
Record Memory := {
  tracker : Runtime;
  heap : list containerInfo }.

Fixpoint list_set {A} (n : nat) (v : A) (l : list A) : list A :=
  match l, n with
  | [], _ => []
  | _ :: rest, O => v :: rest
  | x :: rest, S n' => x :: list_set n' v rest
  end.

Definition load_info (p : containerInfoPtr) (m : Memory) : option containerInfo :=
  match p with
  | addr_c_info => Some (info (cd (tracker m)))
  | addr_heap n => nth_error (heap m) n
  end.

Definition store_info (p : containerInfoPtr) (v : containerInfo) (m : Memory) : Memory :=
  match p with
  | addr_c_info =>
      {| tracker := {| cd := set_info v (cd (tracker m)); clock := clock (tracker m);
                       events := events (tracker m) |};
         heap := heap m |}
  | addr_heap n => {| tracker := tracker m; heap := list_set n v (heap m) |}
  end.

(** [GetInfo] as a caller runs it. *)
Definition call_GetInfo_in (m : Memory)
    : (option containerInfoPtr * option Go.error) * Memory :=
  let (res, r) := GetInfo (tracker m) in
  (res, {| tracker := r; heap := heap m |}).

(** [GetInfo] following the spec's words, "return a copy taken under the
    spec mutex": the info is copied to a place of its own, whose address
    is returned. *)
Definition spec_GetInfo_in (m : Memory)
    : (option containerInfoPtr * option Go.error) * Memory :=
  let (res, r) := GetInfo (tracker m) in
  match res with
  | (Some _, None) =>
      ((Some (addr_heap (List.length (heap m))), None),
       {| tracker := r; heap := heap m ++ [info (cd r)] |})
  | _ => (res, {| tracker := r; heap := heap m |})
  end.

(** *** The process list the spec describes

    Following the spec's words: a row per non-empty body line; a row is
    reported for the root tracker, and for another tracker when its
    parsed cgroup is the tracker's name; the agent's own [ps] row is
    skipped inside the agent's container; sizes are converted from KiB to
    bytes; the cgroup path is reported by the root tracker only. *)
Record PsRow := {
  row_fields : list string;
  row_pid : Z;
  row_ppid : Z;
  row_pcpu : float;
  row_pmem : float;
  row_rss : Z;
  row_vsz : Z;
  row_cgroup : string }.

Definition parse_row (c : containerData) (line : string) : PsRow :=
  let fs := strings_Fields line in
  {| row_fields := fs;
     row_pid := fst (strconv_Atoi (field fs 1));
     row_ppid := fst (strconv_Atoi (field fs 2));
     row_pcpu := fst (strconv_ParseFloat32 (field fs 4));
     row_pmem := fst (strconv_ParseFloat32 (field fs 5));
     row_rss := fst (strconv_ParseUint (field fs 6));
     row_vsz := fst (strconv_ParseUint (field fs 7));
     row_cgroup := fst (getCgroupPath c (field fs 11)) |}.

Definition body_lines (out : string) : list string :=
  filter (fun line => negb (String.length line =? 0)%nat)
         (tl (Go.strings_Split out Go.newline)).

(** A body line is well formed when it has at least twelve fields and its
    numeric columns parse. *)
Definition well_formed_line (line : string) : Prop :=
  let fs := strings_Fields line in
  (12 <= List.length fs)%nat /\
  snd (strconv_Atoi (field fs 1)) = None /\
  snd (strconv_Atoi (field fs 2)) = None /\
  snd (strconv_ParseFloat32 (field fs 4)) = None /\
  snd (strconv_ParseFloat32 (field fs 5)) = None /\
  snd (strconv_ParseUint (field fs 6)) = None /\
  snd (strconv_ParseUint (field fs 7)) = None.

Definition is_root (c : containerData) : bool := String.eqb (Name_of c) "/".

Definition own_ps_row (cadvisorContainer : string) (inHostNamespace : bool)
    (row : PsRow) : bool :=
  negb inHostNamespace && String.eqb cadvisorContainer (row_cgroup row)
  && String.eqb (field (row_fields row) 10) "ps".

Definition row_selected (c : containerData) (cadvisorContainer : string)
    (inHostNamespace : bool) (row : PsRow) : bool :=
  (is_root c || String.eqb (Name_of c) (row_cgroup row))
  && negb (own_ps_row cadvisorContainer inHostNamespace row).

Definition entry_of_row (c : containerData) (row : PsRow) : v2.ProcessInfo :=
  let fs := row_fields row in
  {| v2.User := field fs 0;
     v2.Pid := row_pid row;
     v2.Ppid := row_ppid row;
     v2.StartTime := field fs 3;
     v2.PercentCpu := Go.float32_of_float64 (row_pcpu row);
     v2.PercentMemory := Go.float32_of_float64 (row_pmem row);
     v2.RSS := Go.wrap_uint64 (row_rss row * 1024);
     v2.VirtualSize := Go.wrap_uint64 (row_vsz row * 1024);
     v2.Status := field fs 8;
     v2.RunningTime := field fs 9;
     v2.Cmd := field fs 10;
     v2.CgroupPath := if is_root c then row_cgroup row else ""%string |}.

Definition spec_process_list (c : containerData) (cadvisorContainer : string)
    (inHostNamespace : bool) (out : string) : list v2.ProcessInfo :=
  map (entry_of_row c)
      (filter (row_selected c cadvisorContainer inHostNamespace)
              (map (parse_row c) (body_lines out))).

(** *** The milli-load the spec describes: [round(load * 1000)], to the
    nearest integer, halves away from zero. *)
Definition spec_round (f : float) : option Z :=
  if (0 <=? f)%float then Go.float64_trunc (f + 0.5)%float
  else Go.float64_trunc (f - 0.5)%float.

(** *** Predicates on methods and samples *)

(** [Keeps g m]: running [m] does not change the value of [g] on the
    tracker's fields. *)
Definition Keeps {X A} (g : containerData -> X) (m : Op A) : Prop :=
  forall r, g (cd (snd (m r))) = g (cd r).

(** [Emits P m]: running [m] adds events that all satisfy [P], and leaves
    the earlier ones in place. *)
Definition Emits {A} (P : Event -> Prop) (m : Op A) : Prop :=
  forall r, exists new, events (snd (m r)) = new ++ events r /\ Forall P new.

(** A line of the log that does not report a failed [updateStats]. *)
Definition quiet_log (e : Event) : Prop :=
  match e with
  | Glog (Infof_FailedUpdateStats _ _) => False
  | Glog _ => True
  | CacheAddStats _ _ => False
  end.

(** The fields of a sample that [prepareStats] does not write. *)
Definition same_readings (a b : info.ContainerStats) : Prop :=
  info.Timestamp a = info.Timestamp b /\
  info.Usage (info.Cpu a) = info.Usage (info.Cpu b) /\
  info.DiskIo a = info.DiskIo b /\
  info.Memory a = info.Memory b /\
  info.Network a = info.Network b /\
  info.Filesystem a = info.Filesystem b.

(** The two samples that [adjustHousekeepingInterval] compares: the first
    two of the cache's answer, when it answers without error and with at
    least two. *)
Definition latest_two (r : Runtime) : option (info.ContainerStats * info.ContainerStats) :=
  match cache_RecentStats (Name_of (cd r)) Go.zeroTime Go.zeroTime 2 (memoryCache (cd r)) with
  | (stats0 :: stats1 :: _, None) => Some (stats0, stats1)
  | _ => None
  end.

Definition samples_equal (r : Runtime) : Prop :=
  exists a b, latest_two r = Some (a, b) /\ StatsEq a b = true.

Definition samples_equalb (r : Runtime) : bool :=
  match latest_two r with
  | Some (a, b) => StatsEq a b
  | None => false
  end.

Definition samples_differ (r : Runtime) : Prop :=
  exists a b, latest_two r = Some (a, b) /\ StatsEq a b = false.

(** *** Files of the container *)

Context {fsI : FileSystem}.

(** The [for _, pid := range pids] of [ReadFile]: the first file that can
    be read. The line written at verbosity 3 for every path tried is left
    out. *)
Fixpoint ReadFile_pids (rootfs filepath : string) (pids : list string)
    : option string * option Go.error :=
  match pids with
  | [] => (None, Some (Go.fmt_Errorf "file %q does not exist." [Go.VString filepath]))
  | pid :: rest =>
      let filePath := path_Join [rootfs; "/proc"; pid; "/root"; filepath]%string in
      let '(data, err) := ioutil_ReadFile filePath in
      match err with
      | None => (Some data, None)
      | Some _ => ReadFile_pids rootfs filepath rest
      end
  end.

(** [ReadFile]: the contents of a file inside the container's root, read
    through one of the container's processes. *)
Definition ReadFile (c : containerData) (filepath : string) (inHostNamespace : bool)
    : option string * option Go.error :=
  let '(pids, err) := getContainerPids c inHostNamespace in
  match err with
  | Some e => (None, Some e)
  | None =>
      let rootfs := if negb inHostNamespace then "/rootfs"%string else "/"%string in
      ReadFile_pids rootfs filepath
        (match pids with Some l => l | None => [] end)
  end.

(** The pids that [getContainerPids] collects, following the loop's
    words: the first field of every non-empty line whose cgroup is the
    tracker's name. *)
Definition pids_of_lines (c : containerData) (lines : list string) : list string :=
  map (fun line => field (strings_Fields line) 0)
      (filter (fun line =>
                 String.eqb (Name_of c)
                            (fst (getCgroupPath c (field (strings_Fields line) 1))))
              (filter (fun line => negb (String.length line =? 0)%nat) lines)).

(** A call that is made on a tracker by its loops or by the manager:
    every call but a bare [updateLoadAvg], which only the load reader's
    iteration makes. *)
Definition external_call (call : Call) : bool :=
  match call with
  | call_updateLoadAvg _ _ => false
  | _ => true
  end.

(** The lines that are written only when [allowErrorLogging] permits. *)
Definition error_line (e : Event) : bool :=
  match e with
  | Glog (Infof_FailedUpdateStats _ _)
  | Glog (Infof_FailedRecentStatsUsage _ _)
  | Glog (Warningf_FailedRecentStats _ _) => true
  | _ => false
  end.

(** [Muted P t0 m]: run on a tracker whose last logged error is of time
    [t0] and whose clock is in a state of [P], the method [m] leaves both
    so, and writes no error line. *)
Definition Muted {A} (P : KT -> Prop) (t0 : Go.Time) (m : Op A) : Prop :=
  forall r, lastErrorTime (cd r) = t0 -> P (clock r) ->
    lastErrorTime (cd (snd (m r))) = t0 /\ P (clock (snd (m r))) /\
    exists new, events (snd (m r)) = new ++ events r /\
                Forall (fun e => error_line e = false) new.


(** The path under which [ReadFile] looks for [filepath] through the
    process [pid]. *)
Definition container_file_path (inHostNamespace : bool) (pid filepath : string) : string :=
  path_Join [if negb inHostNamespace then "/rootfs" else "/"; "/proc"; pid; "/root";
             filepath]%string.

(** [ioutil.ReadFile] fails on that path. *)
Definition unreadable (inHostNamespace : bool) (filepath pid : string) : Prop :=
  snd (ioutil_ReadFile (container_file_path inHostNamespace pid filepath)) <> None.


End Tracker.

Arguments containerData : clear implicits.
Arguments Runtime : clear implicits.
Arguments Memory : clear implicits.

(** ** The Docker client's [ConvertibleBool] *)

Module docker.

Definition ConvertibleBool : Type := bool.

(** The body of [UnmarshalJSON], run on [bit], the method's own copy of
    the receiver: the last value of [bit] and the error returned. *)
Definition UnmarshalJSON_body (bit : ConvertibleBool) (data : string)
    : ConvertibleBool * option Go.error :=
  let asString := data in
  if String.eqb asString "1" || String.eqb asString "true" then (true, None)
  else if String.eqb asString "0" || String.eqb asString "false" then (false, None)
  else (bit,
        Some (Go.errors_New
                ("Boolean unmarshal error: invalid input " ++ asString)%string)).

(** A call [x.UnmarshalJSON(data)] on a variable [x] (or through a
    pointer to it). The method is declared on the value type
    [ConvertibleBool], so it is given a copy of [x]: what the body assigns
    to [bit] is dropped when it returns, and [x] keeps its value. *)
Definition UnmarshalJSON (data : string) : StateOp ConvertibleBool (option Go.error) :=
  fun x => let (_, err) := UnmarshalJSON_body x data in (err, x).

(** The decoder the spec describes, following its words: "numeric/boolean
    conversion with error on invalid input", stored into the receiver. *)
Definition spec_UnmarshalJSON (data : string)
    : StateOp ConvertibleBool (option Go.error) :=
  fun x => let (bit, err) := UnmarshalJSON_body x data in (err, bit).

(** [ParseRepositoryTag] splits a name into repository and tag at the last
    colon, unless what follows the colon has a slash (the colon is then
    that of a registry's port). *)
Definition ParseRepositoryTag (repoTag : string) : string * string :=
  let n := Go.strings_LastIndex repoTag ":"%char in
  if n <? 0 then (repoTag, ""%string)
  else
    let tag := Go.slice_from repoTag (Z.to_nat (n + 1)) in
    if negb (Go.strings_Contains tag "/"%char)
    then (Go.slice_to repoTag (Z.to_nat n), tag)
    else (repoTag, ""%string).

End docker.

(** ** The InfluxDB v2 storage driver *)

Module influxdb2.

Inductive FieldValue :=
| Int64Value (z : Z)
| Int32Value (z : Z).

(** A [write.Point] of the client library: measurement, tags, fields and
    time. *)
Record Point := {
  measurement : string;
  tags : list (string * string);
  fields : list (string * FieldValue);
  time : Go.Time }.

(** [point.AddTag(k, v)] of the client library replaces the value of a
    tag already there and appends a new one otherwise. *)
Fixpoint put_tag (k v : string) (ts : list (string * string)) : list (string * string) :=
  match ts with
  | [] => [(k, v)]
  | (k', v') :: rest =>
      if String.eqb k k' then (k, v) :: rest else (k', v') :: put_tag k v rest
  end.

Definition AddTag (k v : string) (pt : Point) : Point :=
  {| measurement := measurement pt; tags := put_tag k v (tags pt);
     fields := fields pt; time := time pt |}.

Definition SetTime (t : Go.Time) (pt : Point) : Point :=
  {| measurement := measurement pt; tags := tags pt; fields := fields pt; time := t |}.

Definition serCpuUsageTotal : string := "cpu_usage_total".
Definition serCpuUsageSystem : string := "cpu_usage_system".
Definition serCpuUsageUser : string := "cpu_usage_user".
Definition serCpuThrottled : string := "cpu_throttled".
Definition serLoadAverage : string := "load_average".
Definition serMemoryUsage : string := "memory_usage".
Definition serMemoryRSS : string := "memory_rss".
Definition serMemoryWorkingSet : string := "memory_working_set".
Definition serRxBytes : string := "rx_bytes".
Definition serRxErrors : string := "rx_errors".
Definition serTxBytes : string := "tx_bytes".
Definition serTxErrors : string := "tx_errors".
Definition serFsDevice : string := "fs_device".
Definition serFsLimit : string := "fs_limit".
Definition serFsUsage : string := "fs_usage".
Definition serIoBytes : string := "io_bytes".
Definition serIoOps : string := "io_ops".
Definition fieldValue : string := "value".
Definition tagContainerId : string := "container_id".
Definition tagDevice : string := "device".

(** [toSignedIfUnsigned] on a [uint64]: [int64(v)]. *)
Definition toSigned_uint64 (v : Z) : FieldValue := Int64Value (Go.wrap_int64 v).

(** [makePoint]: the point has no tag and the zero time. *)
Definition makePoint (name : string) (value : FieldValue) : Point :=
  {| measurement := name; tags := []; fields := [(fieldValue, value)];
     time := Go.zeroTime |}.

Definition addTagsToPoint (point : Point) (tags' : list (string * string)) : Point :=
  fold_left (fun pt kv => AddTag (fst kv) (snd kv) pt) tags' point.

(** [tagPoints] changes the points in place; here it returns them. *)
Definition tagPoints (ref : info.ContainerReference) (stats : info.ContainerStats)
    (points : list Point) : list Point :=
  let commonTags := [(tagContainerId, info.Name ref)] in
  map (fun pt => SetTime (info.Timestamp stats) (addTagsToPoint pt commonTags)) points.

(** [m[key]] on a map of counters: zero when the key is absent. *)
Fixpoint map_get (key : string) (m : list (string * Z)) : Z :=
  match m with
  | [] => 0
  | (k, v) :: rest => if String.eqb key k then v else map_get key rest
  end.

Definition sum_Stats (key : string) (ds : list info.PerDiskStats) : Z :=
  fold_left (fun acc d => Go.wrap_uint64 (acc + map_get key (info.Stats d))) ds 0.

Definition containerFilesystemStatsToPoints (ref : info.ContainerReference)
    (stats : info.ContainerStats) : list Point :=
  match info.Filesystem stats with
  | [] => []
  | fs =>
      let points :=
        flat_map (fun fsStat =>
          [ {| measurement := serFsUsage;
               tags := [(tagDevice, info.Device fsStat)];
               fields := [(fieldValue, Int64Value (Go.wrap_int64 (info.FsUsage fsStat)))];
               time := info.Timestamp stats |};
            {| measurement := serFsLimit;
               tags := [(tagDevice, info.Device fsStat)];
               fields := [(fieldValue, Int64Value (Go.wrap_int64 (info.Limit fsStat)))];
               time := info.Timestamp stats |} ]) fs in
      tagPoints ref stats points
  end.

Definition containerStatsToPoints (ref : info.ContainerReference)
    (stats : info.ContainerStats) : list Point :=
  let cpu := info.Usage (info.Cpu stats) in
  let readBytes := sum_Stats "Read" (info.IoServiceBytes (info.DiskIo stats)) in
  let writeBytes := sum_Stats "Write" (info.IoServiceBytes (info.DiskIo stats)) in
  let readOps := sum_Stats "Read" (info.IoServiced (info.DiskIo stats)) in
  let writeOps := sum_Stats "Write" (info.IoServiced (info.DiskIo stats)) in
  let points :=
    [ makePoint serCpuUsageTotal (toSigned_uint64 (info.Total cpu));
      makePoint serCpuUsageSystem (toSigned_uint64 (info.System cpu));
      makePoint serCpuUsageUser (toSigned_uint64 (info.User cpu));
      makePoint serCpuThrottled (toSigned_uint64 (info.Throttled cpu));
      makePoint serLoadAverage (Int32Value (info.LoadAverage (info.Cpu stats)));
      makePoint serMemoryUsage (toSigned_uint64 (info.MemUsage (info.Memory stats)));
      makePoint serMemoryRSS (toSigned_uint64 (info.RSS (info.Memory stats)));
      makePoint serIoBytes (toSigned_uint64 (Go.wrap_uint64 (readBytes + writeBytes)));
      makePoint serIoOps (toSigned_uint64 (Go.wrap_uint64 (readOps + writeOps)));
      makePoint serRxBytes (toSigned_uint64 (info.RxBytes (info.Network stats)));
      makePoint serRxErrors (toSigned_uint64 (info.RxErrors (info.Network stats)));
      makePoint serTxBytes (toSigned_uint64 (info.TxBytes (info.Network stats)));
      makePoint serTxErrors (toSigned_uint64 (info.TxErrors (info.Network stats))) ] in
  tagPoints ref stats points.

(** The client's blocking write API. *)
Class InfluxClient (W : Type) := {
  client_WritePoint : string -> string -> list Point -> W -> option Go.error * W }.

(** [readyToFlush] is a function value: the driver's own
    [defaultReadyToFlush], or the one given to [OverrideReadyToFlush]. *)
Inductive ReadyToFlush :=
| defaultReadyToFlush
| overridden (f : unit -> bool).

(** How a call ends: it returns an error (or [nil]), or it panics. *)
Inductive Outcome :=
| Return (err : option Go.error)
| Panic.

Section Driver.

Context {W KT : Type} {clientI : InfluxClient W} {clockI : Clock KT}.

Record influxdbStorage := {
  client : option W;
  machineName : string;
  bucket : string;
  org : string;
  retentionPolicy : string;
  bufferDuration : Go.Duration;
  lastWrite : Go.Time;
  points : list Point;
  readyToFlush : ReadyToFlush }.

(** The driver and the clock it reads. *)
Record Sink := {
  self : influxdbStorage;
  sclock : KT }.

Definition set_points (v : list Point) (d : influxdbStorage) : influxdbStorage :=
  {| client := client d; machineName := machineName d; bucket := bucket d;
     org := org d; retentionPolicy := retentionPolicy d;
     bufferDuration := bufferDuration d; lastWrite := lastWrite d; points := v;
     readyToFlush := readyToFlush d |}.

Definition set_lastWrite (v : Go.Time) (d : influxdbStorage) : influxdbStorage :=
  {| client := client d; machineName := machineName d; bucket := bucket d;
     org := org d; retentionPolicy := retentionPolicy d;
     bufferDuration := bufferDuration d; lastWrite := v; points := points d;
     readyToFlush := readyToFlush d |}.

Definition set_client (v : option W) (d : influxdbStorage) : influxdbStorage :=
  {| client := v; machineName := machineName d; bucket := bucket d;
     org := org d; retentionPolicy := retentionPolicy d;
     bufferDuration := bufferDuration d; lastWrite := lastWrite d; points := points d;
     readyToFlush := readyToFlush d |}.

Definition set_readyToFlush (v : ReadyToFlush) (d : influxdbStorage) : influxdbStorage :=
  {| client := client d; machineName := machineName d; bucket := bucket d;
     org := org d; retentionPolicy := retentionPolicy d;
     bufferDuration := bufferDuration d; lastWrite := lastWrite d; points := points d;
     readyToFlush := v |}.

Definition OverrideReadyToFlush (f : unit -> bool) : StateOp Sink unit :=
  fun s => (tt, {| self := set_readyToFlush (overridden f) (self s); sclock := sclock s |}).

Definition call_readyToFlush : StateOp Sink bool :=
  fun s =>
    match readyToFlush (self s) with
    | overridden f => (f tt, s)
    | defaultReadyToFlush =>
        let (now, k) := clock_Now (sclock s) in
        (bufferDuration (self s) <=? Go.Time_Sub now (lastWrite (self s)),
         {| self := self s; sclock := k |})
    end.

(** The part of [AddStats] run under the lock: the points to flush. *)
Definition AddStats_locked (ref : info.ContainerReference) (stats : info.ContainerStats)
    : StateOp Sink (list Point) :=
  fun s =>
    let d := self s in
    let d := set_points (points d ++ containerStatsToPoints ref stats) d in
    let d := set_points (points d ++ containerFilesystemStatsToPoints ref stats) d in
    let (ready, s) := call_readyToFlush {| self := d; sclock := sclock s |} in
    if ready : bool then
      let pointsToFlush := points (self s) in
      let (now, k) := clock_Now (sclock s) in
      (pointsToFlush,
       {| self := set_lastWrite now (set_points [] (self s)); sclock := k |})
    else ([], s).

Definition AddStats (ref : info.ContainerReference) (stats : option info.ContainerStats)
    : StateOp Sink Outcome :=
  fun s =>
    match stats with
    | None => (Return None, s)
    | Some stats =>
        let (pointsToFlush, s) := AddStats_locked ref stats s in
        if (0 <? List.length pointsToFlush)%nat then
          match client (self s) with
          | None => (Panic, s)
          | Some w =>
              let (err, w') :=
                client_WritePoint (org (self s)) (bucket (self s)) pointsToFlush w in
              let s := {| self := set_client (Some w') (self s); sclock := sclock s |} in
              match err with
              | Some e =>
                  (Return (Some (Go.fmt_Errorf "failed to write stats to influxDb - %s"
                                   [Go.VError e])), s)
              | None => (Return None, s)
              end
          end
        else (Return None, s)
    end.

Definition Close : StateOp Sink (option Go.error) :=
  fun s => (None, {| self := set_client None (self s); sclock := sclock s |}).

(** The points of one sample, as [AddStats] appends them to the buffer. *)
Definition points_of (ref : info.ContainerReference) (stats : info.ContainerStats)
    : list Point :=
  containerStatsToPoints ref stats ++ containerFilesystemStatsToPoints ref stats.

(** The locked part of [AddStats] run on samples one after the other:
    the batch that each call takes out of the buffer (empty when it
    flushes nothing), and the driver in the end. *)
Fixpoint AddStats_run (samples : list (info.ContainerReference * info.ContainerStats))
    (s : Sink) : list (list Point) * Sink :=
  match samples with
  | [] => ([], s)
  | (ref, stats) :: rest =>
      let (batch, s1) := AddStats_locked ref stats s in
      let (batches, s2) := AddStats_run rest s1 in
      (batch :: batches, s2)
  end.


End Driver.

Arguments influxdbStorage : clear implicits.
Arguments Sink : clear implicits.

End influxdb2.

(** ** Collaborators for the examples

    Simple implementations of the interfaces, on which the properties below
    are run: a handler with fixed answers, a cache that keeps every sample
    (latest first), a clock that advances by a millisecond at every
    reading, and library functions for ASCII input. *)

Module Stub.

Record Handler := {
  h_ref : info.ContainerReference * option Go.error;
  h_spec : info.ContainerSpec * option Go.error;
  h_stats : option info.ContainerStats * option Go.error;
  h_subs : list info.ContainerReference * option Go.error;
  h_cgroup : string * option Go.error;
  h_exists : bool }.

#[global] Instance handler_instance : ContainerHandler Handler := {|
  handler_ContainerReference h := (h_ref h, h);
  handler_GetSpec h := (h_spec h, h);
  handler_GetStats h := (h_stats h, h);
  handler_ListContainers _ h := (h_subs h, h);
  handler_GetCgroupPath _ h := (h_cgroup h, h);
  handler_Exists h := (h_exists h, h) |}.

Definition Cache : Type := list (string * info.ContainerStats).

Definition cache_lookup (name : string) (c : Cache) : list info.ContainerStats :=
  map snd (filter (fun e => String.eqb (fst e) name) c).

#[global] Instance cache_instance : InMemoryCache Cache := {|
  cache_AddStats ref stats c := (None, (info.Name ref, stats) :: c);
  cache_RecentStats name _ _ n c :=
    match cache_lookup name c with
    | [] => ([], Some (Go.errors_New "unable to find data for container"))
    | l => (firstn (Z.to_nat n) l, None)
    end;
  cache_RemoveContainer name c :=
    (None, filter (fun e => negb (String.eqb (fst e) name)) c) |}.

#[global] Instance collectors_instance : CollectorManager unit := {|
  cm_GetSpec m := (([], None), m);
  cm_Collect m := ((0, None, None), m);
  cm_Collectors_len _ := 0;
  cm_NextCollectionTime _ := 0 |}.

#[global] Instance summary_instance : StatsSummary unit := {|
  summary_New _ := (Some tt, None);
  summary_AddSample _ sm := (None, sm) |}.

#[global] Instance loadReader_instance : CpuLoadReader info.LoadStats := {|
  cpuload_New := (Some info.LoadStats_zero, None);
  loadReader_GetCpuLoad _ _ l := ((l, None), l) |}.

#[global] Instance clock_instance : Clock Z := {|
  clock_Now k := (k, k + Go.Millisecond) |}.

Definition list_eqb {A} (eqb : A -> A -> bool) : list A -> list A -> bool :=
  fix go (l1 l2 : list A) : bool :=
    match l1, l2 with
    | [], [] => true
    | x :: l1', y :: l2' => eqb x y && go l1' l2'
    | _, _ => false
    end.

Definition CpuStats_eqb (a b : info.CpuStats) : bool :=
  (info.Total (info.Usage a) =? info.Total (info.Usage b))
  && (info.System (info.Usage a) =? info.System (info.Usage b))
  && (info.User (info.Usage a) =? info.User (info.Usage b))
  && (info.Throttled (info.Usage a) =? info.Throttled (info.Usage b))
  && (info.LoadAverage a =? info.LoadAverage b).

Definition MemoryStats_eqb (a b : info.MemoryStats) : bool :=
  (info.MemUsage a =? info.MemUsage b) && (info.RSS a =? info.RSS b)
  && (info.WorkingSet a =? info.WorkingSet b).

Definition NetworkStats_eqb (a b : info.NetworkStats) : bool :=
  (info.RxBytes a =? info.RxBytes b) && (info.RxErrors a =? info.RxErrors b)
  && (info.TxBytes a =? info.TxBytes b) && (info.TxErrors a =? info.TxErrors b).

Definition FsStats_eqb (a b : info.FsStats) : bool :=
  String.eqb (info.Device a) (info.Device b) && (info.Limit a =? info.Limit b)
  && (info.FsUsage a =? info.FsUsage b).

Definition PerDiskStats_eqb (a b : info.PerDiskStats) : bool :=
  (info.Major a =? info.Major b) && (info.Minor a =? info.Minor b)
  && list_eqb (fun x y => String.eqb (fst x) (fst y) && (snd x =? snd y))
              (info.Stats a) (info.Stats b).

(** Modelled from the spec: [StatsEq] is a method of [info/v1]: "two stats
    are equal iff every scalar field except timestamp matches". *)
Definition StatsEq_fields (a b : info.ContainerStats) : bool :=
  CpuStats_eqb (info.Cpu a) (info.Cpu b)
  && MemoryStats_eqb (info.Memory a) (info.Memory b)
  && NetworkStats_eqb (info.Network a) (info.Network b)
  && list_eqb FsStats_eqb (info.Filesystem a) (info.Filesystem b)
  && list_eqb PerDiskStats_eqb (info.IoServiceBytes (info.DiskIo a))
              (info.IoServiceBytes (info.DiskIo b))
  && list_eqb PerDiskStats_eqb (info.IoServiced (info.DiskIo a))
              (info.IoServiced (info.DiskIo b)).

Fixpoint insert_ref (x : info.ContainerReference) (l : list info.ContainerReference)
    : list info.ContainerReference :=
  match l with
  | [] => [x]
  | y :: rest =>
      if String.leb (info.Name x) (info.Name y) then x :: l else y :: insert_ref x rest
  end.

(** Modelled from the spec: the sub-container list is "sort[ed]
    deterministically"; here by name. *)
Definition sort_by_name (l : list info.ContainerReference) : list info.ContainerReference :=
  fold_right insert_ref [] l.

#[global] Instance infoMethods_instance : InfoMethods := {|
  StatsEq := StatsEq_fields;
  sort_ContainerReferenceSlice := sort_by_name |}.

(** The exponential, by its series. *)
Fixpoint exp_series (n : nat) (i : Z) (x term acc : float) : float :=
  match n with
  | O => acc
  | S n' =>
      let term' := (term * x / Go.float64_of_int64 i)%float in
      exp_series n' (i + 1) x term' (acc + term')%float
  end.

Definition exp (x : float) : float := exp_series 40 1 x 1 1.

Definition is_space (ch : ascii) : bool :=
  let n := nat_of_ascii ch in
  ((9 <=? n) && (n <=? 13))%nat || (n =? 32)%nat.

(** [strings.Fields] on ASCII input. *)
Fixpoint fields_from (s : string) (cur : string) : list string :=
  match s with
  | EmptyString => if (String.length cur =? 0)%nat then [] else [cur]
  | String ch rest =>
      if is_space ch then
        if (String.length cur =? 0)%nat then fields_from rest ""
        else cur :: fields_from rest ""
      else fields_from rest (cur ++ String ch "")
  end.

Definition Fields (s : string) : list string := fields_from s "".

Definition digit_of (ch : ascii) : option Z :=
  let n := nat_of_ascii ch in
  if ((48 <=? n) && (n <=? 57))%nat then Some (Z.of_nat n - 48) else None.

Fixpoint decimal_from (s : string) (acc : Z) : option Z :=
  match s with
  | EmptyString => Some acc
  | String ch rest =>
      match digit_of ch with
      | Some d => decimal_from rest (10 * acc + d)
      | None => None
      end
  end.

Definition syntax_error : Go.error := Go.errors_New "invalid syntax".

(** Decimal numerals without sign. *)
Definition parse_decimal (s : string) : Z * option Go.error :=
  match s with
  | EmptyString => (0, Some syntax_error)
  | _ => match decimal_from s 0 with
         | Some z => (z, None)
         | None => (0, Some syntax_error)
         end
  end.

Definition ParseUint (s : string) : Z * option Go.error :=
  match parse_decimal s with
  | (z, None) => if z <? 2 ^ 64 then (z, None)
                 else (2 ^ 64 - 1, Some (Go.errors_New "value out of range"))
  | bad => bad
  end.

(** Numerals of the form [digits] or [digits.digits]. *)
Definition ParseFloat32 (s : string) : float * option Go.error :=
  match Go.strings_Split s "."%char with
  | [whole] =>
      match parse_decimal whole with
      | (z, None) => (Go.float32_of_float64 (Go.float64_of_int64 z), None)
      | (_, Some e) => (0%float, Some e)
      end
  | [whole; frac] =>
      match parse_decimal whole, parse_decimal frac with
      | (z, None), (f, None) =>
          (Go.float32_of_float64
             (Go.float64_of_int64 (z * 10 ^ Z.of_nat (String.length frac) + f)
              / Go.float64_of_int64 (10 ^ Z.of_nat (String.length frac)))%float, None)
      | _, _ => (0%float, Some syntax_error)
      end
  | _ => (0%float, Some syntax_error)
  end.

Fixpoint starts_with (pre s : string) : option string :=
  match pre, s with
  | EmptyString, _ => Some s
  | String a pre', String b s' => if Ascii.eqb a b then starts_with pre' s' else None
  | _, EmptyString => None
  end.

(** The rest of [s] after its first [ch], if any. *)
Fixpoint after_first (ch : ascii) (s : string) : option string :=
  match s with
  | EmptyString => None
  | String a rest => if Ascii.eqb a ch then Some rest else after_first ch rest
  end.

Definition is_terminator (ch : ascii) : bool :=
  Ascii.eqb ch ","%char || Ascii.eqb ch ";"%char || Ascii.eqb ch "$"%char.

(** The shortest prefix of [s] followed by a terminator, within a line. *)
Fixpoint lazy_until_terminator (s : string) : option string :=
  match s with
  | EmptyString => None
  | String a rest =>
      if is_terminator a then Some EmptyString
      else if Ascii.eqb a Go.newline then None
      else option_map (String a) (lazy_until_terminator rest)
  end.

(** The text and first group of the leftmost match of [devices], then the
    bytes up to a colon, the colon, and as little as possible up to a
    comma, a semicolon or a dollar sign. *)
Definition match_here (s : string) : option string :=
  match starts_with "devices" s with
  | None => None
  | Some rest =>
      match after_first ":"%char rest with
      | None => None
      | Some tail => lazy_until_terminator tail
      end
  end.

Fixpoint FindSubmatch (s : string) : list string :=
  match match_here s with
  | Some g => [s; g]
  | None =>
      match s with
      | EmptyString => []
      | String _ rest => FindSubmatch rest
      end
  end.

Definition nl : string := String Go.newline "".

(** A process table: the header and three processes of three cgroups. *)
Definition ps_output : string :=
  ("USER PID PPID STIME %CPU %MEM RSS VSZ STAT TIME COMMAND CGROUP" ++ nl ++
   "root 1 0 Jan01 0.0 0.1 1024 2048 Ss 00:00:01 init 3:devices:/,2:cpu:/" ++ nl ++
   "root 7 1 Jan01 1.5 0.2 512 4096 S 00:00:02 ps 3:devices:/docker/agent,2:cpu:/docker/agent" ++ nl ++
   "app 9 1 Jan01 2.0 0.3 300 700 R 00:00:03 server 3:devices:/docker/abc,2:cpu:/docker/abc" ++ nl)%string.

#[global] Instance platform_instance : Platform := {|
  math_Exp := exp;
  strings_Fields := Fields;
  strconv_Atoi := parse_decimal;
  strconv_ParseFloat32 := ParseFloat32;
  strconv_ParseUint := ParseUint;
  cgroupPathRegExp_FindSubmatch := FindSubmatch;
  exec_Command_Output _ _ := (ps_output, None) |}.

Definition ref_of (name : string) : info.ContainerReference :=
  {| info.Name := name; info.Aliases := []; info.Namespace := "" |}.

(** A sample whose cumulative CPU total is [total]. *)
Definition sample (t : Go.Time) (total : Z) : info.ContainerStats :=
  {| info.Timestamp := t;
     info.Cpu := {| info.Usage := {| info.Total := total; info.System := 0;
                                     info.User := total; info.Throttled := 0 |};
                    info.LoadAverage := 0 |};
     info.DiskIo := {| info.IoServiceBytes := []; info.IoServiced := [] |};
     info.Memory := {| info.MemUsage := 4096; info.RSS := 4096; info.WorkingSet := 4096 |};
     info.Network := {| info.RxBytes := 0; info.RxErrors := 0; info.TxBytes := 0;
                        info.TxErrors := 0 |};
     info.Filesystem := [];
     info.TaskStats := info.LoadStats_zero;
     info.StatsCustomMetrics := None |}.

(** A live container named [name] whose stats do not change. *)
Definition steady_handler (name : string) : Handler :=
  {| h_ref := (ref_of name, None);
     h_spec := (info.ContainerSpec_zero, None);
     h_stats := (Some (sample 0 1000), None);
     h_subs := ([], None);
     h_cgroup := ("/sys/fs/cgroup/cpu"%string, None);
     h_exists := true |}.

Definition flags : Flags :=
  {| HousekeepingInterval := 1 * Go.Second;
     enableLoadReader := true;
     LoadreaderInterval := 1 * Go.Second;
     MaxLoadReaderInterval := 60 * Go.Second;
     PanicTimeout := 1 * Go.Minute |}.

(** A tracker as [newContainerData] builds it, with dynamic housekeeping
    up to [ceiling]. *)
Definition fresh (h : Handler) (ceiling : Go.Duration)
    : option (Runtime Handler Cache unit unit info.LoadStats Z) * option Go.error :=
  newContainerData flags "c" (Some []) (Some h) false tt ceiling true 0 [].

Definition tracker_of (h : Handler) (ceiling : Go.Duration)
    : Runtime Handler Cache unit unit info.LoadStats Z :=
  {| cd := {| handler := h;
              info := {| Reference := fst (h_ref h); Subcontainers := [];
                         Spec := info.ContainerSpec_zero |};
              memoryCache := [];
              loadReader := Some info.LoadStats_zero;
              summaryReader := Some tt;
              housekeepingInterval := HousekeepingInterval flags;
              maxHousekeepingInterval := ceiling;
              allowDynamicHousekeeping := true;
              lastUpdatedTime := Go.zeroTime;
              lastErrorTime := Go.zeroTime;
              loadAvg := (-1.0)%float;
              loadAvgLastProbeTime := Go.zeroTime;
              loadreaderInterval := LoadreaderInterval flags;
              taskStats := info.LoadStats_zero;
              logUsage := false;
              collectorManager := tt |};
     clock := 0;
     events := [] |}.

(** The root tracker, cold and after a first turn of the loop. *)
Definition root_tracker : Runtime Handler Cache unit unit info.LoadStats Z :=
  tracker_of (steady_handler "/") (8 * Go.Second).

Definition warm_tracker : Runtime Handler Cache unit unit info.LoadStats Z :=
  housekeepingIterations flags 1 root_tracker.

Definition stats_error : Go.error := Go.errors_New "cgroup files are gone".

(** A container that was destroyed: no stats, and it does not exist. *)
Definition gone_handler : Handler :=
  {| h_ref := (ref_of "/docker/abc", None);
     h_spec := (info.ContainerSpec_zero, None);
     h_stats := (None, Some stats_error);
     h_subs := ([], None);
     h_cgroup := (""%string, Some stats_error);
     h_exists := false |}.

Definition gone_tracker : Runtime Handler Cache unit unit info.LoadStats Z :=
  tracker_of gone_handler (8 * Go.Second).

(** A live container whose stats come with an error. *)
Definition partial_handler : Handler :=
  {| h_ref := (ref_of "/docker/abc", None);
     h_spec := (info.ContainerSpec_zero, None);
     h_stats := (Some (sample 0 1000), Some stats_error);
     h_subs := ([], None);
     h_cgroup := ("/sys/fs/cgroup/cpu"%string, None);
     h_exists := true |}.

Definition partial_tracker : Runtime Handler Cache unit unit info.LoadStats Z :=
  tracker_of partial_handler (8 * Go.Second).

Definition reference_error : Go.error := Go.errors_New "no reference".

(** The same, when the handler cannot give the container's reference. *)
Definition unreferenced_handler : Handler :=
  {| h_ref := (ref_of "", Some reference_error);
     h_spec := (info.ContainerSpec_zero, None);
     h_stats := (Some (sample 0 1000), Some stats_error);
     h_subs := ([], None);
     h_cgroup := ("/sys/fs/cgroup/cpu"%string, None);
     h_exists := true |}.

Definition unreferenced_tracker : Runtime Handler Cache unit unit info.LoadStats Z :=
  tracker_of unreferenced_handler (8 * Go.Second).

Definition load (running uninterruptible iowait : Z) : info.LoadStats :=
  {| info.NrRunning := running; info.NrUninterruptible := uninterruptible;
     info.NrIoWait := iowait |}.

(** The root tracker after probes of 3 tasks at time 0 and of 1 task ten
    seconds later. *)
Definition loaded_tracker : Runtime Handler Cache unit unit info.LoadStats Z :=
  run_calls flags
    [call_updateLoadAvg 0 (load 3 0 0); call_updateLoadAvg (10 * Go.Second) (load 1 0 0)]
    root_tracker.

(** A client that accepts every write. *)
#[global] Instance client_instance : influxdb2.InfluxClient unit := {|
  influxdb2.client_WritePoint _ _ _ w := (None, w) |}.

(** A sink with no client, that flushes at every call. *)
Definition sink : influxdb2.Sink unit Z :=
  {| influxdb2.self :=
       {| influxdb2.client := None;
          influxdb2.machineName := "host";
          influxdb2.bucket := "cadvisor";
          influxdb2.org := "OrgName";
          influxdb2.retentionPolicy := "";
          influxdb2.bufferDuration := 0;
          influxdb2.lastWrite := 0;
          influxdb2.points := [];
          influxdb2.readyToFlush := influxdb2.defaultReadyToFlush |};
     influxdb2.sclock := 0 |}.

(** A tracker of [h] with the given reader, dynamic housekeeping or not,
    the time of the last logged error, and clock. *)
Definition tracker_with {LT KT : Type} (h : Handler) (lr : option LT) (dyn : bool)
    (lastError : Go.Time) (k : KT) : Runtime Handler Cache unit unit LT KT :=
  {| cd := {| handler := h;
              info := {| Reference := fst (h_ref h); Subcontainers := [];
                         Spec := info.ContainerSpec_zero |};
              memoryCache := [];
              loadReader := lr;
              summaryReader := Some tt;
              housekeepingInterval := HousekeepingInterval flags;
              maxHousekeepingInterval := 8 * Go.Second;
              allowDynamicHousekeeping := dyn;
              lastUpdatedTime := Go.zeroTime;
              lastErrorTime := lastError;
              loadAvg := (-1.0)%float;
              loadAvgLastProbeTime := Go.zeroTime;
              loadreaderInterval := LoadreaderInterval flags;
              taskStats := info.LoadStats_zero;
              logUsage := false;
              collectorManager := tt |};
     clock := k;
     events := [] |}.

(** A tracker without dynamic housekeeping. *)
Definition static_tracker : Runtime Handler Cache unit unit info.LoadStats Z :=
  tracker_with (steady_handler "/docker/abc") (Some info.LoadStats_zero) false Go.zeroTime 0.

(** A clock that stands still. *)
Inductive Frozen := frozen_at (t : Go.Time).

#[global] Instance frozen_instance : Clock Frozen := {|
  clock_Now k := (match k with frozen_at t => t end, k) |}.

(** A tracker of a container with failing stats, thirty seconds into a
    run, that logged an error twenty seconds ago. *)
Definition muted_tracker : Runtime Handler Cache unit unit info.LoadStats Frozen :=
  tracker_with partial_handler (Some info.LoadStats_zero) true
    (10 * Go.Second) (frozen_at (30 * Go.Second)).

(** A live container of which the handler has no stats. *)
Definition statless_handler : Handler :=
  {| h_ref := (ref_of "/docker/abc", None);
     h_spec := (info.ContainerSpec_zero, None);
     h_stats := (None, Some stats_error);
     h_subs := ([], None);
     h_cgroup := ("/sys/fs/cgroup/cpu"%string, None);
     h_exists := true |}.

Definition statless_tracker : Runtime Handler Cache unit unit info.LoadStats Z :=
  tracker_of statless_handler (8 * Go.Second).

(** A live container of which the handler has no spec. *)
Definition specless_handler : Handler :=
  {| h_ref := (ref_of "/docker/abc", None);
     h_spec := (info.ContainerSpec_zero, Some stats_error);
     h_stats := (Some (sample 0 1000), None);
     h_subs := ([], None);
     h_cgroup := ("/sys/fs/cgroup/cpu"%string, None);
     h_exists := true |}.

Definition specless_tracker : Runtime Handler Cache unit unit info.LoadStats Z :=
  tracker_of specless_handler (8 * Go.Second).

(** A load reader that always fails. *)
Inductive Broken := broken.

Definition netlink_error : Go.error := Go.errors_New "netlink is down".

#[global] Instance broken_instance : CpuLoadReader Broken := {|
  cpuload_New := (Some broken, None);
  loadReader_GetCpuLoad _ _ l := ((info.LoadStats_zero, Some netlink_error), l) |}.

Definition broken_reader_tracker : Runtime Handler Cache unit unit Broken Z :=
  tracker_with (steady_handler "/docker/abc") (Some broken) true Go.zeroTime 0.

(** [path.Join] on elements without dot segments: the elements that are
    not empty, separated by slashes, with runs of slashes made one. *)
Fixpoint collapse_slashes (s : string) : string :=
  match s with
  | String a ((String b _) as rest) =>
      if Ascii.eqb a "/"%char && Ascii.eqb b "/"%char then collapse_slashes rest
      else String a (collapse_slashes rest)
  | _ => s
  end.

Definition Join (elems : list string) : string :=
  collapse_slashes
    (String.concat "/" (filter (fun e => negb (String.length e =? 0)%nat) elems)).

(** A file system in which only process 12 shows the file [/etc/hostname]
    of its container. *)
Definition no_such_file : Go.error := Go.errors_New "no such file or directory".

#[global] Instance fileSystem_instance : FileSystem := {|
  ioutil_ReadFile path :=
    if String.eqb path "/proc/12/root/etc/hostname" then ("abc"%string, None)
    else (""%string, Some no_such_file);
  path_Join := Join |}.

(** A client that keeps the batches it is given, latest first, and
    accepts them or refuses them all. *)
Record Recorder := {
  written : list (list influxdb2.Point);
  refusing : bool }.

Definition write_error : Go.error := Go.errors_New "connection refused".

#[global] Instance recorder_instance : influxdb2.InfluxClient Recorder := {|
  influxdb2.client_WritePoint _ _ points w :=
    (if refusing w then Some write_error else None,
     {| written := points :: written w; refusing := refusing w |}) |}.

(** A sink on a recorder, that buffers for a minute. *)
Definition recording_sink (refusing' : bool) (last : Go.Time)
    : influxdb2.Sink Recorder Z :=
  {| influxdb2.self :=
       {| influxdb2.client := Some {| written := []; refusing := refusing' |};
          influxdb2.machineName := "host";
          influxdb2.bucket := "cadvisor";
          influxdb2.org := "OrgName";
          influxdb2.retentionPolicy := "";
          influxdb2.bufferDuration := 1 * Go.Minute;
          influxdb2.lastWrite := last;
          influxdb2.points := [];
          influxdb2.readyToFlush := influxdb2.defaultReadyToFlush |};
     influxdb2.sclock := 90 * Go.Second |}.


(** A tracker that has no load reader. *)
Definition readerless_tracker : Runtime Handler Cache unit unit info.LoadStats Z :=
  tracker_with (steady_handler "/docker/abc") None true Go.zeroTime 0.

(** The table that [ps -e -o pid,cgroup] prints, and a platform on which
    [ps] prints this table. *)
Definition pid_table : string :=
  ("PID CGROUP" ++ nl ++
   "1 3:devices:/,2:cpu:/" ++ nl ++
   "7 3:devices:/docker/agent,2:cpu:/docker/agent" ++ nl ++
   "9 3:devices:/docker/abc,2:cpu:/docker/abc" ++ nl ++
   "12 3:devices:/docker/abc,2:cpu:/docker/abc" ++ nl)%string.

Definition pid_platform : Platform :=
  {| math_Exp := exp;
     strings_Fields := Fields;
     strconv_Atoi := parse_decimal;
     strconv_ParseFloat32 := ParseFloat32;
     strconv_ParseUint := ParseUint;
     cgroupPathRegExp_FindSubmatch := FindSubmatch;
     exec_Command_Output _ _ := (pid_table, None) |}.

(** A tracker of the container [/docker/abc]. *)
Definition abc_tracker : Runtime Handler Cache unit unit info.LoadStats Z :=
  tracker_of (steady_handler "/docker/abc") (8 * Go.Second).


(** A container that was destroyed, of which the handler knows nothing
    any more. *)
Definition vanished_handler : Handler :=
  {| h_ref := (ref_of "/docker/abc", None);
     h_spec := (info.ContainerSpec_zero, Some stats_error);
     h_stats := (None, Some stats_error);
     h_subs := ([], Some stats_error);
     h_cgroup := (""%string, Some stats_error);
     h_exists := false |}.

Definition vanished_tracker : Runtime Handler Cache unit unit info.LoadStats Z :=
  tracker_of vanished_handler (8 * Go.Second).


(** A process table whose second line is cut short, and a platform on
    which [ps] prints it. *)
Definition short_table : string :=
  ("USER PID PPID STIME %CPU %MEM RSS VSZ STAT TIME COMMAND CGROUP" ++ nl ++
   "root 1 0 Jan01 0.0 0.1 1024 2048 Ss 00:00:01 init 3:devices:/,2:cpu:/" ++ nl ++
   "root 7" ++ nl)%string.

Definition short_platform : Platform :=
  {| math_Exp := exp;
     strings_Fields := Fields;
     strconv_Atoi := parse_decimal;
     strconv_ParseFloat32 := ParseFloat32;
     strconv_ParseUint := ParseUint;
     cgroupPathRegExp_FindSubmatch := FindSubmatch;
     exec_Command_Output _ _ := (short_table, None) |}.


End Stub.

(** * Properties *)

(** ** Floats: signs and comparisons *)

Lemma shr_1_nonneg r : 0 <= shr_m r -> 0 <= shr_m (shr_1 r).
Proof.
  destruct r as [m r s]; simpl.
  destruct m as [|q|q]; try destruct q; simpl; lia.
Qed.

Lemma iter_pos_invariant {A} (P : A -> Prop) (f : A -> A) :
  (forall x, P x -> P (f x)) -> forall n x, P x -> P (iter_pos f n x).
Proof.
  intros Hf. induction n; simpl; intros x Hx; auto.
Qed.

Lemma shr_nonneg r e n : 0 <= shr_m r -> 0 <= shr_m (fst (shr r e n)).
Proof.
  intros Hr. unfold shr. destruct n; simpl; auto.
  apply iter_pos_invariant with (P := fun r => 0 <= shr_m r); auto using shr_1_nonneg.
Qed.

Lemma shr_fexp_nonneg p e m x l :
  0 <= m -> 0 <= shr_m (fst (shr_fexp p e m x l)).
Proof.
  intros Hm. unfold shr_fexp. apply shr_nonneg.
  destruct l as [|[]]; simpl; assumption.
Qed.

Lemma round_nearest_even_nonneg m l : 0 <= m -> 0 <= round_nearest_even m l.
Proof.
  intros. unfold round_nearest_even. destruct l as [|[]]; try lia.
  destruct (Z.even m); lia.
Qed.

Lemma binary_round_aux_nonneg p e m x l :
  0 <= m -> sf_nonneg (binary_round_aux p e false m x l).
Proof.
  intros Hm. unfold binary_round_aux.
  pose proof (@shr_fexp_nonneg p e m x l Hm) as H1.
  destruct (shr_fexp p e m x l) as [r1 e1]. simpl in H1.
  pose proof (@shr_fexp_nonneg p e _ e1 loc_Exact
                (@round_nearest_even_nonneg _ (loc_of_shr_record r1) H1)) as H2.
  destruct (shr_fexp p e _ e1 loc_Exact) as [r2 e2]. simpl in H2.
  destruct (shr_m r2); simpl; auto; try lia.
  destruct (e2 <=? e - p); simpl; auto.
Qed.

Lemma binary_normalize_nonneg p e m x :
  0 <= m -> sf_nonneg (binary_normalize p e m x false).
Proof.
  intros Hm. unfold binary_normalize. destruct m; simpl; auto; try lia.
  unfold binary_round. destruct (shl_align _ _ _).
  apply binary_round_aux_nonneg. lia.
Qed.

Lemma of_uint63_nonneg n : sf_nonneg (Prim2SF (of_uint63 n)).
Proof.
  rewrite of_uint63_spec. apply binary_normalize_nonneg.
  pose proof (Uint63.to_Z_bounded n). lia.
Qed.

Lemma SF64add_nonneg x y : sf_nonneg x -> sf_nonneg y -> sf_nonneg (SF64add x y).
Proof.
  unfold SF64add, SFadd.
  destruct x as [sx|sx| |sx mx ex], y as [sy|sy| |sy my ey]; simpl;
    intros Hx Hy; subst; auto; try contradiction.
  all: try (destruct sx, sy; simpl; auto; fail).
  all: try (apply binary_normalize_nonneg; simpl; lia).
  all: reflexivity.
Qed.

Lemma leb_0_of_nonneg x : sf_nonneg (Prim2SF x) -> (0 <=? x)%float = true.
Proof.
  rewrite FloatAxioms.leb_spec. change (Prim2SF 0) with (S754_zero false).
  destruct (Prim2SF x) as [s|s| |s m e]; simpl; intros Hx; subst; auto; contradiction.
Qed.

(** [x >= 0] excludes [x < 0]. *)
Lemma leb_0_not_ltb_0 x : (0 <=? x)%float = true -> (x <? 0)%float = false.
Proof.
  rewrite FloatAxioms.leb_spec, FloatAxioms.ltb_spec.
  change (Prim2SF 0) with (S754_zero false).
  destruct (Prim2SF x) as [s|s| |s m e]; simpl; auto; destruct s; simpl; auto; discriminate.
Qed.

(** The conversion of a [uint64] is never negative and never a NaN. *)
Lemma float64_of_uint64_nonneg z : (0 <=? Go.float64_of_uint64 z)%float = true.
Proof.
  apply leb_0_of_nonneg. unfold Go.float64_of_uint64.
  destruct (z <? 2 ^ 63).
  - apply of_uint63_nonneg.
  - cbv zeta. rewrite FloatAxioms.add_spec. apply SF64add_nonneg; apply of_uint63_nonneg.
Qed.

Lemma wrap_uint64_small z : Go.is_uint64 z -> Go.wrap_uint64 z = z.
Proof.
  unfold Go.is_uint64, Go.wrap_uint64. intros. apply Z.mod_small. lia.
Qed.

Lemma wrap_int64_small z : Go.is_int64 z -> Go.wrap_int64 z = z.
Proof.
  unfold Go.is_int64, Go.wrap_int64, Go.MinInt64, Go.MaxInt64. intros.
  rewrite Z.mod_small; lia.
Qed.

(** ** The tracker *)

Section TrackerProperties.

Context {HT CT MT ST LT KT : Type}.
Context {handlerI : ContainerHandler HT} {cacheI : InMemoryCache CT}
        {collectorI : CollectorManager MT} {summaryI : StatsSummary ST}
        {loadI : CpuLoadReader LT} {clockI : Clock KT}
        {infoI : InfoMethods} {platformI : Platform}.
Variable flags : Flags.

Local Abbreviation Runtime := (Runtime HT CT MT ST LT KT).
Local Abbreviation containerData := (containerData HT CT MT ST LT).
Local Abbreviation Op := (StateOp Runtime).
Local Abbreviation Keeps := (@Keeps HT CT MT ST LT KT _ _).
Local Abbreviation Emits := (@Emits HT CT MT ST LT KT _).

Lemma bind_assoc {A B C} (m : Op A) (f : A -> Op B) (g : B -> Op C) (r : Runtime) :
  bind (bind m f) g r = bind m (fun x => bind (f x) g) r.
Proof. unfold bind. destruct (m r). reflexivity. Qed.

Lemma bind_result {A B} (m : Op A) (k : A -> Op B) (r : Runtime) :
  exists a r1, m r = (a, r1) /\ bind m k r = k a r1.
Proof. unfold bind. destruct (m r) as [a r1]. exists a, r1. split; reflexivity. Qed.

Lemma bind_run {A B} (m : Op A) (k : A -> Op B) (r r1 : Runtime) (a : A) :
  m r = (a, r1) -> bind m k r = k a r1.
Proof. intros Hm. unfold bind. rewrite Hm. reflexivity. Qed.


Lemma Keeps_ret {X A} (g : containerData -> X) (a : A) : Keeps g (ret a).
Proof. intros r. reflexivity. Qed.

Lemma Keeps_bind {X A B} (g : containerData -> X) (m : Op A) (k : A -> Op B) :
  Keeps g m -> (forall a, Keeps g (k a)) -> Keeps g (bind m k).
Proof.
  intros Hm Hk r. unfold bind. specialize (Hm r).
  destruct (m r) as [a r1]. simpl in Hm. rewrite <- Hm. apply Hk.
Qed.

Lemma Keeps_read {X A} (g : containerData -> X) (f : containerData -> A) :
  Keeps g (read f).
Proof. intros r. reflexivity. Qed.

Lemma Keeps_update {X} (g : containerData -> X) (f : containerData -> containerData) :
  (forall c, g (f c) = g c) -> Keeps g (update f).
Proof. intros Hf r. simpl. apply Hf. Qed.

Lemma Keeps_emit {X} (g : containerData -> X) (e : Event) : Keeps g (emit e).
Proof. intros r. reflexivity. Qed.

Lemma Keeps_time_Now {X} (g : containerData -> X) : Keeps g time_Now.
Proof.
  intros r. unfold time_Now. destruct (clock_Now (clock r)). reflexivity.
Qed.

Lemma Keeps_onHandler {X A} (g : containerData -> X) (op : HT -> A * HT) :
  (forall h c, g (set_handler h c) = g c) -> Keeps g (onHandler op).
Proof.
  intros Hg r. unfold onHandler, with_handler. destruct (op (handler (cd r))).
  simpl. apply Hg.
Qed.

Lemma Keeps_onCollectors {X A} (g : containerData -> X) (op : MT -> A * MT) :
  (forall m c, g (set_collectorManager m c) = g c) -> Keeps g (onCollectors op).
Proof.
  intros Hg r. unfold onCollectors. destruct (op (collectorManager (cd r))).
  simpl. apply Hg.
Qed.

Lemma Keeps_AddStats {X} (g : containerData -> X) ref stats :
  (forall m c, g (set_memoryCache m c) = g c) ->
  Keeps g (memoryCache_AddStats ref stats).
Proof.
  intros Hg r. unfold memoryCache_AddStats.
  destruct (cache_AddStats ref stats (memoryCache (cd r))). simpl. apply Hg.
Qed.

(** One step of a frame proof: the method at hand is opened, a sequence
    is split, a branch is taken, a primitive is closed. *)
Ltac keeps_step :=
  match goal with
  | |- Keeps _ (bind _ _) => apply Keeps_bind; [| intro]
  | |- Keeps _ (ret _) => apply Keeps_ret
  | |- Keeps _ (read _) => apply Keeps_read
  | |- Keeps _ (update _) => apply Keeps_update; intro; reflexivity
  | |- Keeps _ (emit _) => apply Keeps_emit
  | |- Keeps _ (glog _) => apply Keeps_emit
  | |- Keeps _ time_Now => apply Keeps_time_Now
  | |- Keeps _ (onHandler _) => apply Keeps_onHandler; intros; reflexivity
  | |- Keeps _ (onCollectors _) => apply Keeps_onCollectors; intros; reflexivity
  | |- Keeps _ (memoryCache_AddStats _ _) => apply Keeps_AddStats; intros; reflexivity
  | |- Keeps _ (match ?x with _ => _ end) => destruct x
  | |- Keeps _ _ =>
      progress unfold time_Since, memoryCache_RecentStats, allowErrorLogging, LoadAvg,
        TaskStats, updateTaskStats, updateCustomStats, addSummarySample,
        attachCustomStats, prepareStats, pushStats, updateStats, doWithTimeout,
        adjustHousekeepingInterval, logUsageStep, housekeepingReport, housekeepingCollect,
        housekeepingAdjust, housekeepingIteration, updateSpec, updateSubcontainers,
        GetInfo
  end.

Ltac keeps := repeat keeps_step.

(** Only the load smoother writes [loadAvg]. *)
Lemma run_call_keeps_loadAvg (call : Call) (r : Runtime) :
  observes call = false -> loadAvg (cd (run_call flags call r)) = loadAvg (cd r).
Proof.
  destruct call; cbn [observes run_call]; try discriminate; intros _.
  all: match goal with
       | |- _ (cd (snd (?m ?r0))) = _ => revert r0; change (Keeps loadAvg m)
       end.
  all: keeps.
Qed.

Lemma run_calls_keep_loadAvg (calls : list Call) (r : Runtime) :
  forallb (fun call => negb (observes call)) calls = true ->
  loadAvg (cd (run_calls flags calls r)) = loadAvg (cd r).
Proof.
  revert r. induction calls as [|call calls IH]; intros r Hc.
  - reflexivity.
  - simpl in Hc. apply andb_prop in Hc. destruct Hc as [Hc1 Hc2].
    change (run_calls flags (call :: calls) r)
      with (run_calls flags calls (run_call flags call r)).
    rewrite IH by assumption.
    apply run_call_keeps_loadAvg. now destruct (observes call).
Qed.

Lemma newContainerData_loadAvg containerName (mc : option CT) (h : option HT) lu
    (cm : MT) maxI dyn (k : KT) evs (r : Runtime) :
  newContainerData flags containerName mc h lu cm maxI dyn k evs = (Some r, None) ->
  loadAvg (cd r) = (-1)%float.
Proof.
  unfold newContainerData. intros Hn.
  destruct mc as [mc|]; [|discriminate].
  destruct h as [h|]; [|discriminate].
  destruct (handler_ContainerReference h) as [[ref err] h'].
  destruct err; [discriminate|].
  match type of Hn with
  | (match ?m ?r0 with _ => _ end) = _ =>
      assert (Hk : loadAvg (cd (snd (m r0))) = loadAvg (cd r0));
      [ generalize r0; change (Keeps loadAvg m) | destruct (m r0) as [[e|] r1] ]
  end.
  - keeps.
  - discriminate.
  - inversion Hn; subst. exact Hk.
Qed.

(** *** The load smoother *)

Lemma updateLoadAvg_first (probeTime : Go.Time) (sample : info.LoadStats) (r : Runtime) :
  (loadAvg (cd r) <? 0)%float = true ->
  loadAvg (cd (snd (updateLoadAvg probeTime sample r)))
  = Go.float64_of_uint64 (newLoad_of sample).
Proof.
  intros Hneg. unfold updateLoadAvg, bind, read, update. simpl.
  rewrite Hneg. reflexivity.
Qed.

Lemma newLoad_of_sum (sample : info.LoadStats) :
  0 <= info.NrRunning sample -> 0 <= info.NrUninterruptible sample ->
  0 <= info.NrIoWait sample ->
  info.NrRunning sample + info.NrUninterruptible sample + info.NrIoWait sample < 2 ^ 64 ->
  newLoad_of sample
  = info.NrRunning sample + info.NrUninterruptible sample + info.NrIoWait sample.
Proof.
  intros H1 H2 H3 H4. unfold newLoad_of.
  rewrite (@wrap_uint64_small (info.NrRunning sample + info.NrUninterruptible sample))
    by (unfold Go.is_uint64; lia).
  apply wrap_uint64_small. unfold Go.is_uint64. lia.
Qed.




Lemma Emits_silent {A} (P : Event -> Prop) (m : Op A) :
  (forall r, events (snd (m r)) = events r) -> Emits P m.
Proof. intros Hm r. exists []. split; [apply Hm | constructor]. Qed.

Lemma Emits_ret {A} P (a : A) : Emits P (ret a).
Proof. apply Emits_silent. reflexivity. Qed.

Lemma Emits_bind {A B} P (m : Op A) (k : A -> Op B) :
  Emits P m -> (forall a, Emits P (k a)) -> Emits P (bind m k).
Proof.
  intros Hm Hk r. unfold bind. destruct (Hm r) as [n1 [E1 F1]].
  destruct (m r) as [a r1]. simpl in E1.
  destruct (Hk a r1) as [n2 [E2 F2]].
  exists (n2 ++ n1). rewrite E2, E1, app_assoc. split; [reflexivity|].
  apply Forall_app. split; assumption.
Qed.

Lemma Emits_read {A} P (f : containerData -> A) : Emits P (read f).
Proof. apply Emits_silent. reflexivity. Qed.

Lemma Emits_update P (f : containerData -> containerData) : Emits P (update f).
Proof. apply Emits_silent. reflexivity. Qed.

Lemma Emits_emit (P : Event -> Prop) (e : Event) : P e -> Emits P (emit e).
Proof. intros He r. exists [e]. split; [reflexivity | constructor; auto]. Qed.

Lemma Emits_time_Now P : Emits P time_Now.
Proof.
  apply Emits_silent. intros r. unfold time_Now.
  destruct (clock_Now (clock r)). reflexivity.
Qed.

Lemma Emits_onHandler {A} P (op : HT -> A * HT) : Emits P (onHandler op).
Proof.
  apply Emits_silent. intros r. unfold onHandler.
  destruct (op (handler (cd r))). reflexivity.
Qed.

Lemma Emits_onCollectors {A} P (op : MT -> A * MT) : Emits P (onCollectors op).
Proof.
  apply Emits_silent. intros r. unfold onCollectors.
  destruct (op (collectorManager (cd r))). reflexivity.
Qed.

Lemma Emits_AddStats (P : Event -> Prop) ref stats :
  P (CacheAddStats ref stats) -> Emits P (memoryCache_AddStats ref stats).
Proof.
  intros Hp r. exists [CacheAddStats ref stats]. unfold memoryCache_AddStats.
  destruct (cache_AddStats ref stats (memoryCache (cd r))).
  split; [reflexivity | constructor; auto].
Qed.

Ltac emits_step :=
  match goal with
  | |- Emits _ (bind _ _) => apply Emits_bind; [| intro]
  | |- Emits _ (ret _) => apply Emits_ret
  | |- Emits _ (read _) => apply Emits_read
  | |- Emits _ (update _) => apply Emits_update
  | |- Emits _ (emit _) => apply Emits_emit; cbn; auto
  | |- Emits _ (glog _) => apply Emits_emit; cbn; auto
  | |- Emits _ time_Now => apply Emits_time_Now
  | |- Emits _ (onHandler _) => apply Emits_onHandler
  | |- Emits _ (onCollectors _) => apply Emits_onCollectors
  | |- Emits _ (memoryCache_AddStats _ _) => apply Emits_AddStats; cbn; auto
  | |- Emits _ (match ?x with _ => _ end) => destruct x
  | |- Emits _ _ =>
      progress unfold time_Since, memoryCache_RecentStats, allowErrorLogging, LoadAvg,
        TaskStats, updateTaskStats, updateCustomStats, addSummarySample,
        attachCustomStats, prepareStats, pushStats, updateStats, doWithTimeout,
        adjustHousekeepingInterval, logUsageStep, housekeepingReport, housekeepingCollect,
        housekeepingAdjust, housekeepingIteration, updateSpec, updateSubcontainers,
        GetInfo
  end.

Ltac emits := repeat emits_step.


Lemma onHandler_run {A} (op : HT -> A * HT) (r : Runtime) a h :
  op (handler (cd r)) = (a, h) -> onHandler op r = (a, with_handler h r).
Proof. intros Hop. unfold onHandler. rewrite Hop. reflexivity. Qed.

(** The start of [updateStats] when [GetStats] fails on a container that
    exists: what is left to do, with the annotated error. *)
Lemma updateStats_partial (r : Runtime) stats e h1 h2 :
  handler_GetStats (handler (cd r)) = ((Some stats, Some e), h1) ->
  handler_Exists h1 = (true, h2) ->
  updateStats r
  = bind (prepareStats stats)
         (fun p => pushStats (fst p) (Some (continuing e)) (snd p))
         (with_handler h2 r).
Proof.
  intros Hs He. unfold updateStats.
  erewrite bind_run by (apply onHandler_run; exact Hs).
  cbv beta iota. rewrite bind_assoc.
  erewrite bind_run by (apply onHandler_run; exact He).
  cbv beta iota delta [bind ret negb option_map].
  change (with_handler h2 (with_handler h1 r)) with (with_handler h2 r).
  destruct (prepareStats stats (with_handler h2 r)) as [[st' cerr] r3]. reflexivity.
Qed.

Lemma updateStats_complete (r : Runtime) stats h1 :
  handler_GetStats (handler (cd r)) = ((Some stats, None), h1) ->
  updateStats r
  = bind (prepareStats stats) (fun p => pushStats (fst p) None (snd p))
         (with_handler h1 r).
Proof.
  intros Hs. unfold updateStats.
  erewrite bind_run by (apply onHandler_run; exact Hs).
  cbv beta iota delta [bind ret negb option_map].
  destruct (prepareStats stats (with_handler h1 r)) as [[st' cerr] r3]. reflexivity.
Qed.

(** *** A container that is gone *)

Lemma updateStats_gone (r : Runtime) stats e h1 h2 :
  handler_GetStats (handler (cd r)) = ((stats, Some e), h1) ->
  handler_Exists h1 = (false, h2) ->
  updateStats r = (None, with_handler h2 r).
Proof.
  intros Hs He. unfold updateStats, bind, onHandler. rewrite Hs. cbn.
  rewrite He. reflexivity.
Qed.

(** C2. When [GetStats] fails and the handler then reports that the
    container does not exist, [updateStats] returns [nil]; only the
    handler has moved: the cache, the log and the time of the last
    logged error are as before. Run under [doWithTimeout], the update
    logs nothing, and the turn of the loop goes on to its end, in which no
    sample is pushed and no failed update is logged. *)
Theorem C2_dead_container_tolerance (r : Runtime) stats e h1 h2 timeout :
  handler_GetStats (handler (cd r)) = ((stats, Some e), h1) ->
  handler_Exists h1 = (false, h2) ->
  let r' := with_handler h2 r in
  updateStats r = (None, r') /\
  doWithTimeout updateStats timeout r = (tt, r') /\
  memoryCache (cd r') = memoryCache (cd r) /\
  events r' = events r /\
  lastErrorTime (cd r') = lastErrorTime (cd r) /\
  exists logs,
    events (snd (housekeepingIteration flags r)) = logs ++ events r /\
    Forall quiet_log logs.
Proof.
  intros Hs He r'.
  pose proof (updateStats_gone r Hs He) as Hu. fold r' in Hu.
  assert (Hd : forall t, doWithTimeout updateStats t r = (tt, r')).
  { intros t. unfold doWithTimeout, bind. rewrite Hu. reflexivity. }
  repeat split; auto.
  destruct (time_Now r) as [start r1] eqn:Hnow.
  assert (Hr1 : events r1 = events r /\
                handler_GetStats (handler (cd r1)) = ((stats, Some e), h1)).
  { unfold time_Now in Hnow. destruct (clock_Now (clock r)).
    inversion Hnow. split; [reflexivity | exact Hs]. }
  destruct Hr1 as [Hev1 Hs1].
  assert (Hd1 : doWithTimeout updateStats (PanicTimeout flags) r1
                = (tt, with_handler h2 r1)).
  { unfold doWithTimeout, bind. rewrite (updateStats_gone r1 Hs1 He). reflexivity. }
  unfold housekeepingIteration, housekeepingCollect.
  rewrite bind_assoc. erewrite bind_run by exact Hnow.
  rewrite bind_assoc. erewrite bind_run by exact Hd1.
  assert (Hrest : Emits quiet_log
                    (bind (housekeepingReport flags start)
                          (fun _ => housekeepingAdjust flags))) by emits.
  destruct (Hrest (with_handler h2 r1)) as [logs [E F]].
  exists logs. rewrite E. cbn. rewrite Hev1. split; [reflexivity | exact F].
Qed.

(** *** Partial stats *)


Lemma attachLoad_same_readings load stats : same_readings (attachLoad load stats) stats.
Proof.
  unfold attachLoad, same_readings. destruct (0 <=? load)%float; cbn; repeat split.
Qed.

Lemma attachCustomStats_result (st : info.ContainerStats) (r : Runtime) :
  exists mcs,
    fst (fst (attachCustomStats st r))
    = match mcs with
      | Some cs => info.set_StatsCustomMetrics (Some cs) st
      | None => st
      end.
Proof.
  unfold attachCustomStats, bind, read.
  destruct (0 <? cm_Collectors_len (collectorManager (cd r))); [|exists None; reflexivity].
  destruct (time_Now r) as [now r2].
  destruct (Go.Time_Before _ now); [|exists None; reflexivity].
  destruct (updateCustomStats r2) as [[cs err] r3]. exists cs.
  destruct cs; reflexivity.
Qed.

Lemma prepareStats_unfold (stats : info.ContainerStats) (r : Runtime) :
  prepareStats stats r
  = let st1 := info.set_TaskStats (taskStats (cd r))
                 (attachLoad (loadAvg (cd r)) stats) in
    attachCustomStats st1 (snd (addSummarySample st1 r)).
Proof.
  unfold prepareStats, LoadAvg, TaskStats, bind, read. cbv beta iota zeta.
  match goal with |- context [addSummarySample ?st r] =>
    destruct (addSummarySample st r) end.
  reflexivity.
Qed.

(** [prepareStats] writes the load average, the task stats and the custom
    metrics, and nothing else. *)
Lemma prepareStats_result (stats : info.ContainerStats) (r : Runtime) :
  let stats' := fst (fst (prepareStats stats r)) in
  same_readings stats' stats /\
  info.LoadAverage (info.Cpu stats')
  = info.LoadAverage (info.Cpu (attachLoad (loadAvg (cd r)) stats)) /\
  info.TaskStats stats' = taskStats (cd r).
Proof.
  rewrite prepareStats_unfold. cbv zeta.
  set (st1 := info.set_TaskStats (taskStats (cd r)) (attachLoad (loadAvg (cd r)) stats)).
  destruct (attachCustomStats_result st1 (snd (addSummarySample st1 r))) as [mcs Hm].
  rewrite Hm.
  destruct (attachLoad_same_readings (loadAvg (cd r)) stats) as (?&?&?&?&?&?).
  destruct mcs; unfold st1, same_readings; cbn; repeat split; assumption.
Qed.

Lemma pushStats_pushes (stats : info.ContainerStats) statsErr customStatsErr
    (r : Runtime) ref h :
  handler_ContainerReference (handler (cd r)) = ((ref, None), h) ->
  pushStats stats statsErr customStatsErr r
  = let (addErr, cache') := cache_AddStats ref stats (memoryCache (cd r)) in
    (match addErr with
     | Some e => Some e
     | None => match statsErr with Some e => Some e | None => customStatsErr end
     end,
     {| cd := set_memoryCache cache' (set_handler h (cd r));
        clock := clock r;
        events := CacheAddStats ref stats :: events r |}).
Proof.
  intros Href. unfold pushStats, bind, onHandler. rewrite Href.
  unfold memoryCache_AddStats, with_handler. cbn.
  destruct (cache_AddStats ref stats (memoryCache (cd r))) as [[e|] m]; cbn;
    [reflexivity|].
  destruct statsErr; reflexivity.
Qed.


(** When the handler cannot give the reference, nothing is pushed: the
    reference's error is returned, or [nil] if the container is gone by
    then. *)
Lemma updateStats_partial_unreferenced (r : Runtime) stats e h1 h2 stats' cerr
    (r3 : Runtime) ref e' h4 ex h5 :
  handler_GetStats (handler (cd r)) = ((Some stats, Some e), h1) ->
  handler_Exists h1 = (true, h2) ->
  prepareStats stats (with_handler h2 r) = ((stats', cerr), r3) ->
  handler_ContainerReference (handler (cd r3)) = ((ref, Some e'), h4) ->
  handler_Exists h4 = (ex, h5) ->
  updateStats r = (if ex then Some e' else None, with_handler h5 r3).
Proof.
  intros Hs He Hp Href Hex.
  rewrite (updateStats_partial r Hs He). unfold bind at 1. rewrite Hp. cbn [fst snd].
  unfold pushStats.
  erewrite bind_run by (apply onHandler_run; exact Href).
  cbv beta iota.
  erewrite bind_run by (apply onHandler_run; exact Hex).
  destruct ex; reflexivity.
Qed.

(** *** The load average written into a sample *)

Lemma prepareStats_emits_logs stats : Emits (fun e => is_Glog e = true) (prepareStats stats).
Proof. emits. Qed.

Lemma prepareStats_keeps_loadAvg stats : Keeps loadAvg (prepareStats stats).
Proof. keeps. Qed.

Lemma pushStats_emits stats statsErr customStatsErr :
  Emits (fun e => match e with
                  | CacheAddStats _ st => st = stats
                  | Glog _ => True
                  end)
        (pushStats stats statsErr customStatsErr).
Proof. emits. Qed.

(** C6, as amended. Of a sample that the handler returns, whatever
    [updateStats] pushes has its [LoadAverage] set to [int32(load * 1000)]
    when the smoothed load is at least 0: the product in [float64], its
    fraction discarded; when the load is negative (or not a number), the
    field is the one the handler gave. *)
Theorem C6_milli_load_truncated (r : Runtime) stats statsErr h1 :
  handler_GetStats (handler (cd r)) = ((Some stats, statsErr), h1) ->
  exists new,
    events (snd (updateStats r)) = new ++ events r /\
    forall ref pushed,
      In (CacheAddStats ref pushed) new ->
      info.LoadAverage (info.Cpu pushed)
      = if (0 <=? loadAvg (cd r))%float
        then Go.int32_of_float64 (loadAvg (cd r) * 1000)%float
        else info.LoadAverage (info.Cpu stats).
Proof.
  intros Hs.
  assert (Hpush : forall (r2 : Runtime) serr,
            loadAvg (cd r2) = loadAvg (cd r) -> events r2 = events r ->
            exists new,
              events (snd (bind (prepareStats stats)
                                (fun p => pushStats (fst p) serr (snd p)) r2))
              = new ++ events r /\
              forall ref pushed,
                In (CacheAddStats ref pushed) new ->
                info.LoadAverage (info.Cpu pushed)
                = info.LoadAverage (info.Cpu (attachLoad (loadAvg (cd r)) stats))).
  { intros r2 serr Hl Hev. unfold bind.
    pose proof (prepareStats_result stats r2) as (_ & Hload & _).
    destruct (prepareStats_emits_logs stats r2) as [n1 [E1 F1]].
    destruct (prepareStats stats r2) as [[st' cerr] r3]. cbn [fst snd] in *.
    destruct (pushStats_emits st' serr cerr r3) as [n2 [E2 F2]].
    exists (n2 ++ n1). rewrite E2, E1, Hev, app_assoc. split; [reflexivity|].
    intros ref pushed Hin. apply in_app_or in Hin. destruct Hin as [Hin|Hin].
    - rewrite Forall_forall in F2. specialize (F2 _ Hin). cbn in F2. subst pushed.
      rewrite Hload, Hl. reflexivity.
    - rewrite Forall_forall in F1. specialize (F1 _ Hin). discriminate. }
  assert (Hattach : info.LoadAverage (info.Cpu (attachLoad (loadAvg (cd r)) stats))
                    = if (0 <=? loadAvg (cd r))%float
                      then Go.int32_of_float64 (loadAvg (cd r) * 1000)%float
                      else info.LoadAverage (info.Cpu stats)).
  { unfold attachLoad. destruct (0 <=? loadAvg (cd r))%float; reflexivity. }
  rewrite <- Hattach.
  destruct statsErr as [e|].
  - destruct (handler_Exists h1) as [[|] h2] eqn:He.
    + rewrite (updateStats_partial r Hs He). apply Hpush; reflexivity.
    + rewrite (updateStats_gone r Hs He).
      exists []. split; [reflexivity | intros ? ? []].
  - rewrite (updateStats_complete r Hs). apply Hpush; reflexivity.
Qed.

(** *** The adaptive interval *)

Lemma adjust_on_pair (r : Runtime) a b :
  allowDynamicHousekeeping (cd r) = true ->
  latest_two r = Some (a, b) ->
  adjustHousekeepingInterval flags r
  = (None,
     {| cd := set_housekeepingInterval
                (if StatsEq a b
                 then DurationMin (Go.wrap_int64 (housekeepingInterval (cd r) * 2))
                                  (maxHousekeepingInterval (cd r))
                 else HousekeepingInterval flags) (cd r);
        clock := clock r; events := events r |}).
Proof.
  intros Hdyn Hl. unfold latest_two in Hl.
  unfold adjustHousekeepingInterval, memoryCache_RecentStats, bind, read, update, ret.
  cbv beta iota. rewrite Hdyn. cbv beta iota delta [negb].
  destruct (cache_RecentStats _ _ _ _ _) as [[|s0 [|s1 rest]] [e|]]; try discriminate.
  inversion Hl; subst. destruct (StatsEq a b); reflexivity.
Qed.

Lemma housekeepingAdjust_on_pair (r : Runtime) a b :
  allowDynamicHousekeeping (cd r) = true ->
  latest_two r = Some (a, b) ->
  housekeepingInterval (cd (snd (housekeepingAdjust flags r)))
  = if StatsEq a b
    then DurationMin (Go.wrap_int64 (housekeepingInterval (cd r) * 2))
                     (maxHousekeepingInterval (cd r))
    else HousekeepingInterval flags.
Proof.
  intros Hdyn Hl. unfold housekeepingAdjust, bind.
  rewrite (adjust_on_pair r Hdyn Hl). reflexivity.
Qed.

Lemma collect_keeps_interval : Keeps housekeepingInterval (housekeepingCollect flags).
Proof. keeps. Qed.

Lemma collect_keeps_ceiling : Keeps maxHousekeepingInterval (housekeepingCollect flags).
Proof. keeps. Qed.

Lemma collect_keeps_dynamic : Keeps allowDynamicHousekeeping (housekeepingCollect flags).
Proof. keeps. Qed.

Lemma iteration_keeps_ceiling : Keeps maxHousekeepingInterval (housekeepingIteration flags).
Proof. keeps. Qed.

Lemma iteration_keeps_dynamic : Keeps allowDynamicHousekeeping (housekeepingIteration flags).
Proof. keeps. Qed.

Lemma iterations_keep (n : nat) (r : Runtime) :
  maxHousekeepingInterval (cd (housekeepingIterations flags n r))
  = maxHousekeepingInterval (cd r) /\
  allowDynamicHousekeeping (cd (housekeepingIterations flags n r))
  = allowDynamicHousekeeping (cd r).
Proof.
  induction n as [|n [IH1 IH2]]; [split; reflexivity|]. cbn [housekeepingIterations].
  rewrite iteration_keeps_ceiling, iteration_keeps_dynamic. split; assumption.
Qed.

Lemma samples_equalb_true (r : Runtime) : samples_equalb r = true -> samples_equal r.
Proof.
  unfold samples_equalb, samples_equal.
  destruct (latest_two r) as [[a b]|]; [|discriminate].
  intros Heq. exists a, b. split; [reflexivity | exact Heq].
Qed.

(** One turn on equal samples doubles the interval, up to the ceiling. *)
Lemma iteration_on_equal (r : Runtime) :
  allowDynamicHousekeeping (cd r) = true ->
  samples_equal (snd (housekeepingCollect flags r)) ->
  housekeepingInterval (cd (snd (housekeepingIteration flags r)))
  = DurationMin (Go.wrap_int64 (housekeepingInterval (cd r) * 2))
                (maxHousekeepingInterval (cd r)).
Proof.
  intros Hdyn (a & b & Hl & Heq).
  unfold housekeepingIteration, bind.
  pose proof (collect_keeps_interval r) as Hi.
  pose proof (collect_keeps_ceiling r) as Hc.
  pose proof (collect_keeps_dynamic r) as Hd.
  destruct (housekeepingCollect flags r) as [[] r1]. cbn [snd] in *.
  rewrite (@housekeepingAdjust_on_pair r1 a b) by congruence.
  rewrite Heq, Hi, Hc. reflexivity.
Qed.

(** One turn on differing samples sets the interval to the baseline. *)
Lemma iteration_on_differing (r : Runtime) :
  allowDynamicHousekeeping (cd r) = true ->
  samples_differ (snd (housekeepingCollect flags r)) ->
  housekeepingInterval (cd (snd (housekeepingIteration flags r)))
  = HousekeepingInterval flags.
Proof.
  intros Hdyn (a & b & Hl & Hne).
  unfold housekeepingIteration, bind.
  pose proof (collect_keeps_dynamic r) as Hd.
  destruct (housekeepingCollect flags r) as [[] r1]. cbn [snd] in *.
  rewrite (@housekeepingAdjust_on_pair r1 a b) by congruence.
  rewrite Hne. reflexivity.
Qed.

Lemma DurationMin_min d1 d2 : DurationMin d1 d2 = Z.min d1 d2.
Proof. unfold DurationMin. destruct (Z.ltb_spec d1 d2); lia. Qed.

Lemma doubled_interval (x c : Z) :
  0 <= x < 2 ^ 62 -> DurationMin (Go.wrap_int64 (x * 2)) c = Z.min (2 * x) c.
Proof.
  intros Hx. rewrite wrap_int64_small, DurationMin_min.
  - f_equal. lia.
  - unfold Go.is_int64, Go.MinInt64, Go.MaxInt64. lia.
Qed.

(** C1. With dynamic housekeeping enabled, a baseline and a ceiling that
    are not negative and below 2^62 nanoseconds (so that doubling an
    [int64] duration does not wrap), a tracker whose interval is the
    baseline and that makes [n] turns of the loop in each of which the two
    latest samples of the cache are equal has the interval
    [min (baseline * 2^n) ceiling] (for [n = 0], when the baseline does not
    exceed the ceiling). From any interval, one turn on equal samples gives
    [min (2 * previous) ceiling], and one turn on differing samples gives
    exactly the baseline. *)
Theorem C1_adaptive_interval (r : Runtime) (n : nat) :
  allowDynamicHousekeeping (cd r) = true ->
  housekeepingInterval (cd r) = HousekeepingInterval flags ->
  0 <= HousekeepingInterval flags < 2 ^ 62 ->
  0 <= maxHousekeepingInterval (cd r) < 2 ^ 62 ->
  (n = O -> HousekeepingInterval flags <= maxHousekeepingInterval (cd r)) ->
  (forall k, (k < n)%nat ->
     samples_equal (snd (housekeepingCollect flags (housekeepingIterations flags k r)))) ->
  housekeepingInterval (cd (housekeepingIterations flags n r))
  = Z.min (HousekeepingInterval flags * 2 ^ Z.of_nat n) (maxHousekeepingInterval (cd r))
  /\ (forall r2 : Runtime,
        allowDynamicHousekeeping (cd r2) = true ->
        0 <= housekeepingInterval (cd r2) < 2 ^ 62 ->
        samples_equal (snd (housekeepingCollect flags r2)) ->
        housekeepingInterval (cd (snd (housekeepingIteration flags r2)))
        = Z.min (2 * housekeepingInterval (cd r2)) (maxHousekeepingInterval (cd r2)))
  /\ (forall r2 : Runtime,
        allowDynamicHousekeeping (cd r2) = true ->
        samples_differ (snd (housekeepingCollect flags r2)) ->
        housekeepingInterval (cd (snd (housekeepingIteration flags r2)))
        = HousekeepingInterval flags).
Proof.
  intros Hdyn Hstart Hb Hc H0 Hquiet.
  set (b := HousekeepingInterval flags) in *.
  set (c := maxHousekeepingInterval (cd r)) in *.
  assert (Hstep : forall r2 : Runtime,
            allowDynamicHousekeeping (cd r2) = true ->
            0 <= housekeepingInterval (cd r2) < 2 ^ 62 ->
            samples_equal (snd (housekeepingCollect flags r2)) ->
            housekeepingInterval (cd (snd (housekeepingIteration flags r2)))
            = Z.min (2 * housekeepingInterval (cd r2)) (maxHousekeepingInterval (cd r2))).
  { intros r2 Hd2 Hx2 He2. rewrite (iteration_on_equal r2 Hd2 He2).
    apply doubled_interval. exact Hx2. }
  split; [|split; [exact Hstep | intros r2; apply iteration_on_differing]].
  assert (Hrun : forall m, (m <= n)%nat ->
            housekeepingInterval (cd (housekeepingIterations flags m r))
            = match m with
              | O => b
              | S _ => Z.min (b * 2 ^ Z.of_nat m) c
              end).
  { induction m as [|m IH]; intros Hm; [exact Hstart|].
    cbn [housekeepingIterations].
    destruct (iterations_keep m r) as [Hkc Hkd].
    assert (Hprev : 0 <= housekeepingInterval (cd (housekeepingIterations flags m r))
                    < 2 ^ 62).
    { rewrite IH by lia. destruct m; [exact Hb|].
      assert (0 <= b * 2 ^ Z.of_nat (S m)) by (apply Z.mul_nonneg_nonneg; lia).
      lia. }
    rewrite Hstep; [| congruence | exact Hprev | apply Hquiet; lia].
    rewrite Hkc. fold c. rewrite IH by lia.
    replace (Z.of_nat (S m)) with (Z.succ (Z.of_nat m)) by lia.
    rewrite Z.pow_succ_r by lia.
    destruct m as [|m'].
    - change (2 ^ Z.of_nat 0) with 1. f_equal. lia.
    - assert (0 <= b * 2 ^ Z.of_nat (S m')) by (apply Z.mul_nonneg_nonneg; lia).
      lia. }
  rewrite Hrun by lia. destruct n; [|reflexivity].
  change (2 ^ Z.of_nat 0) with 1. specialize (H0 eq_refl). lia.
Qed.

(** *** The info handed to callers *)

Lemma GetInfo_pointer (r : Runtime) p e :
  fst (GetInfo r) = (Some p, e) -> p = addr_c_info.
Proof.
  unfold GetInfo.
  repeat match goal with
         | |- context [bind ?m ?k ?r0] =>
             let a := fresh "a" in
             let r1 := fresh "r" in
             destruct (bind_result m k r0) as (a & r1 & _ & ->)
         end.
  match goal with |- context [match ?err with Some _ => _ | None => _ end] =>
    destruct err end; cbn; intros Hp; inversion Hp; reflexivity.
Qed.

(** C7. The pointer that [GetInfo] returns is the address of the
    tracker's own [info] field, not of a copy: a caller that writes a
    value through it has written that value into the tracker. *)
Theorem C7_GetInfo_returns_the_field (m m1 : Memory HT CT MT ST LT KT)
    (p : containerInfoPtr) (v : containerInfo) :
  call_GetInfo_in m = ((Some p, None), m1) ->
  p = addr_c_info /\
  info (cd (tracker (store_info p v m1))) = v.
Proof.
  unfold call_GetInfo_in. intros Hcall.
  pose proof (@GetInfo_pointer (tracker m) p None) as Hp.
  destruct (GetInfo (tracker m)) as [res r1]. inversion Hcall; subst.
  specialize (Hp eq_refl). subst p. split; reflexivity.
Qed.

(** Had [GetInfo] copied the info as the spec words it, a write through the
    returned pointer would leave the tracker as it is. *)
Lemma spec_GetInfo_returns_a_copy (m m1 : Memory HT CT MT ST LT KT)
    (p : containerInfoPtr) (v : containerInfo) :
  spec_GetInfo_in m = ((Some p, None), m1) ->
  tracker (store_info p v m1) = tracker m1 /\
  load_info p m1 = Some (info (cd (tracker m1))).
Proof.
  unfold spec_GetInfo_in. intros Hcall.
  destruct (GetInfo (tracker m)) as [[[q|] [e|]] r1]; inversion Hcall; subst.
  split; [reflexivity|]. cbn. rewrite nth_error_app2 by lia.
  rewrite Nat.sub_diag. reflexivity.
Qed.

(** *** The process list *)

Lemma getCgroupPath_no_error (c : containerData) (cgroups : string) :
  snd (getCgroupPath c cgroups) = None.
Proof.
  unfold getCgroupPath. destruct (String.eqb cgroups "-"); [reflexivity|].
  destruct (negb _); reflexivity.
Qed.

Lemma GetProcessList_lines_spec (c : containerData) cadvisorContainer inHostNamespace
    (lines : list string) (processes : list v2.ProcessInfo) :
  Forall well_formed_line
         (filter (fun line => negb (String.length line =? 0)%nat) lines) ->
  GetProcessList_lines c cadvisorContainer inHostNamespace lines processes
  = (Some (processes ++
           map (entry_of_row c)
               (filter (row_selected c cadvisorContainer inHostNamespace)
                       (map (parse_row c)
                            (filter (fun line => negb (String.length line =? 0)%nat)
                                    lines)))),
     None).
Proof.
  revert processes. induction lines as [|line rest IH]; intros processes Hwf.
  - cbn. rewrite app_nil_r. reflexivity.
  - cbn [GetProcessList_lines filter] in *.
    destruct (String.length line =? 0)%nat eqn:Hlen; cbn [negb] in *.
    + apply IH. exact Hwf.
    + inversion Hwf as [|? ? Hline Hrest]; subst.
      destruct Hline as (H12 & Hpid & Hppid & Hcpu & Hmem & Hrss & Hvsz).
      assert (Hlt : (List.length (strings_Fields line) <? expectedFields)%nat = false)
        by (apply Nat.ltb_ge; exact H12).
      rewrite Hlt. cbv zeta.
      cbn [map filter].
      set (tail := filter (row_selected c cadvisorContainer inHostNamespace)
                     (map (parse_row c)
                        (filter (fun l => negb (String.length l =? 0)%nat) rest))).
      set (entry := entry_of_row c).
      assert (IH' : forall ps,
                GetProcessList_lines c cadvisorContainer inHostNamespace rest ps
                = (Some (ps ++ map entry tail), None))
        by (intros ps; apply IH; exact Hrest).
      assert (Hentry : forall row, entry row = entry_of_row c row) by reflexivity.
      clearbody tail entry. clear IH.
      unfold row_selected, own_ps_row, parse_row, is_root.
      cbn [row_fields row_pid row_ppid row_pcpu row_pmem row_rss row_vsz row_cgroup].
      pose proof (getCgroupPath_no_error c (field (strings_Fields line) 11)) as Hcg.
      destruct (strconv_Atoi (field (strings_Fields line) 1)) as [pid e1].
      destruct (strconv_Atoi (field (strings_Fields line) 2)) as [ppid e2].
      destruct (strconv_ParseFloat32 (field (strings_Fields line) 4)) as [pcpu e3].
      destruct (strconv_ParseFloat32 (field (strings_Fields line) 5)) as [pmem e4].
      destruct (strconv_ParseUint (field (strings_Fields line) 6)) as [rss e5].
      destruct (strconv_ParseUint (field (strings_Fields line) 7)) as [vsz e6].
      destruct (getCgroupPath c (field (strings_Fields line) 11)) as [cgroup e7].
      cbn [fst snd] in *. subst e1 e2 e3 e4 e5 e6 e7.
      rewrite !IH'.
      destruct (String.eqb (Name_of c) "/") eqn:Hroot;
        destruct inHostNamespace, (String.eqb cadvisorContainer cgroup),
          (String.eqb (field (strings_Fields line) 10) "ps"),
          (String.eqb (Name_of c) cgroup);
        cbn [negb andb orb map filter];
        rewrite ?Hentry; unfold entry_of_row, is_root; rewrite ?Hroot;
        try rewrite <- app_assoc; reflexivity.
Qed.

(** Below 2^54 KiB the conversion to bytes is exact. *)
Lemma KiB_to_bytes_exact (kib : Z) :
  0 <= kib < 2 ^ 54 -> Go.wrap_uint64 (kib * 1024) = kib * 1024.
Proof.
  intros Hk. apply wrap_uint64_small. unfold Go.is_uint64.
  change (2 ^ 64) with (2 ^ 54 * 1024). lia.
Qed.


(** *** Frames of the two loops *)

Ltac keeps_all :=
  repeat (first [ keeps_step
                | progress unfold loadReaderIteration, doLoadReaderIteration, updateLoadAvg ]).

Ltac emits_all :=
  repeat (first [ emits_step
                | progress unfold loadReaderIteration, doLoadReaderIteration, updateLoadAvg ]).

(** A property of the tracker that every permitted call preserves holds
    after any sequence of them. *)
Lemma run_calls_invariant (I : Runtime -> Prop) (ok : Call -> bool) :
  (forall call r, ok call = true -> I r -> I (run_call flags call r)) ->
  forall calls r, forallb ok calls = true -> I r -> I (run_calls flags calls r).
Proof.
  intros Hstep. induction calls as [|call calls IH]; intros r Hok Hr.
  - exact Hr.
  - simpl in Hok. apply andb_prop in Hok. destruct Hok as [Hc Hcs].
    change (run_calls flags (call :: calls) r)
      with (run_calls flags calls (run_call flags call r)).
    apply IH; [exact Hcs | apply Hstep; assumption].
Qed.

Lemma forallb_always {A} (l : list A) : forallb (fun _ => true) l = true.
Proof. induction l; simpl; auto. Qed.

Lemma run_call_keeps_Reference (call : Call) (r : Runtime) :
  Reference (info (cd (run_call flags call r))) = Reference (info (cd r)).
Proof.
  destruct call; cbn [run_call].
  all: match goal with
       | |- _ (_ (cd (snd (?m ?r0)))) = _ =>
           revert r0; change (Keeps (fun c => Reference (info c)) m)
       end.
  all: keeps_all.
Qed.

(** X1. The reference of the container, and so its name, is fixed when the
    tracker is built: no call on the tracker writes it. *)
Theorem tracker_identity_is_fixed (calls : list Call) (r : Runtime) :
  Reference (info (cd (run_calls flags calls r))) = Reference (info (cd r)).
Proof.
  apply (@run_calls_invariant
           (fun r' => Reference (info (cd r')) = Reference (info (cd r)))
           (fun _ => true)).
  - intros call r' _ Hr'. rewrite run_call_keeps_Reference. exact Hr'.
  - apply forallb_always.
  - reflexivity.
Qed.


(** *** The housekeeping interval, whatever the samples *)

Lemma adjust_static (r : Runtime) :
  allowDynamicHousekeeping (cd r) = false ->
  adjustHousekeepingInterval flags r = (None, r).
Proof.
  intros Hdyn. unfold adjustHousekeepingInterval, bind, read. cbv beta iota.
  rewrite Hdyn. reflexivity.
Qed.

Lemma run_call_keeps_dynamic (call : Call) (r : Runtime) :
  allowDynamicHousekeeping (cd (run_call flags call r)) = allowDynamicHousekeeping (cd r).
Proof.
  destruct call; cbn [run_call].
  all: match goal with
       | |- _ (cd (snd (?m ?r0))) = _ => revert r0; change (Keeps allowDynamicHousekeeping m)
       end.
  all: keeps_all.
Qed.

Lemma run_call_keeps_ceiling (call : Call) (r : Runtime) :
  maxHousekeepingInterval (cd (run_call flags call r)) = maxHousekeepingInterval (cd r).
Proof.
  destruct call; cbn [run_call].
  all: match goal with
       | |- _ (cd (snd (?m ?r0))) = _ => revert r0; change (Keeps maxHousekeepingInterval m)
       end.
  all: keeps_all.
Qed.

Lemma housekeepingAdjust_interval (r : Runtime) :
  housekeepingInterval (cd (snd (housekeepingAdjust flags r)))
  = housekeepingInterval (cd (snd (adjustHousekeepingInterval flags r))).
Proof.
  unfold housekeepingAdjust.
  destruct (adjustHousekeepingInterval flags r) as [err r1] eqn:Ha.
  erewrite bind_run by exact Ha. cbn [snd]. clear Ha. revert r1.
  match goal with
  | |- forall r1, _ (cd (snd (?m r1))) = _ => change (Keeps housekeepingInterval m)
  end.
  keeps.
Qed.

(** What one call does to the interval: nothing, or what
    [adjustHousekeepingInterval] does on the tracker as the collection
    left it. *)
Lemma run_call_interval (call : Call) (r : Runtime) :
  housekeepingInterval (cd (run_call flags call r)) = housekeepingInterval (cd r) \/
  exists r1 : Runtime,
    housekeepingInterval (cd r1) = housekeepingInterval (cd r) /\
    maxHousekeepingInterval (cd r1) = maxHousekeepingInterval (cd r) /\
    allowDynamicHousekeeping (cd r1) = allowDynamicHousekeeping (cd r) /\
    housekeepingInterval (cd (run_call flags call r))
    = housekeepingInterval (cd (snd (adjustHousekeepingInterval flags r1))).
Proof.
  destruct call; cbn [run_call].
  1: { right. exists (snd (housekeepingCollect flags r)).
       rewrite collect_keeps_interval, collect_keeps_ceiling, collect_keeps_dynamic.
       repeat split. unfold housekeepingIteration, bind.
       destruct (housekeepingCollect flags r) as [[] r1]. cbn [snd].
       apply housekeepingAdjust_interval. }
  2: { right. exists r. repeat split. }
  all: left.
  all: match goal with
       | |- _ (cd (snd (?m ?r0))) = _ => revert r0; change (Keeps housekeepingInterval m)
       end.
  all: keeps_all.
Qed.

Lemma adjust_interval_cases (r : Runtime) :
  let i' := housekeepingInterval (cd (snd (adjustHousekeepingInterval flags r))) in
  i' = housekeepingInterval (cd r) \/
  (allowDynamicHousekeeping (cd r) = true /\
   (i' = DurationMin (Go.wrap_int64 (housekeepingInterval (cd r) * 2))
                     (maxHousekeepingInterval (cd r)) \/
    i' = HousekeepingInterval flags)).
Proof.
  unfold adjustHousekeepingInterval, memoryCache_RecentStats, bind, read, update, ret.
  cbv beta iota zeta.
  destruct (allowDynamicHousekeeping (cd r)); cbn [negb]; [|left; reflexivity].
  destruct (cache_RecentStats _ _ _ _ _) as [[|s0 [|s1 rest]] [e|]];
    try (left; reflexivity).
  destruct (StatsEq s0 s1); right; (split; [reflexivity|]); [left | right]; reflexivity.
Qed.

(** X3. With dynamic housekeeping disabled the interval of a tracker never
    changes, whatever calls it serves and whatever the samples are. *)
Theorem static_housekeeping_interval (calls : list Call) (r : Runtime) :
  allowDynamicHousekeeping (cd r) = false ->
  housekeepingInterval (cd (run_calls flags calls r)) = housekeepingInterval (cd r).
Proof.
  intros Hdyn.
  apply (@run_calls_invariant
           (fun r' => allowDynamicHousekeeping (cd r') = false /\
                      housekeepingInterval (cd r') = housekeepingInterval (cd r))
           (fun _ => true)); [| apply forallb_always | split; [exact Hdyn | reflexivity]].
  intros call r' _ [Hd Hi]. rewrite run_call_keeps_dynamic. split; [exact Hd|].
  destruct (run_call_interval call r') as [Hk | (r1 & H1 & _ & H3 & H4)]; [congruence|].
  rewrite H4, adjust_static by congruence. cbn [snd]. congruence.
Qed.

(** X4. When the baseline and the ceiling are durations of less than 2^62
    nanoseconds, the interval of a tracker stays between zero and the
    larger of the two, whatever calls the tracker serves and whatever the
    samples are: doubling never wraps around. *)
Theorem housekeeping_interval_in_range (calls : list Call) (r : Runtime) :
  0 <= HousekeepingInterval flags < 2 ^ 62 ->
  0 <= maxHousekeepingInterval (cd r) < 2 ^ 62 ->
  0 <= housekeepingInterval (cd r)
    <= Z.max (HousekeepingInterval flags) (maxHousekeepingInterval (cd r)) ->
  0 <= housekeepingInterval (cd (run_calls flags calls r))
    <= Z.max (HousekeepingInterval flags) (maxHousekeepingInterval (cd r)).
Proof.
  intros Hb Hc Hi.
  apply (@run_calls_invariant
           (fun r' => maxHousekeepingInterval (cd r') = maxHousekeepingInterval (cd r) /\
                      0 <= housekeepingInterval (cd r')
                        <= Z.max (HousekeepingInterval flags)
                                 (maxHousekeepingInterval (cd r)))
           (fun _ => true)); [| apply forallb_always | split; [reflexivity | exact Hi]].
  intros call r' _ [Hm Hr]. rewrite run_call_keeps_ceiling. split; [exact Hm|].
  destruct (run_call_interval call r') as [Hk | (r1 & H1 & H2 & _ & H4)].
  - rewrite Hk. exact Hr.
  - rewrite H4.
    destruct (adjust_interval_cases r1) as [Hk | [_ [Hk | Hk]]]; cbv zeta in Hk; rewrite Hk.
    + rewrite H1. exact Hr.
    + rewrite doubled_interval by (rewrite H1; lia). rewrite H1, H2, Hm. lia.
    + lia.
Qed.

(** *** Error lines are written at most once a minute *)

Section Muting.

Variable P : KT -> Prop.
Variable t0 : Go.Time.
Hypothesis clock_within_a_minute :
  forall k, P k -> P (snd (clock_Now k)) /\ Go.Time_Sub (fst (clock_Now k)) t0 <= Go.Minute.

Local Abbreviation Muted := (@Muted HT CT MT ST LT KT _ P t0).

Lemma Muted_silent {A} (m : Op A) :
  (forall r, lastErrorTime (cd (snd (m r))) = lastErrorTime (cd r) /\
             clock (snd (m r)) = clock r /\ events (snd (m r)) = events r) ->
  Muted m.
Proof.
  intros Hm r Ht Hp. destruct (Hm r) as (H1 & H2 & H3).
  rewrite H1, H2, H3. repeat split; auto. exists []. split; [reflexivity | constructor].
Qed.

Lemma Muted_ret {A} (a : A) : Muted (ret a).
Proof. apply Muted_silent. intros r. repeat split. Qed.

Lemma Muted_read {A} (f : containerData -> A) : Muted (read f).
Proof. apply Muted_silent. intros r. repeat split. Qed.

Lemma Muted_update (f : containerData -> containerData) :
  (forall c, lastErrorTime (f c) = lastErrorTime c) -> Muted (update f).
Proof. intros Hf. apply Muted_silent. intros r. cbn. repeat split. apply Hf. Qed.

Lemma Muted_onHandler {A} (op : HT -> A * HT) : Muted (onHandler op).
Proof.
  apply Muted_silent. intros r. unfold onHandler.
  destruct (op (handler (cd r))). repeat split.
Qed.

Lemma Muted_onCollectors {A} (op : MT -> A * MT) : Muted (onCollectors op).
Proof.
  apply Muted_silent. intros r. unfold onCollectors.
  destruct (op (collectorManager (cd r))). repeat split.
Qed.

Lemma Muted_emit (e : Event) : error_line e = false -> Muted (emit e).
Proof.
  intros He r Ht Hp. cbn. repeat split; auto.
  exists [e]. split; [reflexivity | constructor; auto].
Qed.

Lemma Muted_AddStats ref stats : Muted (memoryCache_AddStats ref stats).
Proof.
  intros r Ht Hp. unfold memoryCache_AddStats.
  destruct (cache_AddStats ref stats (memoryCache (cd r))). cbn. repeat split; auto.
  exists [CacheAddStats ref stats]. split; [reflexivity | constructor; auto].
Qed.

Lemma Muted_time_Now : Muted time_Now.
Proof.
  intros r Ht Hp. unfold time_Now.
  destruct (clock_within_a_minute Hp) as [Hp' _].
  destruct (clock_Now (clock r)). cbn in *. repeat split; auto.
  exists []. split; [reflexivity | constructor].
Qed.

Lemma Muted_bind {A B} (m : Op A) (k : A -> Op B) :
  Muted m -> (forall a, Muted (k a)) -> Muted (bind m k).
Proof.
  intros Hm Hk r Ht Hp. unfold bind.
  destruct (Hm r Ht Hp) as (Ht1 & Hp1 & n1 & E1 & F1).
  destruct (m r) as [a r1]. cbn [snd] in *.
  destruct (Hk a r1 Ht1 Hp1) as (Ht2 & Hp2 & n2 & E2 & F2).
  repeat split; auto.
  exists (n2 ++ n1). rewrite E2, E1, app_assoc. split; [reflexivity|].
  apply Forall_app. split; assumption.
Qed.

(** Within the minute, [allowErrorLogging] refuses. *)
Lemma Muted_refused {B} (k : bool -> Op B) :
  Muted (k false) -> Muted (bind allowErrorLogging k).
Proof.
  intros Hk r Ht Hp.
  assert (Hr : allowErrorLogging r
               = (false, {| cd := cd r; clock := snd (clock_Now (clock r));
                            events := events r |})).
  { unfold allowErrorLogging, time_Since, bind, read, time_Now, ret.
    destruct (clock_within_a_minute Hp) as [_ Hle].
    destruct (clock_Now (clock r)) as [now k1]. cbn [fst snd] in *.
    rewrite Ht.
    destruct (Z.gtb_spec (Go.Time_Sub now t0) Go.Minute); [lia | reflexivity]. }
  erewrite bind_run by exact Hr.
  destruct (clock_within_a_minute Hp) as [Hp' _].
  apply (Hk {| cd := cd r; clock := snd (clock_Now (clock r)); events := events r |});
    assumption.
Qed.

Ltac muted_step :=
  match goal with
  | |- Muted (bind allowErrorLogging _) => apply Muted_refused
  | |- Muted (bind _ _) => apply Muted_bind; [| intro]
  | |- Muted (ret _) => apply Muted_ret
  | |- Muted (read _) => apply Muted_read
  | |- Muted (update _) => apply Muted_update; intro; reflexivity
  | |- Muted (emit _) => apply Muted_emit; reflexivity
  | |- Muted (glog _) => apply Muted_emit; reflexivity
  | |- Muted time_Now => apply Muted_time_Now
  | |- Muted (onHandler _) => apply Muted_onHandler
  | |- Muted (onCollectors _) => apply Muted_onCollectors
  | |- Muted (memoryCache_AddStats _ _) => apply Muted_AddStats
  | |- Muted (match ?x with _ => _ end) => destruct x
  | |- Muted _ =>
      progress unfold time_Since, memoryCache_RecentStats, LoadAvg,
        TaskStats, updateTaskStats, updateCustomStats, addSummarySample,
        attachCustomStats, prepareStats, pushStats, updateStats, doWithTimeout,
        adjustHousekeepingInterval, logUsageStep, housekeepingReport, housekeepingCollect,
        housekeepingAdjust, housekeepingIteration, updateSpec, updateSubcontainers,
        GetInfo, loadReaderIteration, doLoadReaderIteration, updateLoadAvg
  end.

Lemma run_call_muted (call : Call) (r : Runtime) :
  lastErrorTime (cd r) = t0 -> P (clock r) ->
  lastErrorTime (cd (run_call flags call r)) = t0 /\ P (clock (run_call flags call r)) /\
  exists new, events (run_call flags call r) = new ++ events r /\
              Forall (fun e => error_line e = false) new.
Proof.
  revert r. destruct call; cbn [run_call].
  all: match goal with
       | |- forall r0, _ -> _ -> _ (cd (snd (?m r0))) = _ /\ _ => change (Muted m)
       end.
  all: repeat muted_step.
Qed.

End Muting.


(** *** What one update pushes *)

Lemma pushStats_events stats statsErr customStatsErr (r : Runtime) :
  events (snd (pushStats stats statsErr customStatsErr r)) = events r \/
  exists ref,
    events (snd (pushStats stats statsErr customStatsErr r))
    = CacheAddStats ref stats :: events r.
Proof.
  unfold pushStats, bind, onHandler, memoryCache_AddStats, with_handler, ret.
  destruct (handler_ContainerReference (handler (cd r))) as [[ref [e|]] h]; cbn.
  - left. destruct (handler_Exists h) as [[|] h']; reflexivity.
  - right. exists ref.
    destruct (cache_AddStats _ _ _) as [[?|] ?]; cbn; try destruct statsErr; reflexivity.
Qed.

Lemma updateStats_empty (r : Runtime) h1 :
  handler_GetStats (handler (cd r)) = ((None, None), h1) ->
  updateStats r = (None, with_handler h1 r).
Proof.
  intros Hs. unfold updateStats.
  erewrite bind_run by (apply onHandler_run; exact Hs). reflexivity.
Qed.

Lemma updateStats_failed (r : Runtime) e h1 h2 :
  handler_GetStats (handler (cd r)) = ((None, Some e), h1) ->
  handler_Exists h1 = (true, h2) ->
  updateStats r = (Some (continuing e), with_handler h2 r).
Proof.
  intros Hs He. unfold updateStats.
  erewrite bind_run by (apply onHandler_run; exact Hs).
  cbv beta iota. rewrite bind_assoc.
  erewrite bind_run by (apply onHandler_run; exact He).
  reflexivity.
Qed.

(** X6. One call of [updateStats] writes lines to the log and then hands at
    most one sample to the cache. That sample has the readings of the
    sample that [GetStats] returned, and the task stats that the tracker
    held when the call began. *)
Theorem updateStats_pushes_one_sample (r : Runtime) :
  exists logs pushed,
    events (snd (updateStats r)) = pushed ++ logs ++ events r /\
    Forall (fun e => is_Glog e = true) logs /\
    (pushed = [] \/
     exists ref stats raw,
       pushed = [CacheAddStats ref stats] /\
       fst (fst (handler_GetStats (handler (cd r)))) = Some raw /\
       same_readings stats raw /\
       info.TaskStats stats = taskStats (cd r)).
Proof.
  assert (Hpush : forall (r2 : Runtime) raw serr,
            taskStats (cd r2) = taskStats (cd r) -> events r2 = events r ->
            exists logs pushed,
              events (snd (bind (prepareStats raw)
                                (fun p => pushStats (fst p) serr (snd p)) r2))
              = pushed ++ logs ++ events r /\
              Forall (fun e => is_Glog e = true) logs /\
              (pushed = [] \/
               exists ref stats,
                 pushed = [CacheAddStats ref stats] /\
                 same_readings stats raw /\
                 info.TaskStats stats = taskStats (cd r))).
  { intros r2 raw serr Ht Hev. unfold bind.
    pose proof (prepareStats_result raw r2) as (Hsame & _ & Htask).
    destruct (prepareStats_emits_logs raw r2) as [logs [E1 F1]].
    destruct (prepareStats raw r2) as [[st' cerr] r3]. cbn [fst snd] in *.
    exists logs.
    destruct (pushStats_events st' serr cerr r3) as [E2 | [ref E2]].
    - exists []. rewrite E2, E1, Hev. repeat split; auto.
    - exists [CacheAddStats ref st']. rewrite E2, E1, Hev.
      repeat split; auto. right. exists ref, st'. repeat split; try apply Hsame.
      congruence. }
  destruct (handler_GetStats (handler (cd r))) as [[[raw|] [e|]] h1] eqn:Hs; cbn [fst].
  - destruct (handler_Exists h1) as [[|] h2] eqn:He.
    + rewrite (updateStats_partial r Hs He).
      destruct (Hpush (with_handler h2 r) raw (Some (continuing e)) eq_refl eq_refl)
        as (logs & pushed & E & F & Hp).
      exists logs, pushed. repeat split; auto.
      destruct Hp as [Hp | (ref & stats & H1 & H2 & H3)]; [left; exact Hp|].
      right. exists ref, stats, raw. repeat split; auto; apply H2.
    + rewrite (updateStats_gone r Hs He).
      exists [], []. repeat split; auto.
  - rewrite (updateStats_complete r Hs).
    destruct (Hpush (with_handler h1 r) raw None eq_refl eq_refl)
      as (logs & pushed & E & F & Hp).
    exists logs, pushed. repeat split; auto.
    destruct Hp as [Hp | (ref & stats & H1 & H2 & H3)]; [left; exact Hp|].
    right. exists ref, stats, raw. repeat split; auto; apply H2.
  - destruct (handler_Exists h1) as [[|] h2] eqn:He.
    + rewrite (updateStats_failed r Hs He). exists [], []. repeat split; auto.
    + rewrite (updateStats_gone r Hs He). exists [], []. repeat split; auto.
  - rewrite (updateStats_empty r Hs). exists [], []. repeat split; auto.
Qed.

(** X7. When [GetStats] fails without stats on a container that exists,
    [updateStats] returns the error, annotated, and does nothing else:
    no sample is pushed, no line is logged, and only the handler has
    moved. *)
Theorem updateStats_without_stats (r : Runtime) e h1 h2 :
  handler_GetStats (handler (cd r)) = ((None, Some e), h1) ->
  handler_Exists h1 = (true, h2) ->
  updateStats r
  = (Some (Go.fmt_Errorf "%v, continuing to push stats" [Go.VError e]),
     with_handler h2 r) /\
  events (snd (updateStats r)) = events r /\
  memoryCache (cd (snd (updateStats r))) = memoryCache (cd r).
Proof.
  intros Hs He. rewrite (updateStats_failed r Hs He). repeat split.
Qed.

(** *** The load reader's probe *)

(** X8. A probe that succeeds stores the reader's sample as the task stats and
    feeds it to the smoother at the time read after the probe. With
    dynamic housekeeping and a sample equal to the one held before, the
    probing interval is doubled, up to [MaxLoadReaderInterval];
    otherwise it is set to [LoadreaderInterval]. Nothing is logged. *)
Theorem load_reader_backs_off (r : Runtime) path h1 l sample l' :
  handler_GetCgroupPath "cpu" (handler (cd r)) = ((path, None), h1) ->
  loadReader (cd r) = Some l ->
  loadReader_GetCpuLoad (Name_of (cd r)) path l = ((sample, None), l') ->
  let r' := snd (doLoadReaderIteration flags r) in
  fst (doLoadReaderIteration flags r) = None /\
  taskStats (cd r') = sample /\
  loadreaderInterval (cd r')
  = (if allowDynamicHousekeeping (cd r) && info.LoadStats_eqb (taskStats (cd r)) sample
     then DurationMin (Go.wrap_int64 (loadreaderInterval (cd r) * 2))
                      (MaxLoadReaderInterval flags)
     else LoadreaderInterval flags) /\
  loadAvgLastProbeTime (cd r') = fst (clock_Now (clock r)) /\
  loadReader (cd r') = Some l' /\
  events r' = events r.
Proof.
  intros Hp Hl Hg r'. unfold r', doLoadReaderIteration.
  erewrite bind_run by (apply onHandler_run; exact Hp).
  unfold bind, read, update, ret, time_Now, TaskStats, updateTaskStats, updateLoadAvg,
    with_handler.
  cbn. rewrite Hl. cbn.
  change (Name_of (set_handler h1 (cd r))) with (Name_of (cd r)). rewrite Hg. cbn.
  destruct (clock_Now (clock r)) as [probeTime k1]. cbn.
  destruct (allowDynamicHousekeeping (cd r) && info.LoadStats_eqb (taskStats (cd r)) sample);
    cbn; destruct (loadAvg (cd r) <? 0)%float; cbn; repeat split.
Qed.


(** X10. A tracker that has no load reader never gets one, and its load average
    is never written: the load reader's loop does nothing on it, and no
    other call that the loops or the manager make feeds the smoother. *)
Theorem no_reader_no_load_average (calls : list Call) (r : Runtime) :
  loadReader (cd r) = None ->
  forallb external_call calls = true ->
  loadReader (cd (run_calls flags calls r)) = None /\
  loadAvg (cd (run_calls flags calls r)) = loadAvg (cd r).
Proof.
  intros Hl Hcalls.
  apply (@run_calls_invariant
           (fun r' => loadReader (cd r') = None /\ loadAvg (cd r') = loadAvg (cd r))
           external_call); [| exact Hcalls | split; [exact Hl | reflexivity]].
  intros call r' Hc [Hl' Ha'].
  destruct call; try discriminate Hc; cbn [run_call].
  10: { unfold loadReaderIteration, bind, read. cbn. rewrite Hl'. cbn. split; assumption. }
  all: split; [rewrite <- Hl' | rewrite <- Ha'].
  all: match goal with
       | |- ?g (cd (snd (?m ?r0))) = _ => revert r0 Hl' Ha'; intros r0 _ _; revert r0;
                                          change (Keeps g m)
       end.
  all: keeps_all.
Qed.

(** *** The info, refreshed every five seconds *)

(** X11. Within five seconds of the last refresh, [GetInfo] answers from the
    tracker's fields: the handler and the collectors are not asked, and
    only the clock has moved. *)
Theorem GetInfo_serves_from_memory (r : Runtime) :
  Go.Time_Sub (fst (clock_Now (clock r))) (lastUpdatedTime (cd r)) <= 5 * Go.Second ->
  GetInfo r = ((Some addr_c_info, None),
               {| cd := cd r; clock := snd (clock_Now (clock r)); events := events r |}).
Proof.
  intros Hle. unfold GetInfo, time_Since, bind, read, time_Now, ret.
  destruct (clock_Now (clock r)) as [now k1]. cbn [fst snd] in *.
  destruct (Z.gtb_spec (Go.Time_Sub now (lastUpdatedTime (cd r))) (5 * Go.Second));
    [lia | reflexivity].
Qed.

Lemma updateSpec_keeps_lastUpdatedTime : Keeps lastUpdatedTime updateSpec.
Proof. keeps. Qed.

Lemma updateSubcontainers_keeps_lastUpdatedTime : Keeps lastUpdatedTime updateSubcontainers.
Proof. keeps. Qed.

(** X12. A refresh that fails is not counted: when [GetInfo] returns an error,
    it returns no info, and the time of the last refresh is as before, so
    that the next call refreshes again. *)
Theorem failed_refresh_is_retried (r : Runtime) e :
  snd (fst (GetInfo r)) = Some e ->
  fst (fst (GetInfo r)) = None /\
  lastUpdatedTime (cd (snd (GetInfo r))) = lastUpdatedTime (cd r).
Proof.
  unfold GetInfo, time_Since, bind, read, time_Now, ret, update.
  destruct (clock_Now (clock r)) as [now k1].
  destruct (Go.Time_Sub now (lastUpdatedTime (cd r)) >? 5 * Go.Second);
    [|cbn; discriminate].
  match goal with |- context [updateSpec ?r1] =>
    pose proof (updateSpec_keeps_lastUpdatedTime r1) as H1;
    destruct (updateSpec r1) as [[e1|] r2]
  end; cbn [snd cd] in H1.
  - cbn. intros _. split; [reflexivity | exact H1].
  - pose proof (updateSubcontainers_keeps_lastUpdatedTime r2) as H2.
    destruct (updateSubcontainers r2) as [[e2|] r3]; cbn [snd] in H2.
    + cbn. intros _. split; [reflexivity | congruence].
    + destruct (clock_Now (clock r3)). cbn. discriminate.
Qed.

(** X13. Of a container that is gone, [GetInfo] returns without error the info
    it had: the failures of [GetSpec] and [ListContainers] are dropped
    because the handler says that the container does not exist, the info
    is left as it was, and the refresh is counted as done. *)
Theorem GetInfo_of_a_dead_container (r : Runtime) spec e1 h1 h2 subs e2 h3 h4 :
  5 * Go.Second < Go.Time_Sub (fst (clock_Now (clock r))) (lastUpdatedTime (cd r)) ->
  handler_GetSpec (handler (cd r)) = ((spec, Some e1), h1) ->
  handler_Exists h1 = (false, h2) ->
  handler_ListContainers ListSelf h2 = ((subs, Some e2), h3) ->
  handler_Exists h3 = (false, h4) ->
  fst (GetInfo r) = (Some addr_c_info, None) /\
  info (cd (snd (GetInfo r))) = info (cd r) /\
  handler (cd (snd (GetInfo r))) = h4 /\
  lastUpdatedTime (cd (snd (GetInfo r))) = fst (clock_Now (snd (clock_Now (clock r)))) /\
  events (snd (GetInfo r)) = events r.
Proof.
  intros Hlt Hs He1 Hl He2.
  unfold GetInfo, time_Since, updateSpec, updateSubcontainers,
    bind, read, time_Now, ret, onHandler, update, with_handler.
  destruct (clock_Now (clock r)) as [now k1]. cbn [fst snd] in *.
  destruct (Z.gtb_spec (Go.Time_Sub now (lastUpdatedTime (cd r))) (5 * Go.Second));
    [|lia].
  cbn. rewrite Hs. cbn. rewrite He1. cbn. rewrite Hl. cbn. rewrite He2. cbn.
  destruct (clock_Now k1) as [now2 k2]. cbn. repeat split.
Qed.

(** *** Construction *)

(** X14. [newContainerData] returns a tracker or an error, never both and never
    neither. The tracker it returns has the reference that the handler
    gave (the name passed to [newContainerData] is not used), no
    sub-container, the baseline as housekeeping interval, the flag's
    probing interval, and the ceiling and the options it was given; it
    has not logged an error nor refreshed its info yet; with the load
    reader disabled it has no reader. *)
Theorem newContainerData_initial_state
    containerName (mc : option CT) (h : option HT) lu (cm : MT) maxI dyn (k : KT) evs :
  match newContainerData flags containerName mc h lu cm maxI dyn k evs with
  | (Some r, None) =>
      exists h0, h = Some h0 /\
      Reference (info (cd r)) = fst (fst (handler_ContainerReference h0)) /\
      Subcontainers (info (cd r)) = [] /\
      housekeepingInterval (cd r) = HousekeepingInterval flags /\
      maxHousekeepingInterval (cd r) = maxI /\
      allowDynamicHousekeeping (cd r) = dyn /\
      loadreaderInterval (cd r) = LoadreaderInterval flags /\
      logUsage (cd r) = lu /\
      lastUpdatedTime (cd r) = Go.zeroTime /\
      lastErrorTime (cd r) = Go.zeroTime /\
      taskStats (cd r) = info.LoadStats_zero /\
      (enableLoadReader flags = false -> loadReader (cd r) = None)
  | (None, Some _) => True
  | _ => False
  end.
Proof.
  unfold newContainerData.
  destruct mc as [mc|]; [|exact I].
  destruct h as [h|]; [|exact I].
  destruct (handler_ContainerReference h) as [[ref err] h'] eqn:Href.
  destruct err; [exact I|].
  match goal with
  | |- match (match ?m ?r0 with _ => _ end) with _ => _ end =>
      assert (Hk : (Keeps (fun c => Reference (info c)) m /\
                    Keeps (fun c => Subcontainers (info c)) m /\
                    Keeps housekeepingInterval m /\
                    Keeps maxHousekeepingInterval m /\
                    Keeps allowDynamicHousekeeping m /\
                    Keeps loadreaderInterval m /\
                    Keeps logUsage m /\
                    Keeps lastUpdatedTime m /\
                    Keeps lastErrorTime m /\
                    Keeps taskStats m) /\
                   (enableLoadReader flags = false ->
                    loadReader (cd (snd (m r0))) = None));
      [ | destruct Hk as [(K1 & K2 & K3 & K4 & K5 & K6 & K7 & K8 & K9 & K10) K11];
          specialize (K1 r0); specialize (K2 r0); specialize (K3 r0);
          specialize (K4 r0); specialize (K5 r0); specialize (K6 r0);
          specialize (K7 r0); specialize (K8 r0); specialize (K9 r0);
          specialize (K10 r0);
          destruct (m r0) as [[e|] r1] ]
  end.
  - split.
    + repeat split; keeps.
    + intros Hflag. rewrite Hflag.
      match goal with
      | |- _ (cd (snd (?m ?r0))) = _ =>
          change (loadReader (cd (snd (m r0))) = loadReader (cd r0)); generalize r0;
          change (Keeps loadReader m)
      end.
      keeps.
  - exact I.
  - exists h. rewrite Href. cbn in *. repeat split; assumption.
Qed.

(** *** The usage line *)

Lemma wrap_uint64_add_l a b : Go.wrap_uint64 (Go.wrap_uint64 a + b) = Go.wrap_uint64 (a + b).
Proof. unfold Go.wrap_uint64. apply Zplus_mod_idemp_l. Qed.

Lemma wrap_uint64_add_r a b : Go.wrap_uint64 (a + Go.wrap_uint64 b) = Go.wrap_uint64 (a + b).
Proof. unfold Go.wrap_uint64. apply Zplus_mod_idemp_r. Qed.

Lemma last_cons {A} (x : A) (l : list A) (d : A) : last (x :: l) d = last l x.
Proof.
  revert x d. induction l as [|y l IH]; intros x d; [reflexivity|].
  change (last (x :: y :: l) d) with (last (y :: l) d). rewrite !IH. reflexivity.
Qed.

Lemma usageCpuNs_from_telescopes rest prev acc :
  Go.wrap_uint64 (usageCpuNs_from prev rest acc)
  = Go.wrap_uint64 (acc + (Total_of (last rest prev) - Total_of prev)).
Proof.
  revert prev acc. induction rest as [|st rest IH]; intros prev acc.
  - cbn. f_equal. lia.
  - cbn [usageCpuNs_from]. rewrite IH, last_cons.
    rewrite wrap_uint64_add_l.
    match goal with
    | |- Go.wrap_uint64 (acc + Go.wrap_uint64 ?x + ?y) = _ =>
        replace (acc + Go.wrap_uint64 x + y) with (acc + y + Go.wrap_uint64 x) by lia
    end.
    rewrite wrap_uint64_add_r. f_equal. lia.
Qed.

Lemma usageCpuNs_from_in_range rest prev acc :
  Go.is_uint64 acc -> Go.is_uint64 (usageCpuNs_from prev rest acc).
Proof.
  revert prev acc. induction rest as [|st rest IH]; intros prev acc Hacc; [exact Hacc|].
  cbn [usageCpuNs_from]. apply IH. unfold Go.is_uint64, Go.wrap_uint64.
  apply Z.mod_pos_bound. lia.
Qed.

(** X15. The CPU time summed for the usage line is the difference between the
    totals of the last and of the first sample, in [uint64]: the
    differences of consecutive samples cancel out, also when a counter
    went down in between. *)
Theorem usageCpuNs_is_last_minus_first (stats : list info.ContainerStats)
    (d : info.ContainerStats) :
  usageCpuNs_of stats
  = Go.wrap_uint64 (Total_of (last stats d) - Total_of (hd d stats)).
Proof.
  destruct stats as [|st rest]; [cbn; rewrite Z.sub_diag; reflexivity|].
  rewrite last_cons. cbn [usageCpuNs_of hd].
  rewrite <- (@wrap_uint64_small (usageCpuNs_from st rest 0)).
  - rewrite usageCpuNs_from_telescopes. reflexivity.
  - apply usageCpuNs_from_in_range. unfold Go.is_uint64. lia.
Qed.

(** *** Listings are all or nothing *)

Lemma GetProcessList_lines_cases (c : containerData) cadvisorContainer inHostNamespace
    (lines : list string) (processes : list v2.ProcessInfo) :
  (exists e, GetProcessList_lines c cadvisorContainer inHostNamespace lines processes
             = (None, Some e)) \/
  Forall well_formed_line (filter (fun line => negb (String.length line =? 0)%nat) lines).
Proof.
  revert processes. induction lines as [|line rest IH]; intros processes.
  - right. constructor.
  - cbn [GetProcessList_lines filter].
    destruct (String.length line =? 0)%nat eqn:Hlen; cbn [negb]; [apply IH|].
    destruct (List.length (strings_Fields line) <? expectedFields)%nat eqn:Hlt;
      [left; eexists; reflexivity|].
    cbv zeta.
    destruct (strconv_Atoi (field (strings_Fields line) 1)) as [pid [e1|]] eqn:H1;
      [left; eexists; reflexivity|].
    destruct (strconv_Atoi (field (strings_Fields line) 2)) as [ppid [e2|]] eqn:H2;
      [left; eexists; reflexivity|].
    destruct (strconv_ParseFloat32 (field (strings_Fields line) 4)) as [pcpu [e3|]] eqn:H3;
      [left; eexists; reflexivity|].
    destruct (strconv_ParseFloat32 (field (strings_Fields line) 5)) as [pmem [e4|]] eqn:H4;
      [left; eexists; reflexivity|].
    destruct (strconv_ParseUint (field (strings_Fields line) 6)) as [rss [e5|]] eqn:H5;
      [left; eexists; reflexivity|].
    destruct (strconv_ParseUint (field (strings_Fields line) 7)) as [vsz [e6|]] eqn:H6;
      [left; eexists; reflexivity|].
    destruct (getCgroupPath c (field (strings_Fields line) 11)) as [cgroup [e7|]];
      [left; eexists; reflexivity|].
    assert (Hwf : well_formed_line line).
    { unfold well_formed_line. cbv zeta. rewrite H1, H2, H3, H4, H5, H6.
      repeat split. apply Nat.ltb_ge. exact Hlt. }
    destruct (negb inHostNamespace && String.eqb cadvisorContainer cgroup
              && String.eqb (field (strings_Fields line) 10) "ps");
      [| destruct (String.eqb (Name_of c) "/" || String.eqb (Name_of c) cgroup)].
    all: match goal with
         | |- context [GetProcessList_lines _ _ _ _ ?ps] =>
             destruct (IH ps) as [He | Hrest]; [left; exact He | right]
         end.
    all: constructor; assumption.
Qed.

(** X16. One line of the process table that cannot be parsed makes the
    whole listing fail: when [ps] ran and a line after the header that is
    not empty has fewer than twelve fields, or a numeric column of it does
    not parse, [GetProcessList] returns an error and no list, whatever
    the other lines are. *)
Theorem malformed_line_fails_the_listing (c : containerData) cadvisorContainer
    inHostNamespace (out line : string) :
  getPsOutput c inHostNamespace
    "user,pid,ppid,stime,pcpu,pmem,rss,vsz,stat,time,comm,cgroup" = (out, None) ->
  In line (body_lines out) -> ~ well_formed_line line ->
  exists e, GetProcessList c cadvisorContainer inHostNamespace = (None, Some e).
Proof.
  intros Hps Hin Hbad. unfold GetProcessList. rewrite Hps.
  destruct (GetProcessList_lines_cases c cadvisorContainer inHostNamespace
              (tl (Go.strings_Split out Go.newline)) [])
    as [He | Hwf]; [exact He|].
  exfalso. apply Hbad. rewrite Forall_forall in Hwf. apply Hwf. exact Hin.
Qed.

Lemma getContainerPids_lines_cases (c : containerData) (lines pids : list string) :
  (exists e, getContainerPids_lines c lines pids = (None, Some e)) \/
  (getContainerPids_lines c lines pids = (Some (pids ++ pids_of_lines c lines), None) /\
   Forall (fun line => (2 <= List.length (strings_Fields line))%nat)
          (filter (fun line => negb (String.length line =? 0)%nat) lines)).
Proof.
  revert pids. induction lines as [|line rest IH]; intros pids.
  - right. cbn. rewrite app_nil_r. split; [reflexivity | constructor].
  - unfold pids_of_lines in *. cbn [getContainerPids_lines filter].
    destruct (String.length line =? 0)%nat eqn:Hlen; cbn [negb]; [apply IH|].
    destruct (List.length (strings_Fields line) <? 2)%nat eqn:Hlt;
      [left; eexists; reflexivity|].
    cbv zeta. cbn [filter map].
    pose proof (getCgroupPath_no_error c (field (strings_Fields line) 1)) as Hcg.
    destruct (getCgroupPath c (field (strings_Fields line) 1)) as [cgroup e7].
    cbn [fst snd] in *. subst e7.
    destruct (String.eqb (Name_of c) cgroup); cbn [map].
    + destruct (IH (pids ++ [field (strings_Fields line) 0])) as [He | [Hr Hf]];
        [left; exact He | right].
      rewrite Hr, <- app_assoc. split; [reflexivity|].
      constructor; [apply Nat.ltb_ge; exact Hlt | exact Hf].
    + destruct (IH pids) as [He | [Hr Hf]]; [left; exact He | right].
      rewrite Hr. split; [reflexivity|].
      constructor; [apply Nat.ltb_ge; exact Hlt | exact Hf].
Qed.

(** X17. When [ps] ran and every line after the header that is not empty has
    at least two fields, [getContainerPids] returns the first field of
    the lines whose cgroup is the tracker's name, in the order of the
    table. *)
Theorem getContainerPids_selects_by_cgroup (c : containerData) (inHostNamespace : bool)
    (out : string) :
  getPsOutput c inHostNamespace "pid,cgroup" = (out, None) ->
  Forall (fun line => (2 <= List.length (strings_Fields line))%nat) (body_lines out) ->
  getContainerPids c inHostNamespace
  = (Some (pids_of_lines c (tl (Go.strings_Split out Go.newline))), None).
Proof.
  intros Hps Hwf. unfold getContainerPids. rewrite Hps.
  destruct (getContainerPids_lines_cases c (tl (Go.strings_Split out Go.newline)) [])
    as [[e He] | [Hr _]]; [|exact Hr].
  exfalso. revert He. unfold body_lines in Hwf.
  generalize (@nil string) as pids.
  induction (tl (Go.strings_Split out Go.newline)) as [|line rest IH]; intros pids;
    [discriminate|].
  cbn [getContainerPids_lines filter] in *.
  destruct (String.length line =? 0)%nat; cbn [negb] in Hwf; [apply IH; exact Hwf|].
  inversion Hwf as [|? ? H2 Hrest]; subst.
  apply Nat.ltb_ge in H2. rewrite H2. cbv zeta.
  destruct (getCgroupPath c (field (strings_Fields line) 1)) as [cgroup [e7|]] eqn:Hcg.
  - pose proof (getCgroupPath_no_error c (field (strings_Fields line) 1)) as Hn.
    rewrite Hcg in Hn. discriminate.
  - destruct (String.eqb (Name_of c) cgroup); apply IH; exact Hrest.
Qed.

(** *** Files of the container *)

Context {fsI : FileSystem}.

Lemma ReadFile_pids_cases (inHostNamespace : bool) (filepath : string) (pids : list string) :
  (exists data before pid after,
     ReadFile_pids (if negb inHostNamespace then "/rootfs" else "/") filepath pids
     = (Some data, None) /\
     pids = before ++ pid :: after /\
     Forall (unreadable inHostNamespace filepath) before /\
     ioutil_ReadFile (container_file_path inHostNamespace pid filepath) = (data, None)) \/
  (ReadFile_pids (if negb inHostNamespace then "/rootfs" else "/") filepath pids
   = (None, Some (Go.fmt_Errorf "file %q does not exist." [Go.VString filepath])) /\
   Forall (unreadable inHostNamespace filepath) pids).
Proof.
  induction pids as [|pid rest IH].
  - right. split; [reflexivity | constructor].
  - cbn [ReadFile_pids]. cbv zeta.
    change (path_Join [if negb inHostNamespace then "/rootfs"%string else "/"%string;
                       "/proc"%string; pid; "/root"%string; filepath])
      with (container_file_path inHostNamespace pid filepath).
    destruct (ioutil_ReadFile (container_file_path inHostNamespace pid filepath))
      as [data [e|]] eqn:Hr.
    + destruct IH as [(d & before & p & after & H1 & H2 & H3 & H4) | [H1 H2]].
      * left. exists d, (pid :: before), p, after. rewrite H1, H2.
        repeat split; auto. constructor; [|exact H3].
        unfold unreadable. rewrite Hr. discriminate.
      * right. split; [exact H1|]. constructor; [|exact H2].
        unfold unreadable. rewrite Hr. discriminate.
    + left. exists data, [], pid, rest. repeat split; auto.
Qed.

(** X18. [ReadFile] returns the contents of the file as the first process of
    the container under which it can be read shows it, the processes taken
    in the order of the process table; the error of the listing when the
    processes cannot be listed; and the error that the file does not exist
    when it can be read under no process of the container, or the
    container has no process. It returns contents or an error, never
    both. *)
Theorem ReadFile_reads_the_first_readable_copy (c : containerData) (filepath : string)
    (inHostNamespace : bool) :
  match ReadFile c filepath inHostNamespace with
  | (Some data, None) =>
      exists pids before pid after,
        getContainerPids c inHostNamespace = (Some pids, None) /\
        pids = before ++ pid :: after /\
        Forall (unreadable inHostNamespace filepath) before /\
        ioutil_ReadFile (container_file_path inHostNamespace pid filepath) = (data, None)
  | (None, Some e) =>
      getContainerPids c inHostNamespace = (None, Some e) \/
      exists pids,
        getContainerPids c inHostNamespace = (Some pids, None) /\
        Forall (unreadable inHostNamespace filepath) pids /\
        e = Go.fmt_Errorf "file %q does not exist." [Go.VString filepath]
  | _ => False
  end.
Proof.
  unfold ReadFile.
  assert (Hp : (exists e, getContainerPids c inHostNamespace = (None, Some e)) \/
               exists pids, getContainerPids c inHostNamespace = (Some pids, None)).
  { unfold getContainerPids.
    destruct (getPsOutput c inHostNamespace "pid,cgroup") as [out [e|]];
      [left; eexists; reflexivity|].
    destruct (getContainerPids_lines_cases c (tl (Go.strings_Split out Go.newline)) [])
      as [He | [Hr _]]; [left; exact He | right; eexists; exact Hr]. }
  destruct Hp as [[e He] | [pids Hpids]].
  - rewrite He. left. reflexivity.
  - rewrite Hpids.
    destruct (ReadFile_pids_cases inHostNamespace filepath pids)
      as [(d & before & p & after & H1 & H2 & H3 & H4) | [H1 H2]]; rewrite H1.
    + exists pids, before, p, after. repeat split; auto.
    + right. exists pids. repeat split; auto.
Qed.

(** *** The probing interval, whatever the samples *)

Lemma doLoadReaderIteration_interval (r : Runtime) :
  let i' := loadreaderInterval (cd (snd (doLoadReaderIteration flags r))) in
  i' = loadreaderInterval (cd r) \/
  i' = DurationMin (Go.wrap_int64 (loadreaderInterval (cd r) * 2))
                   (MaxLoadReaderInterval flags) \/
  i' = LoadreaderInterval flags.
Proof.
  unfold doLoadReaderIteration, bind, onHandler, read, update, ret, time_Now, TaskStats,
    updateTaskStats, updateLoadAvg, with_handler.
  destruct (handler_GetCgroupPath "cpu" (handler (cd r))) as [[path [e|]] h1]; cbn;
    [left; reflexivity|].
  destruct (loadReader (cd r)) as [l|]; cbn; [|left; reflexivity].
  destruct (loadReader_GetCpuLoad _ path l) as [[sample [e|]] l']; cbn;
    destruct (clock_Now (clock r)) as [probeTime k1]; cbn; [left; reflexivity|].
  destruct (allowDynamicHousekeeping (cd r) && _); cbn;
    destruct (loadAvg (cd r) <? 0)%float; cbn; auto.
Qed.

Lemma loadReaderIteration_interval (r : Runtime) :
  exists r1 : Runtime,
    (r1 = r \/ r1 = snd (doLoadReaderIteration flags r)) /\
    loadreaderInterval (cd (snd (loadReaderIteration flags r)))
    = loadreaderInterval (cd r1).
Proof.
  unfold loadReaderIteration, bind at 1, read at 1. cbv beta iota.
  destruct (loadReader (cd r)); [|exists r; split; [left|]; reflexivity].
  exists (snd (doLoadReaderIteration flags r)). split; [right; reflexivity|].
  unfold doWithTimeout.
  destruct (doLoadReaderIteration flags r) as [err r1] eqn:Hd.
  erewrite bind_run by exact Hd. cbn [snd]. clear Hd. revert r1.
  match goal with
  | |- forall r1, _ (cd (snd (?m r1))) = _ => change (Keeps loadreaderInterval m)
  end.
  keeps.
Qed.

Lemma run_call_probing_interval (call : Call) (r : Runtime) :
  let i' := loadreaderInterval (cd (run_call flags call r)) in
  i' = loadreaderInterval (cd r) \/
  i' = DurationMin (Go.wrap_int64 (loadreaderInterval (cd r) * 2))
                   (MaxLoadReaderInterval flags) \/
  i' = LoadreaderInterval flags.
Proof.
  destruct call; cbn [run_call]; cbv zeta.
  11: { destruct (loadReaderIteration_interval r) as (r1 & [Hr | Hr] & Hk);
          rewrite Hk, Hr; [left; reflexivity | apply doLoadReaderIteration_interval]. }
  all: left.
  all: match goal with
       | |- _ (cd (snd (?m ?r0))) = _ => revert r0; change (Keeps loadreaderInterval m)
       end.
  all: keeps_all.
Qed.

(** X26. When the flags [LoadreaderInterval] and [MaxLoadReaderInterval]
    are durations of less than 2^62 nanoseconds, the probing interval of
    the load reader stays between zero and the larger of the two,
    whatever calls the tracker serves and whatever the reader returns. *)
Theorem load_reader_interval_in_range (calls : list Call) (r : Runtime) :
  0 <= LoadreaderInterval flags < 2 ^ 62 ->
  0 <= MaxLoadReaderInterval flags < 2 ^ 62 ->
  0 <= loadreaderInterval (cd r)
    <= Z.max (LoadreaderInterval flags) (MaxLoadReaderInterval flags) ->
  0 <= loadreaderInterval (cd (run_calls flags calls r))
    <= Z.max (LoadreaderInterval flags) (MaxLoadReaderInterval flags).
Proof.
  intros Hb Hc Hi.
  apply (@run_calls_invariant
           (fun r' => 0 <= loadreaderInterval (cd r')
                        <= Z.max (LoadreaderInterval flags) (MaxLoadReaderInterval flags))
           (fun _ => true)); [| apply forallb_always | exact Hi].
  intros call r' _ Hr.
  destruct (run_call_probing_interval call r') as [Hk | [Hk | Hk]];
    cbv zeta in Hk; rewrite Hk.
  - exact Hr.
  - rewrite doubled_interval by lia. lia.
  - lia.
Qed.

End TrackerProperties.

(** ** The Docker client's [ConvertibleBool] *)

Lemma UnmarshalJSON_error (x : docker.ConvertibleBool) (data : string) :
  fst (docker.UnmarshalJSON data x) = None <->
  (data = "1" \/ data = "true" \/ data = "0" \/ data = "false")%string.
Proof.
  unfold docker.UnmarshalJSON, docker.UnmarshalJSON_body.
  destruct (String.eqb_spec data "1") as [H1|H1]; [cbn; tauto|].
  destruct (String.eqb_spec data "true") as [H2|H2]; [cbn; tauto|].
  destruct (String.eqb_spec data "0") as [H3|H3]; [cbn; tauto|].
  destruct (String.eqb_spec data "false") as [H4|H4]; [cbn; tauto|].
  cbn. split; [discriminate | tauto].
Qed.

(** C9. A call of [UnmarshalJSON] returns an error exactly when the input
    is none of ["1"], ["true"], ["0"], ["false"], and [nil] otherwise; but
    it never changes the receiver: the method has a value receiver and
    assigns to its own copy. On the input ["true"] a receiver that was
    [false] is still [false], where the decoder of the spec has set it to
    [true]. *)
Theorem C9_UnmarshalJSON_keeps_the_receiver (x : docker.ConvertibleBool) (data : string) :
  snd (docker.UnmarshalJSON data x) = x /\
  (fst (docker.UnmarshalJSON data x) = None <->
   (data = "1" \/ data = "true" \/ data = "0" \/ data = "false")%string) /\
  docker.UnmarshalJSON "true" false = (None, false) /\
  docker.spec_UnmarshalJSON "true" false = (None, true).
Proof.
  split; [|split; [apply UnmarshalJSON_error | split; reflexivity]].
  unfold docker.UnmarshalJSON. destruct (docker.UnmarshalJSON_body x data). reflexivity.
Qed.

(** ** The storage driver *)

(** C10. [AddStats] called with a [nil] stats pointer returns [nil] and
    leaves the driver as it was: its buffered points, the time of its last
    write, its client and every other field, and the clock is not read. *)
Theorem C10_AddStats_nil_is_a_no_op {W KT : Type} {clientI : influxdb2.InfluxClient W}
    {clockI : Clock KT} (ref : info.ContainerReference) (s : influxdb2.Sink W KT) :
  influxdb2.AddStats ref None s = (influxdb2.Return None, s) /\
  influxdb2.points (influxdb2.self (snd (influxdb2.AddStats ref None s)))
  = influxdb2.points (influxdb2.self s) /\
  influxdb2.lastWrite (influxdb2.self (snd (influxdb2.AddStats ref None s)))
  = influxdb2.lastWrite (influxdb2.self s).
Proof.
  unfold influxdb2.AddStats. repeat split.
Qed.

(** ** Repository names *)

Lemma strings_LastIndex_bound (s : string) (sep : ascii) :
  -1 <= Go.strings_LastIndex s sep < Z.of_nat (String.length s).
Proof.
  induction s as [|ch rest IH]; cbn [Go.strings_LastIndex String.length]; [lia|].
  destruct (Z.leb_spec 0 (Go.strings_LastIndex rest sep)); [lia|].
  destruct (Ascii.eqb ch sep); lia.
Qed.

Lemma strings_LastIndex_absent (s : string) (sep : ascii) :
  Go.strings_Contains s sep = false -> Go.strings_LastIndex s sep = -1.
Proof.
  induction s as [|ch rest IH]; cbn [Go.strings_LastIndex Go.strings_Contains];
    [reflexivity|].
  intros Hc. apply orb_false_elim in Hc. destruct Hc as [Hch Hrest].
  rewrite (IH Hrest), Hch. reflexivity.
Qed.

Lemma strings_LastIndex_app (p t : string) (sep : ascii) :
  Go.strings_Contains t sep = false ->
  Go.strings_LastIndex (p ++ String sep t) sep = Z.of_nat (String.length p).
Proof.
  intros Hc. induction p as [|ch p IH].
  - cbn [append Go.strings_LastIndex String.length].
    rewrite (@strings_LastIndex_absent t sep Hc), Ascii.eqb_refl. reflexivity.
  - cbn [append Go.strings_LastIndex String.length]. rewrite IH.
    destruct (Z.leb_spec 0 (Z.of_nat (String.length p))); lia.
Qed.

Lemma slice_from_0 (s : string) : Go.slice_from s 0 = s.
Proof. destruct s; reflexivity. Qed.

Lemma slice_to_app (p q : string) : Go.slice_to (p ++ q) (String.length p) = p.
Proof. induction p as [|ch p IH]; cbn; [destruct q; reflexivity | rewrite IH; reflexivity]. Qed.

Lemma slice_from_app (p q : string) : Go.slice_from (p ++ q) (String.length p) = q.
Proof. induction p as [|ch p IH]; cbn; [destruct q; reflexivity | exact IH]. Qed.

(** A string is cut at its last separator into what is before it and
    what is after it, in which the separator does not occur. *)
Lemma strings_LastIndex_cut (s : string) (sep : ascii) :
  0 <= Go.strings_LastIndex s sep ->
  let n := Z.to_nat (Go.strings_LastIndex s sep) in
  s = (Go.slice_to s n ++ String sep (Go.slice_from s (S n)))%string /\
  Go.strings_Contains (Go.slice_from s (S n)) sep = false.
Proof.
  induction s as [|ch rest IH]; cbn [Go.strings_LastIndex]; [lia|].
  destruct (Z.leb_spec 0 (Go.strings_LastIndex rest sep)) as [Hn | Hn].
  - intros _. specialize (IH Hn). cbv zeta in *.
    replace (Z.to_nat (Go.strings_LastIndex rest sep + 1))
      with (S (Z.to_nat (Go.strings_LastIndex rest sep))) by lia.
    destruct IH as [IH1 IH2].
    cbn [Go.slice_to Go.slice_from append]. split; [f_equal; exact IH1 | exact IH2].
  - destruct (Ascii.eqb ch sep) eqn:Hch; [|lia].
    intros _. apply Ascii.eqb_eq in Hch. subst ch. cbn. rewrite slice_from_0.
    split; [reflexivity|].
    clear IH. induction rest as [|c rest IH]; [reflexivity|].
    cbn [Go.strings_LastIndex Go.strings_Contains] in *.
    destruct (Z.leb_spec 0 (Go.strings_LastIndex rest sep)); [lia|].
    destruct (Ascii.eqb c sep); [lia|]. cbn. apply IH. lia.
Qed.

(** X19. [ParseRepositoryTag] cuts a name at its last colon. For a name
    [before ++ ":" ++ after] in which [after] has no colon: when [after]
    has no slash either the name is split into the repository [before]
    and the tag [after]; when it has one, the colon is that of a port,
    and the whole name is the repository, with no tag. *)
Theorem ParseRepositoryTag_at_the_last_colon (before after : string) :
  Go.strings_Contains after ":" = false ->
  docker.ParseRepositoryTag (before ++ ":" ++ after)
  = if Go.strings_Contains after "/"
    then ((before ++ ":" ++ after)%string, ""%string)
    else (before, after).
Proof.
  intros Hc. unfold docker.ParseRepositoryTag. cbv zeta.
  change (":" ++ after)%string with (String ":" after).
  rewrite (@strings_LastIndex_app before after ":" Hc).
  destruct (Z.ltb_spec (Z.of_nat (String.length before)) 0); [lia|].
  replace (Z.to_nat (Z.of_nat (String.length before) + 1))
    with (String.length (before ++ ":")).
  2: { clear. induction before; cbn in *; lia. }
  replace (before ++ String ":" after)%string with ((before ++ ":") ++ after)%string.
  2: { clear. induction before; cbn; [reflexivity | f_equal; assumption]. }
  rewrite slice_from_app.
  destruct (Go.strings_Contains after "/"); cbn [negb]; [reflexivity|].
  replace ((before ++ ":") ++ after)%string with (before ++ String ":" after)%string.
  2: { clear. induction before; cbn; [reflexivity | f_equal; assumption]. }
  rewrite Nat2Z.id, slice_to_app. reflexivity.
Qed.

(** X20. [ParseRepositoryTag] loses nothing: either it returns the name whole
    as the repository, with the empty tag, or the name is the repository
    it returns, a colon, and the tag it returns; and a tag has neither a
    slash nor a colon. A name without colon is returned whole. *)
Theorem ParseRepositoryTag_is_lossless (repoTag : string) :
  let (repository, tag) := docker.ParseRepositoryTag repoTag in
  ((repository = repoTag /\ tag = ""%string) \/
   repoTag = (repository ++ ":" ++ tag)%string) /\
  Go.strings_Contains tag "/" = false /\
  Go.strings_Contains tag ":" = false /\
  (Go.strings_Contains repoTag ":" = false -> repository = repoTag).
Proof.
  unfold docker.ParseRepositoryTag. cbv zeta.
  destruct (Z.ltb_spec (Go.strings_LastIndex repoTag ":") 0) as [Hn | Hn].
  - repeat split; auto.
  - destruct (@strings_LastIndex_cut repoTag ":" Hn) as [Hcut Hnone]. cbv zeta in *.
    replace (Z.to_nat (Go.strings_LastIndex repoTag ":" + 1))
      with (S (Z.to_nat (Go.strings_LastIndex repoTag ":"))) by lia.
    destruct (Go.strings_Contains (Go.slice_from repoTag _) "/") eqn:Hslash; cbn [negb].
    + repeat split; auto.
    + repeat split; auto.
      intros Habs. apply strings_LastIndex_absent in Habs. lia.
Qed.

(** ** The storage driver: points and batches *)

Lemma Forall_tagPoints (P : influxdb2.Point -> Prop) ref stats points :
  Forall (fun pt => P (influxdb2.SetTime (info.Timestamp stats)
                         (influxdb2.AddTag influxdb2.tagContainerId (info.Name ref) pt)))
         points ->
  Forall P (influxdb2.tagPoints ref stats points).
Proof.
  intros H. unfold influxdb2.tagPoints. apply Forall_map.
  eapply Forall_impl; [|exact H]. intros pt Hpt. exact Hpt.
Qed.

Lemma put_tag_In (k v : string) (ts : list (string * string)) :
  In (k, v) (influxdb2.put_tag k v ts).
Proof.
  induction ts as [|[k' v'] rest IH]; cbn; [left; reflexivity|].
  destruct (String.eqb k k'); [left; reflexivity | right; exact IH].
Qed.

Lemma containerStatsToPoints_length ref stats :
  List.length (influxdb2.containerStatsToPoints ref stats) = 13%nat.
Proof. reflexivity. Qed.

(** X21. Every point made of a sample has the name of the container as its
    [container_id] tag, the time of the sample, and one field, [value].
    There are thirteen points of the counters and two for each file
    system of the sample. *)
Theorem points_are_tagged_and_timed (ref : info.ContainerReference)
    (stats : info.ContainerStats) :
  Forall (fun pt =>
            In (influxdb2.tagContainerId, info.Name ref) (influxdb2.tags pt) /\
            influxdb2.time pt = info.Timestamp stats /\
            exists v, influxdb2.fields pt = [(influxdb2.fieldValue, v)])
         (influxdb2.points_of ref stats) /\
  List.length (influxdb2.containerStatsToPoints ref stats) = 13%nat /\
  List.length (influxdb2.containerFilesystemStatsToPoints ref stats)
  = (2 * List.length (info.Filesystem stats))%nat.
Proof.
  split; [|split].
  - unfold influxdb2.points_of. apply Forall_app. split.
    + unfold influxdb2.containerStatsToPoints. cbv zeta. apply Forall_tagPoints.
      repeat constructor; eexists; reflexivity.
    + unfold influxdb2.containerFilesystemStatsToPoints.
      destruct (info.Filesystem stats) as [|fs0 fss]; [constructor|].
      apply Forall_tagPoints. apply Forall_flat_map.
      apply Forall_forall. intros fsStat _.
      repeat constructor; try (eexists; reflexivity); apply put_tag_In.
  - reflexivity.
  - unfold influxdb2.containerFilesystemStatsToPoints.
    destruct (info.Filesystem stats) as [|fs0 fss]; [reflexivity|].
    unfold influxdb2.tagPoints. rewrite length_map.
    generalize (fs0 :: fss) as l. induction l as [|x l IH]; [reflexivity|].
    cbn [flat_map List.length app]. rewrite IH. lia.
Qed.

(** X27. The conversion of an unsigned counter to the signed value that
    is written loses nothing: a [uint64] is written as the [int64] of the
    same 64 bits, from which the counter is recovered; a counter below
    2^63 is written as itself, a larger one as [v - 2^64], a negative
    number. *)
Theorem toSigned_uint64_is_reversible (v : Z) :
  Go.is_uint64 v ->
  exists z,
    influxdb2.toSigned_uint64 v = influxdb2.Int64Value z /\
    Go.is_int64 z /\
    Go.wrap_uint64 z = v /\
    (v < 2 ^ 63 -> z = v) /\
    (2 ^ 63 <= v -> z = v - 2 ^ 64).
Proof.
  unfold Go.is_uint64, Go.is_int64, Go.MinInt64, Go.MaxInt64, influxdb2.toSigned_uint64,
    Go.wrap_int64, Go.wrap_uint64.
  intros Hv. eexists. split; [reflexivity|].
  change (2 ^ 64) with 18446744073709551616 in *.
  change (2 ^ 63) with 9223372036854775808 in *.
  repeat split; intros; Z.div_mod_to_equations; lia.
Qed.

Section DriverProperties.

Context {W KT : Type} {clientI : influxdb2.InfluxClient W} {clockI : Clock KT}.

Local Abbreviation Sink := (influxdb2.Sink W KT).

Lemma points_of_not_empty ref stats l :
  (0 <? List.length (l ++ influxdb2.points_of ref stats))%nat = true.
Proof.
  apply Nat.ltb_lt. rewrite length_app. unfold influxdb2.points_of. rewrite length_app.
  rewrite containerStatsToPoints_length. lia.
Qed.

(** Whether the driver is ready to flush does not depend on the buffer. *)
Lemma call_readyToFlush_points (s : Sink) (v : list influxdb2.Point) :
  influxdb2.call_readyToFlush
    {| influxdb2.self := influxdb2.set_points v (influxdb2.self s);
       influxdb2.sclock := influxdb2.sclock s |}
  = (fst (influxdb2.call_readyToFlush s),
     {| influxdb2.self :=
          influxdb2.set_points v (influxdb2.self (snd (influxdb2.call_readyToFlush s)));
        influxdb2.sclock := influxdb2.sclock (snd (influxdb2.call_readyToFlush s)) |}).
Proof.
  unfold influxdb2.call_readyToFlush. cbn.
  destruct (influxdb2.readyToFlush (influxdb2.self s)); [|reflexivity].
  destruct (clock_Now (influxdb2.sclock s)). reflexivity.
Qed.

Lemma call_readyToFlush_self (s : Sink) :
  influxdb2.self (snd (influxdb2.call_readyToFlush s)) = influxdb2.self s.
Proof.
  unfold influxdb2.call_readyToFlush.
  destruct (influxdb2.readyToFlush (influxdb2.self s)); [|reflexivity].
  destruct (clock_Now (influxdb2.sclock s)). reflexivity.
Qed.

Lemma AddStats_locked_unfold ref stats (s : Sink) :
  influxdb2.AddStats_locked ref stats s
  = let s1 := snd (influxdb2.call_readyToFlush s) in
    let buffer := (influxdb2.points (influxdb2.self s) ++ influxdb2.points_of ref stats) in
    if fst (influxdb2.call_readyToFlush s)
    then (buffer,
          {| influxdb2.self :=
               influxdb2.set_lastWrite (fst (clock_Now (influxdb2.sclock s1)))
                 (influxdb2.set_points [] (influxdb2.self s));
             influxdb2.sclock := snd (clock_Now (influxdb2.sclock s1)) |})
    else ([], {| influxdb2.self := influxdb2.set_points buffer (influxdb2.self s);
                 influxdb2.sclock := influxdb2.sclock s1 |}).
Proof.
  unfold influxdb2.AddStats_locked. cbv zeta.
  change (influxdb2.set_points
            (influxdb2.points
               (influxdb2.set_points
                  (influxdb2.points (influxdb2.self s)
                   ++ influxdb2.containerStatsToPoints ref stats) (influxdb2.self s))
             ++ influxdb2.containerFilesystemStatsToPoints ref stats)
            (influxdb2.set_points
               (influxdb2.points (influxdb2.self s)
                ++ influxdb2.containerStatsToPoints ref stats) (influxdb2.self s)))
    with (influxdb2.set_points
            ((influxdb2.points (influxdb2.self s)
              ++ influxdb2.containerStatsToPoints ref stats)
             ++ influxdb2.containerFilesystemStatsToPoints ref stats) (influxdb2.self s)).
  rewrite call_readyToFlush_points, <- app_assoc.
  fold (influxdb2.points_of ref stats).
  pose proof (call_readyToFlush_self s) as Hself.
  destruct (influxdb2.call_readyToFlush s) as [[|] s1]; cbn [fst snd] in *.
  - rewrite Hself. cbn [influxdb2.sclock influxdb2.self].
    destruct (clock_Now (influxdb2.sclock s1)). reflexivity.
  - rewrite Hself. reflexivity.
Qed.

(** X22. Until the driver is ready to flush, [AddStats] only appends the
    points of the sample to the buffer: it returns [nil], and the client
    and the time of the last write are untouched. *)
Theorem AddStats_buffers_until_ready ref stats (s : Sink) :
  fst (influxdb2.call_readyToFlush s) = false ->
  let s' := snd (influxdb2.AddStats ref (Some stats) s) in
  fst (influxdb2.AddStats ref (Some stats) s) = influxdb2.Return None /\
  influxdb2.points (influxdb2.self s')
  = influxdb2.points (influxdb2.self s) ++ influxdb2.points_of ref stats /\
  influxdb2.client (influxdb2.self s') = influxdb2.client (influxdb2.self s) /\
  influxdb2.lastWrite (influxdb2.self s') = influxdb2.lastWrite (influxdb2.self s).
Proof.
  intros Hready. unfold influxdb2.AddStats.
  rewrite AddStats_locked_unfold. cbv zeta. rewrite Hready. cbn. repeat split.
Qed.

(** X23. When the driver is ready to flush, [AddStats] hands the client the
    whole buffer, the points of the sample at hand last, in one write. The
    buffer is emptied and the time of the last write is set before the
    write is made: when the client refuses the batch, [AddStats] returns
    the client's error, wrapped, and the batch is not kept. *)
Theorem AddStats_flushes_the_buffer ref stats (s : Sink) (w : W) :
  fst (influxdb2.call_readyToFlush s) = true ->
  influxdb2.client (influxdb2.self s) = Some w ->
  let batch := influxdb2.points (influxdb2.self s) ++ influxdb2.points_of ref stats in
  let written := influxdb2.client_WritePoint (influxdb2.org (influxdb2.self s))
                   (influxdb2.bucket (influxdb2.self s)) batch w in
  let s' := snd (influxdb2.AddStats ref (Some stats) s) in
  fst (influxdb2.AddStats ref (Some stats) s)
  = influxdb2.Return
      (option_map (fun e => Go.fmt_Errorf "failed to write stats to influxDb - %s"
                              [Go.VError e]) (fst written)) /\
  influxdb2.client (influxdb2.self s') = Some (snd written) /\
  influxdb2.points (influxdb2.self s') = [] /\
  influxdb2.lastWrite (influxdb2.self s')
  = fst (clock_Now (influxdb2.sclock (snd (influxdb2.call_readyToFlush s)))).
Proof.
  intros Hready Hclient batch written s'. unfold s', written, batch, influxdb2.AddStats.
  rewrite AddStats_locked_unfold. cbv zeta. rewrite Hready.
  rewrite points_of_not_empty. cbn. rewrite Hclient.
  destruct (influxdb2.client_WritePoint _ _ _ w) as [[e|] w']; cbn; repeat split.
Qed.

(** X24. After [Close] the driver has no client, and the call of [AddStats]
    that finds it ready to flush panics; the buffer is emptied all the
    same. *)
Theorem AddStats_after_Close_panics ref stats (s : Sink) :
  fst (influxdb2.call_readyToFlush s) = true ->
  let closed := snd (influxdb2.Close s) in
  fst (influxdb2.AddStats ref (Some stats) closed) = influxdb2.Panic /\
  influxdb2.points (influxdb2.self (snd (influxdb2.AddStats ref (Some stats) closed)))
  = [].
Proof.
  intros Hready. cbv zeta.
  assert (Hr : fst (influxdb2.call_readyToFlush (snd (influxdb2.Close s)))
               = fst (influxdb2.call_readyToFlush s)).
  { unfold influxdb2.Close, influxdb2.call_readyToFlush. cbn.
    destruct (influxdb2.readyToFlush (influxdb2.self s)); [|reflexivity].
    destruct (clock_Now (influxdb2.sclock s)). reflexivity. }
  unfold influxdb2.AddStats.
  rewrite AddStats_locked_unfold. cbv zeta. rewrite Hr, Hready.
  rewrite points_of_not_empty. cbn. split; reflexivity.
Qed.

(** X25. No point is lost or written twice by the buffer: over any run of
    samples, the batches taken out of the buffer, in order, followed by
    what is left in the buffer, are the points that were in the buffer at
    first followed by the points of the samples, in order. *)
Theorem buffer_conserves_points
    (samples : list (info.ContainerReference * info.ContainerStats)) (s : Sink) :
  List.concat (fst (influxdb2.AddStats_run samples s))
  ++ influxdb2.points (influxdb2.self (snd (influxdb2.AddStats_run samples s)))
  = influxdb2.points (influxdb2.self s)
    ++ flat_map (fun sample => influxdb2.points_of (fst sample) (snd sample)) samples.
Proof.
  revert s. induction samples as [|[ref stats] rest IH]; intros s.
  - cbn. rewrite app_nil_r. reflexivity.
  - cbn [influxdb2.AddStats_run flat_map fst snd].
    rewrite AddStats_locked_unfold. cbv zeta.
    destruct (fst (influxdb2.call_readyToFlush s)).
    + match goal with |- context [influxdb2.AddStats_run rest ?s1] =>
        specialize (IH s1); destruct (influxdb2.AddStats_run rest s1) as [batches s2]
      end.
      cbn [fst snd List.concat] in *. rewrite <- ?app_assoc. rewrite IH. reflexivity.
    + match goal with |- context [influxdb2.AddStats_run rest ?s1] =>
        specialize (IH s1); destruct (influxdb2.AddStats_run rest s1) as [batches s2]
      end.
      cbn [fst snd List.concat app] in *. rewrite IH. cbn. rewrite <- app_assoc. reflexivity.
Qed.

End DriverProperties.

(** ** The properties on the example collaborators *)

(** C1 on the steady root container: after the first turn, three more
    turns take the interval from 1 s to the ceiling of 8 s. *)
Lemma C1_witness :
  housekeepingInterval (cd (housekeepingIterations Stub.flags 3 Stub.warm_tracker))
  = Z.min (HousekeepingInterval Stub.flags * 2 ^ Z.of_nat 3)
          (maxHousekeepingInterval (cd Stub.warm_tracker)) /\
  housekeepingInterval (cd (housekeepingIterations Stub.flags 3 Stub.warm_tracker))
  = 8 * Go.Second.
Proof.
  assert (H : housekeepingInterval (cd (housekeepingIterations Stub.flags 3 Stub.warm_tracker))
              = Z.min (HousekeepingInterval Stub.flags * 2 ^ Z.of_nat 3)
                      (maxHousekeepingInterval (cd Stub.warm_tracker))).
  { apply (fun h1 h2 h3 h4 h5 h6 =>
             proj1 (C1_adaptive_interval Stub.flags Stub.warm_tracker (n := 3)
                      h1 h2 h3 h4 h5 h6)).
    - reflexivity.
    - reflexivity.
    - split; [apply Z.leb_le | apply Z.ltb_lt]; vm_compute; reflexivity.
    - split; [apply Z.leb_le | apply Z.ltb_lt]; vm_compute; reflexivity.
    - discriminate.
    - intros k Hk. apply samples_equalb_true.
      destruct k as [|[|[|k]]]; [vm_compute; reflexivity ..| lia]. }
  split; [exact H | rewrite H; reflexivity].
Defined.

(** C2 on a container that is gone. *)
Lemma C2_witness :
  updateStats Stub.gone_tracker
  = (None, with_handler Stub.gone_handler Stub.gone_tracker) /\
  doWithTimeout updateStats (PanicTimeout Stub.flags) Stub.gone_tracker
  = (tt, with_handler Stub.gone_handler Stub.gone_tracker) /\
  events (with_handler Stub.gone_handler Stub.gone_tracker) = [].
Proof.
  assert (Hs : handler_GetStats (handler (cd Stub.gone_tracker))
               = ((None, Some Stub.stats_error), Stub.gone_handler)) by reflexivity.
  assert (He : handler_Exists Stub.gone_handler = (false, Stub.gone_handler))
    by reflexivity.
  destruct (C2_dead_container_tolerance Stub.flags Stub.gone_tracker
              (PanicTimeout Stub.flags) Hs He) as (H1 & H2 & _ & H3 & _).
  split; [exact H1 | split; [exact H2 | exact H3]].
Defined.





(** C6, as amended, on the same tracker: what is pushed has the load
    average 1735. *)
Lemma C6_witness :
  exists new,
    events (snd (updateStats Stub.loaded_tracker)) = new ++ events Stub.loaded_tracker /\
    forall ref pushed,
      In (CacheAddStats ref pushed) new ->
      info.LoadAverage (info.Cpu pushed) = 1735.
Proof.
  assert (Hs : handler_GetStats (handler (cd Stub.loaded_tracker))
               = ((Some (Stub.sample 0 1000), None), Stub.steady_handler "/"))
    by reflexivity.
  destruct (C6_milli_load_truncated Stub.loaded_tracker Hs) as (new & H1 & H2).
  exists new. split; [exact H1|]. intros ref pushed Hin. rewrite (H2 ref pushed Hin).
  reflexivity.
Defined.

(** C6 as stated fails: after probes of 3 tasks and, ten seconds later, of 1
    task, the smoothed load times 1000 lies between 1735.5 and 1736; the
    sample is pushed with a load average of 1735, where rounding gives
    1736. *)
Lemma C6_counterexample :
  (0 <=? loadAvg (cd Stub.loaded_tracker))%float = true /\
  (1735.5 <? loadAvg (cd Stub.loaded_tracker) * 1000)%float = true /\
  (loadAvg (cd Stub.loaded_tracker) * 1000 <? 1736)%float = true /\
  spec_round (loadAvg (cd Stub.loaded_tracker) * 1000)%float = Some 1736 /\
  events (snd (updateStats Stub.loaded_tracker))
  = [CacheAddStats (Stub.ref_of "/")
       (info.set_LoadAverage 1735 (Stub.sample 0 1000))].
Proof.
  repeat split; vm_compute; reflexivity.
Qed.

(** C7 on the root tracker: a caller that writes another reference
    through the pointer has renamed the tracker. *)
Lemma C7_witness :
  info (cd (tracker (store_info addr_c_info
                       {| Reference := Stub.ref_of "/elsewhere"; Subcontainers := [];
                          Spec := info.ContainerSpec_zero |}
                       (snd (call_GetInfo_in
                               {| tracker := Stub.root_tracker; heap := [] |})))))
  = {| Reference := Stub.ref_of "/elsewhere"; Subcontainers := [];
       Spec := info.ContainerSpec_zero |}.
Proof.
  apply (fun h => proj2 (C7_GetInfo_returns_the_field
                          {| tracker := Stub.root_tracker; heap := [] |}
                          (m1 := snd (call_GetInfo_in
                                        {| tracker := Stub.root_tracker; heap := [] |}))
                          (p := addr_c_info)
                          {| Reference := Stub.ref_of "/elsewhere"; Subcontainers := [];
                             Spec := info.ContainerSpec_zero |} h)).
  reflexivity.
Defined.


(** ** The scenarios of the specification, and the edges of the properties *)

(** Smoother bootstrap: a first probe of 3 tasks gives a load of 3; a probe
    of 5 tasks ten seconds later gives about 4.264. *)
Example smoother_bootstrap :
  loadAvg (cd (run_calls Stub.flags [call_updateLoadAvg 0 (Stub.load 3 0 0)]
                 Stub.root_tracker)) = 3%float /\
  PrimFloat.ltb 4.25
    (loadAvg (cd (run_calls Stub.flags
                    [call_updateLoadAvg 0 (Stub.load 3 0 0);
                     call_updateLoadAvg (10 * Go.Second) (Stub.load 5 0 0)]
                    Stub.root_tracker))) = true /\
  PrimFloat.ltb
    (loadAvg (cd (run_calls Stub.flags
                    [call_updateLoadAvg 0 (Stub.load 3 0 0);
                     call_updateLoadAvg (10 * Go.Second) (Stub.load 5 0 0)]
                    Stub.root_tracker))) 4.28125 = true.
Proof. repeat split; vm_compute; reflexivity. Qed.

(** Adaptive back-off: baseline 1 s, ceiling 8 s, a container whose stats
    do not change. The first turn leaves one sample in the cache, so the
    interval starts to double at the second. *)
Example adaptive_back_off :
  map (fun n => housekeepingInterval (cd (housekeepingIterations Stub.flags n
                                            Stub.root_tracker)))
      [0; 1; 2; 3; 4; 5; 6]%nat
  = map (fun seconds => seconds * Go.Second) [1; 1; 2; 4; 8; 8; 8].
Proof. vm_compute. reflexivity. Qed.

(** Doubling wraps from 2^62 nanoseconds on: the interval becomes the
    smallest [int64]. *)
Example doubling_wraps :
  DurationMin (Go.wrap_int64 (2 ^ 62 * 2)) Go.MaxInt64 = Go.MinInt64.
Proof. vm_compute. reflexivity. Qed.

(** Root process listing, in the host's namespace: three entries, each
    with its cgroup path; an RSS of 1024 KiB is 1048576 bytes. *)
Example root_process_listing :
  match GetProcessList (cd Stub.root_tracker) "/docker/agent" true with
  | (Some processes, None) =>
      map v2.CgroupPath processes = ["/"; "/docker/agent"; "/docker/abc"]%string /\
      map v2.RSS processes = [1048576; 524288; 307200]
  | _ => False
  end.
Proof. vm_compute. split; reflexivity. Qed.

(** Container-scoped listing: only the rows of the container, without
    cgroup path. *)
Example scoped_process_listing :
  match GetProcessList (cd (Stub.tracker_of (Stub.steady_handler "/docker/abc")
                              (8 * Go.Second))) "/docker/agent" true with
  | (Some processes, None) =>
      map v2.Cmd processes = ["server"]%string /\
      map v2.CgroupPath processes = [""]%string
  | _ => False
  end.
Proof. vm_compute. split; reflexivity. Qed.

(** A line of twelve fields whose pid is not a number is refused. *)
Example process_listing_refuses_bad_pid :
  GetProcessList_lines (cd Stub.root_tracker) "/docker/agent" true
    ["root one 0 Jan01 0.0 0.1 1024 2048 Ss 00:00:01 init 3:devices:/,2:cpu:/"%string] []
  = (None, Some (Go.fmt_Errorf "invalid pid %q: %v"
                   [Go.VString "one"; Go.VError Stub.syntax_error])).
Proof. vm_compute. reflexivity. Qed.

(** The cgroup column needs a comma, a semicolon or a dollar sign after the
    devices path: a column that ends with it parses as the root. *)
Example cgroup_path_needs_terminator :
  getCgroupPath (cd Stub.root_tracker) "2:cpu:/docker/abc,3:devices:/docker/abc"
  = ("/"%string, None) /\
  getCgroupPath (cd Stub.root_tracker) "3:devices:/docker/abc,2:cpu:/docker/abc"
  = ("/docker/abc"%string, None).
Proof. split; vm_compute; reflexivity. Qed.

(** A flush of the storage driver without a client panics; a [nil] sample
    never gets that far. *)
Example AddStats_without_client :
  fst (influxdb2.AddStats (Stub.ref_of "/") (Some (Stub.sample (61 * Go.Second) 1000))
         Stub.sink) = influxdb2.Panic /\
  fst (influxdb2.AddStats (Stub.ref_of "/") None Stub.sink) = influxdb2.Return None.
Proof. split; vm_compute; reflexivity. Qed.

(** ** Further properties on the example collaborators *)

(** Without dynamic housekeeping, two turns of the loop and an adjustment
    leave the interval of one second. *)
Lemma static_housekeeping_interval_witness :
  allowDynamicHousekeeping (cd Stub.static_tracker) = false /\
  housekeepingInterval
    (cd (run_calls Stub.flags
           [call_housekeepingIteration; call_housekeepingIteration;
            call_adjustHousekeepingInterval] Stub.static_tracker))
  = housekeepingInterval (cd Stub.static_tracker).
Proof.
  split; [reflexivity|].
  apply static_housekeeping_interval. reflexivity.
Defined.

(** Five turns on the steady root container: the interval is within 0 and
    8 s. *)
Lemma housekeeping_interval_in_range_witness :
  0 <= housekeepingInterval
         (cd (run_calls Stub.flags
                [call_housekeepingIteration; call_housekeepingIteration;
                 call_housekeepingIteration; call_housekeepingIteration;
                 call_housekeepingIteration] Stub.root_tracker))
    <= Z.max (HousekeepingInterval Stub.flags)
             (maxHousekeepingInterval (cd Stub.root_tracker)).
Proof.
  apply housekeeping_interval_in_range.
  - split; [apply Z.leb_le | apply Z.ltb_lt]; vm_compute; reflexivity.
  - split; [apply Z.leb_le | apply Z.ltb_lt]; vm_compute; reflexivity.
  - split; apply Z.leb_le; vm_compute; reflexivity.
Defined.


(** A live container of which the handler has no stats. *)
Lemma updateStats_without_stats_witness :
  updateStats Stub.statless_tracker
  = (Some (Go.fmt_Errorf "%v, continuing to push stats" [Go.VError Stub.stats_error]),
     with_handler Stub.statless_handler Stub.statless_tracker) /\
  events (snd (updateStats Stub.statless_tracker)) = events Stub.statless_tracker /\
  memoryCache (cd (snd (updateStats Stub.statless_tracker)))
  = memoryCache (cd Stub.statless_tracker).
Proof.
  apply updateStats_without_stats with (h1 := Stub.statless_handler); reflexivity.
Defined.

(** The root container, whose reader gives the task stats that the
    tracker holds: the probing interval goes from one second to two. *)
Lemma load_reader_backs_off_witness :
  taskStats (cd (snd (doLoadReaderIteration Stub.flags Stub.root_tracker)))
  = info.LoadStats_zero /\
  loadreaderInterval (cd (snd (doLoadReaderIteration Stub.flags Stub.root_tracker)))
  = 2 * Go.Second.
Proof.
  assert (H1 : handler_GetCgroupPath "cpu" (handler (cd Stub.root_tracker))
               = (("/sys/fs/cgroup/cpu"%string, None), Stub.steady_handler "/"))
    by reflexivity.
  assert (H2 : loadReader (cd Stub.root_tracker) = Some info.LoadStats_zero)
    by reflexivity.
  assert (H3 : loadReader_GetCpuLoad (Name_of (cd Stub.root_tracker))
                 "/sys/fs/cgroup/cpu" info.LoadStats_zero
               = ((info.LoadStats_zero, None), info.LoadStats_zero)) by reflexivity.
  destruct (load_reader_backs_off Stub.flags Stub.root_tracker H1 H2 H3)
    as (_ & Ht & Hi & _).
  split; [exact Ht | rewrite Hi; reflexivity].
Defined.


(** A tracker without reader, through turns of both loops. *)
Lemma no_reader_no_load_average_witness :
  loadReader
    (cd (run_calls Stub.flags
           [call_loadReaderIteration; call_housekeepingIteration; call_loadReaderIteration]
           Stub.readerless_tracker)) = None /\
  loadAvg
    (cd (run_calls Stub.flags
           [call_loadReaderIteration; call_housekeepingIteration; call_loadReaderIteration]
           Stub.readerless_tracker)) = loadAvg (cd Stub.readerless_tracker).
Proof.
  apply no_reader_no_load_average; reflexivity.
Defined.

(** The root container, asked again two milliseconds after a refresh. *)
Lemma GetInfo_serves_from_memory_witness :
  GetInfo (snd (GetInfo Stub.root_tracker))
  = ((Some addr_c_info, None),
     {| cd := cd (snd (GetInfo Stub.root_tracker));
        clock := snd (clock_Now (clock (snd (GetInfo Stub.root_tracker))));
        events := events (snd (GetInfo Stub.root_tracker)) |}).
Proof.
  apply GetInfo_serves_from_memory. apply Z.leb_le. vm_compute. reflexivity.
Defined.

(** A live container of which the handler has no spec. *)
Lemma failed_refresh_is_retried_witness :
  snd (fst (GetInfo Stub.specless_tracker)) = Some Stub.stats_error /\
  fst (fst (GetInfo Stub.specless_tracker)) = None /\
  lastUpdatedTime (cd (snd (GetInfo Stub.specless_tracker)))
  = lastUpdatedTime (cd Stub.specless_tracker).
Proof.
  assert (H : snd (fst (GetInfo Stub.specless_tracker)) = Some Stub.stats_error)
    by reflexivity.
  split; [exact H|]. apply (failed_refresh_is_retried Stub.specless_tracker H).
Defined.

(** A container that is gone. *)
Lemma GetInfo_of_a_dead_container_witness :
  fst (GetInfo Stub.vanished_tracker) = (Some addr_c_info, None) /\
  info (cd (snd (GetInfo Stub.vanished_tracker))) = info (cd Stub.vanished_tracker) /\
  handler (cd (snd (GetInfo Stub.vanished_tracker))) = Stub.vanished_handler /\
  lastUpdatedTime (cd (snd (GetInfo Stub.vanished_tracker)))
  = fst (clock_Now (snd (clock_Now (clock Stub.vanished_tracker)))) /\
  events (snd (GetInfo Stub.vanished_tracker)) = events Stub.vanished_tracker.
Proof.
  apply GetInfo_of_a_dead_container
    with (spec := info.ContainerSpec_zero) (e1 := Stub.stats_error)
         (h1 := Stub.vanished_handler) (h2 := Stub.vanished_handler)
         (subs := []) (e2 := Stub.stats_error) (h3 := Stub.vanished_handler).
  - apply Z.ltb_lt. vm_compute. reflexivity.
  - reflexivity.
  - reflexivity.
  - reflexivity.
  - reflexivity.
Defined.

(** A table whose second line has two fields only. *)
Lemma malformed_line_fails_the_listing_witness :
  exists e,
    GetProcessList (platformI := Stub.short_platform) (cd Stub.root_tracker)
      "/docker/agent" true
    = (None, Some e).
Proof.
  apply (malformed_line_fails_the_listing (platformI := Stub.short_platform))
    with (out := Stub.short_table) (line := "root 7"%string).
  - reflexivity.
  - vm_compute. right. left. reflexivity.
  - intros [H _]. vm_compute in H. lia.
Defined.

(** The processes of [/docker/abc] in the table of pids. *)
Lemma getContainerPids_selects_by_cgroup_witness :
  getContainerPids (platformI := Stub.pid_platform) (cd Stub.abc_tracker) true
  = (Some (pids_of_lines (platformI := Stub.pid_platform) (cd Stub.abc_tracker)
             (tl (Go.strings_Split Stub.pid_table Go.newline))), None) /\
  pids_of_lines (platformI := Stub.pid_platform) (cd Stub.abc_tracker)
    (tl (Go.strings_Split Stub.pid_table Go.newline))
  = ["9"; "12"]%string.
Proof.
  split; [|vm_compute; reflexivity].
  apply (getContainerPids_selects_by_cgroup (platformI := Stub.pid_platform)).
  - reflexivity.
  - vm_compute. repeat constructor.
Defined.

(** The two names of the comment of [ParseRepositoryTag]. *)
Lemma ParseRepositoryTag_at_the_last_colon_witness :
  docker.ParseRepositoryTag
    ("localhost.localdomain:5000/samalba/hipache" ++ ":" ++ "latest")
  = ("localhost.localdomain:5000/samalba/hipache"%string, "latest"%string) /\
  docker.ParseRepositoryTag ("localhost.localdomain" ++ ":" ++ "5000/samalba/hipache")
  = ("localhost.localdomain:5000/samalba/hipache"%string, ""%string).
Proof.
  split.
  - etransitivity; [apply ParseRepositoryTag_at_the_last_colon; reflexivity | reflexivity].
  - etransitivity; [apply ParseRepositoryTag_at_the_last_colon; reflexivity | reflexivity].
Defined.

(** Thirty seconds after the last write, with a buffer of a minute. *)
Lemma AddStats_buffers_until_ready_witness :
  fst (influxdb2.AddStats (Stub.ref_of "/docker/abc") (Some (Stub.sample 0 1000))
         (Stub.recording_sink false (60 * Go.Second)))
  = influxdb2.Return None /\
  influxdb2.points
    (influxdb2.self
       (snd (influxdb2.AddStats (Stub.ref_of "/docker/abc") (Some (Stub.sample 0 1000))
               (Stub.recording_sink false (60 * Go.Second)))))
  = influxdb2.points (influxdb2.self (Stub.recording_sink false (60 * Go.Second)))
    ++ influxdb2.points_of (Stub.ref_of "/docker/abc") (Stub.sample 0 1000) /\
  influxdb2.client
    (influxdb2.self
       (snd (influxdb2.AddStats (Stub.ref_of "/docker/abc") (Some (Stub.sample 0 1000))
               (Stub.recording_sink false (60 * Go.Second)))))
  = influxdb2.client (influxdb2.self (Stub.recording_sink false (60 * Go.Second))) /\
  influxdb2.lastWrite
    (influxdb2.self
       (snd (influxdb2.AddStats (Stub.ref_of "/docker/abc") (Some (Stub.sample 0 1000))
               (Stub.recording_sink false (60 * Go.Second)))))
  = influxdb2.lastWrite (influxdb2.self (Stub.recording_sink false (60 * Go.Second))).
Proof.
  apply (AddStats_buffers_until_ready (Stub.ref_of "/docker/abc") (Stub.sample 0 1000)
           (Stub.recording_sink false (60 * Go.Second))).
  reflexivity.
Defined.

(** Ninety seconds after the last write, on a client that refuses the
    batch: the error is returned and the buffer is empty. *)
Lemma AddStats_flushes_the_buffer_witness :
  fst (influxdb2.AddStats (Stub.ref_of "/docker/abc") (Some (Stub.sample 0 1000))
         (Stub.recording_sink true 0))
  = influxdb2.Return
      (Some (Go.fmt_Errorf "failed to write stats to influxDb - %s"
               [Go.VError Stub.write_error])) /\
  influxdb2.client
    (influxdb2.self
       (snd (influxdb2.AddStats (Stub.ref_of "/docker/abc") (Some (Stub.sample 0 1000))
               (Stub.recording_sink true 0))))
  = Some {| Stub.written :=
              [influxdb2.points_of (Stub.ref_of "/docker/abc") (Stub.sample 0 1000)];
            Stub.refusing := true |} /\
  influxdb2.points
    (influxdb2.self
       (snd (influxdb2.AddStats (Stub.ref_of "/docker/abc") (Some (Stub.sample 0 1000))
               (Stub.recording_sink true 0))))
  = [].
Proof.
  assert (H1 : fst (influxdb2.call_readyToFlush (Stub.recording_sink true 0)) = true)
    by reflexivity.
  assert (H2 : influxdb2.client (influxdb2.self (Stub.recording_sink true 0))
               = Some {| Stub.written := []; Stub.refusing := true |}) by reflexivity.
  destruct (AddStats_flushes_the_buffer (Stub.ref_of "/docker/abc") (Stub.sample 0 1000)
              (Stub.recording_sink true 0) H1 H2) as (Hr & Hc & Hp & _).
  split; [exact Hr | split; [exact Hc | exact Hp]].
Defined.

(** A driver that is closed when it is ready to flush. *)
Lemma AddStats_after_Close_panics_witness :
  fst (influxdb2.AddStats (Stub.ref_of "/docker/abc") (Some (Stub.sample 0 1000))
         (snd (influxdb2.Close (Stub.recording_sink false 0))))
  = influxdb2.Panic /\
  influxdb2.points
    (influxdb2.self
       (snd (influxdb2.AddStats (Stub.ref_of "/docker/abc") (Some (Stub.sample 0 1000))
               (snd (influxdb2.Close (Stub.recording_sink false 0))))))
  = [].
Proof.
  apply (AddStats_after_Close_panics (Stub.ref_of "/docker/abc") (Stub.sample 0 1000)
           (Stub.recording_sink false 0)).
  reflexivity.
Defined.

(** The root container's reader through three turns: the probing
    interval is within 0 and a minute. *)
Lemma load_reader_interval_in_range_witness :
  0 <= loadreaderInterval
         (cd (run_calls Stub.flags
                [call_loadReaderIteration; call_loadReaderIteration;
                 call_housekeepingIteration; call_loadReaderIteration]
                Stub.root_tracker))
    <= Z.max (LoadreaderInterval Stub.flags) (MaxLoadReaderInterval Stub.flags).
Proof.
  apply load_reader_interval_in_range.
  - split; [apply Z.leb_le | apply Z.ltb_lt]; vm_compute; reflexivity.
  - split; [apply Z.leb_le | apply Z.ltb_lt]; vm_compute; reflexivity.
  - split; apply Z.leb_le; vm_compute; reflexivity.
Defined.

(** The largest counter is written as -1. *)
Lemma toSigned_uint64_is_reversible_witness :
  exists z,
    influxdb2.toSigned_uint64 (2 ^ 64 - 1) = influxdb2.Int64Value z /\
    Go.is_int64 z /\
    Go.wrap_uint64 z = 2 ^ 64 - 1 /\
    (2 ^ 64 - 1 < 2 ^ 63 -> z = 2 ^ 64 - 1) /\
    (2 ^ 63 <= 2 ^ 64 - 1 -> z = 2 ^ 64 - 1 - 2 ^ 64).
Proof.
  apply toSigned_uint64_is_reversible.
  split; [apply Z.leb_le | apply Z.ltb_lt]; vm_compute; reflexivity.
Defined.

(** ** Further scenarios *)

(** The file is read under the second process of the container, the first
    not showing it; the root container's processes do not show it. *)
Example ReadFile_scenarios :
  ReadFile (platformI := Stub.pid_platform) (cd Stub.abc_tracker) "etc/hostname" true
  = (Some "abc"%string, None) /\
  ReadFile (platformI := Stub.pid_platform) (cd Stub.root_tracker) "etc/hostname" true
  = (None, Some (Go.fmt_Errorf "file %q does not exist." [Go.VString "etc/hostname"])).
Proof. split; vm_compute; reflexivity. Qed.

(** A tag may be empty, and a name without colon has none. *)
Example ParseRepositoryTag_scenarios :
  docker.ParseRepositoryTag "ubuntu:" = ("ubuntu"%string, ""%string) /\
  docker.ParseRepositoryTag "ubuntu" = ("ubuntu"%string, ""%string) /\
  docker.ParseRepositoryTag "a:b:c" = ("a:b"%string, "c"%string).
Proof. repeat split. Qed.

(** Two samples through a driver that is ready at the second: one batch
    of all points. *)
Example buffer_scenario :
  let run := influxdb2.AddStats_run
               [(Stub.ref_of "/docker/abc", Stub.sample 0 1000);
                (Stub.ref_of "/docker/abc", Stub.sample 1 1001)]
               (Stub.recording_sink false (30 * Go.Second + Go.Millisecond)) in
  map (@List.length _) (fst run) = [0; 26]%nat /\
  influxdb2.points (influxdb2.self (snd run)) = [].
Proof. vm_compute. split; reflexivity. Qed.
